(** * Restaurant management backend (app.py): data model, serializers and
      request handlers, with the properties of its specification.

    The store is a record of tables, each a list of rows in insertion
    (rowid) order.  A request body is a JSON value, handled dynamically as
    the Python code does: [dict.get], truthiness, [int()], [float()].
    A handler is a function from a store and a request to a store and an
    outcome; a handler that raises leaves the store as it found it, since
    nothing was committed. *)

From Stdlib Require Import ZArith List String Ascii Bool Lia.
From Stdlib Require Import DecimalString.
From Stdlib Require Floats.SpecFloat.
Import ListNotations.
Local Open Scope string_scope.
Local Open Scope Z_scope.

Set Implicit Arguments.
Set Warnings "-register-all".

(* ================================================================== *)
(** * Python values and builtins *)

(** Exceptions the handlers can meet.  [IntegrityError] and
    [InterfaceError] come from the store (a constraint that fails, a value
    of a type the driver cannot bind; from Python 3.11 on the driver calls
    the latter ProgrammingError), the others from the Python builtins and,
    [OverflowError], also from the driver. *)
Inductive exn :=
| ValueError | TypeError | OverflowError | AttributeError
| IntegrityError | InterfaceError.

(** A Python float is an IEEE binary64 value. *)
Definition pyfloat := SpecFloat.spec_float.

(** What [request.get_json()] yields, and what [jsonify] takes.
    [JNull] is Python's [None]; a [JObj] is a Python dict, keys distinct,
    in insertion order. *)
Inductive json :=
| JNull
| JBool (b : bool)
| JInt (z : Z)
| JFloat (f : pyfloat)
| JStr (s : string)
| JArr (l : list json)
| JObj (d : list (string * json)).

Definition dict := list (string * json).

(** Python truthiness: [if v], [not v], [v or w]. *)
Definition truthy (v : json) : bool :=
  match v with
  | JNull => false
  | JBool b => b
  | JInt z => negb (z =? 0)
  | JFloat (SpecFloat.S754_zero _) => false
  | JFloat _ => true
  | JStr s => negb (s =? "")%string
  | JArr l => match l with [] => false | _ => true end
  | JObj d => match d with [] => false | _ => true end
  end.

(** [v or w] *)
Definition py_or (v w : json) : json := if truthy v then v else w.

Fixpoint lookup (k : string) (d : dict) : option json :=
  match d with
  | [] => None
  | (k', v) :: d' => if (k' =? k)%string then Some v else lookup k d'
  end.

(** [d.get(k, dflt)]; [d.get(k)] is [get d k JNull]. *)
Definition get (d : dict) (k : string) (dflt : json) : json :=
  match lookup k d with Some v => v | None => dflt end.

(** [.get] exists on dicts only. *)
Definition as_dict (v : json) : exn + dict :=
  match v with
  | JObj d => inr d
  | _ => inl AttributeError
  end.

(** ** Text

    A string holds the UTF-8 bytes of a Python [str] (one without lone
    surrogates, which have no UTF-8).  [code_points] gives its characters;
    bytes that are no UTF-8 stand for no [str] and come out as U+FFFD. *)

Definition byte (c : ascii) : Z := Z.of_nat (nat_of_ascii c).

Fixpoint code_points_from (more : nat) (acc : Z) (l : list ascii) : list Z :=
  match l with
  | [] => match more with O => [] | S _ => [65533] end
  | c :: l' =>
      let n := byte c in
      match more with
      | O =>
          if n <? 128 then n :: code_points_from 0 0 l'
          else if (194 <=? n) && (n <? 224) then code_points_from 1 (n - 192) l'
          else if (224 <=? n) && (n <? 240) then code_points_from 2 (n - 224) l'
          else if (240 <=? n) && (n <? 245) then code_points_from 3 (n - 240) l'
          else 65533 :: code_points_from 0 0 l'
      | S k =>
          if (128 <=? n) && (n <? 192) then
            match k with
            | O => (64 * acc + (n - 128)) :: code_points_from 0 0 l'
            | S _ => code_points_from k (64 * acc + (n - 128)) l'
            end
          else 65533 :: code_points_from 0 0 l'
      end
  end.

Definition code_points (s : string) : list Z :=
  code_points_from 0 0 (list_ascii_of_string s).

(** The string of one character. *)
Definition chr (n : Z) : string :=
  let b := fun k => ascii_of_nat (Z.to_nat k) in
  if n <? 128 then String (b n) ""
  else if n <? 2048 then
    String (b (192 + n / 64)) (String (b (128 + n mod 64)) "")
  else if n <? 65536 then
    String (b (224 + n / 4096))
      (String (b (128 + (n / 64) mod 64)) (String (b (128 + n mod 64)) ""))
  else
    String (b (240 + n / 262144))
      (String (b (128 + (n / 4096) mod 64))
         (String (b (128 + (n / 64) mod 64)) (String (b (128 + n mod 64)) ""))).

(** Iterating [for it in items]: lists yield their elements, dicts their
    keys, strings their characters; nothing else is iterable. *)
Definition py_iter (v : json) : exn + list json :=
  match v with
  | JArr l => inr l
  | JObj d => inr (map (fun kv => JStr (fst kv)) d)
  | JStr s => inr (map (fun n => JStr (chr n)) (code_points s))
  | _ => inl TypeError
  end.

(** ** Numerals

    [int()] and [float()] read the digits and the white space of all
    scripts: every character is first taken to an ASCII one, and the
    result is read as ASCII. *)

(** White space outside ASCII, as [str.isspace] has it. *)
Definition unicode_space (n : Z) : bool :=
  (n =? 133) || (n =? 160) || (n =? 5760)
  || ((8192 <=? n) && (n <=? 8202))
  || (n =? 8232) || (n =? 8233) || (n =? 8239) || (n =? 8287) || (n =? 12288).

(** The decimal digits outside ASCII (general category Nd, Unicode 14, the
    table of Python 3.11): each entry is the zero of ten digits in a row. *)
Definition decimal_zeros : list Z :=
  [ 1632; 1776; 1984; 2406; 2534; 2662; 2790; 2918; 3046; 3174; 3302;
    3430; 3558; 3664; 3792; 3872; 4160; 4240; 6112; 6160; 6470; 6608;
    6784; 6800; 6992; 7088; 7232; 7248; 42528; 43216; 43264; 43472;
    43504; 43600; 44016; 65296; 66720; 68912; 69734; 69872; 69942; 70096;
    70384; 70736; 70864; 71248; 71360; 71472; 71904; 72016; 72784; 73040;
    73120; 92768; 92864; 93008; 120782; 120792; 120802; 120812; 120822;
    123200; 123632; 125264; 130032 ].

Definition decimal_of (n : Z) : option Z :=
  match find (fun z => (z <=? n) && (n <? z + 10)) decimal_zeros with
  | Some z => Some (n - z)
  | None => None
  end.

(** What [int()] and [float()] read instead of a character: the character
    itself in ASCII, a space for white space, the ASCII digit for a decimal
    digit of another script, and a question mark, which no numeral has, for
    anything else. *)
Definition to_ascii (n : Z) : ascii :=
  if n <? 128 then ascii_of_nat (Z.to_nat n)
  else if unicode_space n then " "%char
  else match decimal_of n with
       | Some d => ascii_of_nat (Z.to_nat (48 + d))
       | None => "?"%char
       end.

Definition ascii_image (s : string) : list ascii :=
  map to_ascii (code_points s).

(** The white space a numeral may stand in: tab to carriage return, and the
    space. *)
Definition is_space (c : ascii) : bool :=
  let n := byte c in
  ((9 <=? n) && (n <=? 13)) || (n =? 32).

Definition digit_of (c : ascii) : option Z :=
  let n := byte c in
  if (48 <=? n) && (n <=? 57) then Some (n - 48) else None.

Definition is_underscore (c : ascii) : bool := (nat_of_ascii c =? 95)%nat.

Fixpoint lstrip (l : list ascii) : list ascii :=
  match l with
  | c :: l' => if is_space c then lstrip l' else l
  | [] => []
  end.

Definition strip (l : list ascii) : list ascii :=
  rev (lstrip (rev (lstrip l))).

(** A digit part: digits, with single underscores allowed between two
    digits.  Returns the value, the number of digits read and the rest of
    the input; [None] when the input does not start with a digit or an
    underscore is not followed by a digit. *)
Fixpoint digitpart_from (acc : Z) (n : Z) (l : list ascii) : option (Z * Z * list ascii) :=
  match l with
  | c :: l' =>
      match digit_of c with
      | Some d => digitpart_from (10 * acc + d) (n + 1) l'
      | None =>
          if is_underscore c then
            match l' with
            | c' :: _ =>
                match digit_of c' with
                | Some _ => digitpart_from acc n l'
                | None => None
                end
            | [] => None
            end
          else Some (acc, n, l)
      end
  | [] => Some (acc, n, [])
  end.

Definition digitpart (l : list ascii) : option (Z * Z * list ascii) :=
  match l with
  | c :: _ => match digit_of c with
              | Some _ => digitpart_from 0 0 l
              | None => None
              end
  | [] => None
  end.

(** An optional sign; [true] is minus. *)
Definition sign_of (l : list ascii) : bool * list ascii :=
  match l with
  | "-"%char :: l' => (true, l')
  | "+"%char :: l' => (false, l')
  | _ => (false, l)
  end.

(** [int(s)] on a string, base 10.  A numeral of more than 4300 digits is
    refused, as [sys.get_int_max_str_digits()] has it. *)
Definition int_of_string (s : string) : option Z :=
  let (neg, l) := sign_of (strip (ascii_image s)) in
  match digitpart l with
  | Some (v, n, []) => if n <=? 4300 then Some (if neg then - v else v) else None
  | _ => None
  end.

Definition lower (c : ascii) : ascii :=
  let n := nat_of_ascii c in
  if ((65 <=? n) && (n <=? 90))%nat then ascii_of_nat (n + 32) else c.

Definition binary64 (neg : bool) (m : Z) (e10 : Z) : pyfloat :=
  match m with
  | Zpos p =>
      if 0 <=? e10 then
        match m * 10 ^ e10 with
        | Zpos q => SpecFloat.binary_round 53 1024 neg q 0
        | _ => SpecFloat.S754_zero neg
        end
      else
        let '(mz, ez, lz) :=
          SpecFloat.SFdiv_core_binary 53 1024 m 0 (10 ^ (- e10)) 0 in
        SpecFloat.binary_round_aux 53 1024 neg mz ez lz
  | _ => SpecFloat.S754_zero neg
  end.

(** An optional exponent part [e[+-]digits]; the input must end there. *)
Definition exponent_of (l : list ascii) : option Z :=
  match l with
  | [] => Some 0
  | c :: l' =>
      if (nat_of_ascii (lower c) =? 101)%nat then
        let (neg, l'') := sign_of l' in
        match digitpart l'' with
        | Some (v, _, []) => Some (if neg then - v else v)
        | _ => None
        end
      else None
  end.

(** A decimal literal without its sign: digits with an optional fraction
    and an optional exponent, a digit at least before the exponent.  The
    literal stands for [m * 10 ^ e]. *)
Definition decimal_literal (l : list ascii) : option (Z * Z) :=
  match l with
  | "."%char :: l' =>
      match digitpart l' with
      | Some (fv, fn, rest) =>
          match exponent_of rest with
          | Some e => Some (fv, e - fn)
          | None => None
          end
      | None => None
      end
  | _ =>
      match digitpart l with
      | Some (iv, _, "."%char :: rest) =>
          let '(fv, fn, rest') :=
            match digitpart rest with
            | Some r => r
            | None => (0, 0, rest)
            end in
          match exponent_of rest' with
          | Some e => Some (iv * 10 ^ fn + fv, e - fn)
          | None => None
          end
      | Some (iv, _, rest) =>
          match exponent_of rest with
          | Some e => Some (iv, e)
          | None => None
          end
      | None => None
      end
  end.

(** [float(s)] on a string: a decimal literal, or inf, infinity or nan in
    any case, with an optional sign and surrounding white space. *)
Definition float_of_string (s : string) : option pyfloat :=
  let (neg, l) := sign_of (strip (ascii_image s)) in
  let word := string_of_list_ascii (map lower l) in
  if (word =? "inf")%string || (word =? "infinity")%string
  then Some (SpecFloat.S754_infinity neg)
  else if (word =? "nan")%string then Some SpecFloat.S754_nan
  else
    match decimal_literal l with
    | Some (m, e) => Some (binary64 neg m e)
    | None => None
    end.

(** [float(n)] on an int: the nearest double, OverflowError beyond the
    largest one. *)
Definition float_of_Z (z : Z) : exn + pyfloat :=
  match SpecFloat.binary_normalize 53 1024 z 0 false with
  | SpecFloat.S754_infinity _ => inl OverflowError
  | f => inr f
  end.

(** [int(x)] on a float: truncation towards zero. *)
Definition Z_of_float (f : pyfloat) : exn + Z :=
  match f with
  | SpecFloat.S754_zero _ => inr 0
  | SpecFloat.S754_infinity _ => inl OverflowError
  | SpecFloat.S754_nan => inl ValueError
  | SpecFloat.S754_finite s m e =>
      let v := if 0 <=? e then Zpos m * 2 ^ e else Zpos m / 2 ^ (- e) in
      inr (if s then - v else v)
  end.

Definition py_float (v : json) : exn + pyfloat :=
  match v with
  | JBool b => float_of_Z (if b then 1 else 0)
  | JInt z => float_of_Z z
  | JFloat f => inr f
  | JStr s => match float_of_string s with
              | Some f => inr f
              | None => inl ValueError
              end
  | JNull | JArr _ | JObj _ => inl TypeError
  end.

Definition py_int (v : json) : exn + Z :=
  match v with
  | JBool b => inr (if b then 1 else 0)
  | JInt z => inr z
  | JFloat f => Z_of_float f
  | JStr s => match int_of_string s with
              | Some z => inr z
              | None => inl ValueError
              end
  | JNull | JArr _ | JObj _ => inl TypeError
  end.

(** [str(n)] on an int. *)
Definition py_str (z : Z) : string := NilZero.string_of_int (Z.to_int z).

(** [s.replace(' ', '+')] *)
Fixpoint replace_space (s : string) : string :=
  match s with
  | EmptyString => EmptyString
  | String c s' =>
      String (if (c =? " ")%char then "+"%char else c) (replace_space s')
  end.


(* ================================================================== *)
(** * The store *)

(** ** Binding Python values to columns

    The SQLite driver takes None, ints, floats and strings and refuses lists
    and dicts.  An int has to fit a signed 64-bit integer: for any other the
    driver raises OverflowError. *)
Definition int64 (z : Z) : bool := (- 2 ^ 63 <=? z) && (z <? 2 ^ 63).

Definition sql_integer (z : Z) : exn + Z :=
  if int64 z then inr z else inl OverflowError.

(** A column of text affinity keeps a string as it is and an integer as its
    numeral.  SQLite also takes a float there and keeps the text it prints
    for it; that text is not modelled, and a float bound to a text column
    is refused here as the lists and dicts are. *)
Definition sql_text (v : json) : exn + option string :=
  match v with
  | JNull => inr None
  | JBool b => inr (Some (if b then "1" else "0"))
  | JInt z => if int64 z then inr (Some (py_str z)) else inl OverflowError
  | JStr s => inr (Some s)
  | JFloat _ | JArr _ | JObj _ => inl InterfaceError
  end.

(** A column declared with [default=]: the INSERT of a row whose attribute
    is None leaves the column out, and the row gets the default.  An UPDATE
    that sets the attribute to None writes NULL. *)
Definition or_default (dflt : string) (v : option string) : option string :=
  match v with
  | Some t => Some t
  | None => Some dflt
  end.

(** The same for a column declared [nullable=False]. *)
Definition sql_text_nn (v : json) : exn + string :=
  match sql_text v with
  | inr (Some t) => inr t
  | inr None => inl IntegrityError
  | inl e => inl e
  end.

(** A float column: SQLite stores NaN as NULL, and gives back 0.0 for a
    zero of either sign. *)
Definition sql_real (f : pyfloat) : option pyfloat :=
  match f with
  | SpecFloat.S754_nan => None
  | SpecFloat.S754_zero _ => Some (SpecFloat.S754_zero false)
  | _ => Some f
  end.

Definition sql_real_nn (f : pyfloat) : exn + pyfloat :=
  match sql_real f with
  | Some g => inr g
  | None => inl IntegrityError
  end.

Fixpoint all_digits (l : list ascii) : bool :=
  match l with
  | [] => true
  | c :: l' => match digit_of c with Some _ => all_digits l' | None => false end
  end.

(** The integer a float is equal to, if any. *)
Definition integral (f : pyfloat) : option Z :=
  match f with
  | SpecFloat.S754_zero _ => Some 0
  | SpecFloat.S754_finite sg m e =>
      if 0 <=? e then Some ((if sg then -1 else 1) * (Zpos m * 2 ^ e))
      else if Zpos m mod 2 ^ (- e) =? 0
           then Some ((if sg then -1 else 1) * (Zpos m / 2 ^ (- e)))
           else None
  | _ => None
  end.

(** Text compared with a number is read as a number when it is a
    well-formed literal: white space around it, a sign, digits with an
    optional fraction and exponent, no underscores.  Digits alone that fit
    64 bits are that integer, any other literal is the nearest double. *)
Definition sql_numeral (s : string) : option Z :=
  let l := strip (list_ascii_of_string s) in
  if existsb is_underscore l then None
  else
    let (neg, l') := sign_of l in
    match decimal_literal l' with
    | Some (m, e) =>
        if all_digits l' && int64 (if neg then - m else m)
        then Some (if neg then - m else m)
        else integral (binary64 neg m e)
    | None => None
    end.

(** A value compared with an integer column, the way SQLite compares: the
    integer it stands for (an integral float, text that reads as an
    integral number), [None] when it can equal no integer. *)
Definition sql_int (v : json) : exn + option Z :=
  match v with
  | JNull => inr None
  | JBool b => inr (Some (if b then 1 else 0))
  | JInt z => if int64 z then inr (Some z) else inl OverflowError
  | JFloat f => inr (integral f)
  | JStr s => inr (sql_numeral s)
  | JArr _ | JObj _ => inl InterfaceError
  end.

(** ** Rows *)

Module User.
Record t := mk {
  id : Z;
  name : string;
  email : string;
  password_hash : string * string;
  type : string;
  restaurant_id : option Z
}.
End User.

Module Restaurant.
Record t := mk {
  id : Z;
  name : string;
  logo : option string
}.
End Restaurant.

Module MenuItem.
Record t := mk {
  id : Z;
  restaurant_id : Z;
  name : string;
  price : pyfloat;
  img : option string;
  order_count : option Z
}.

Definition to_dict (self : t) : json :=
  JObj [ ("id", JInt (id self));
         ("name", JStr (name self));
         ("price", JFloat (price self));
         ("img", JStr (match img self with
                       | Some i => if (i =? "")%string
                                   then "https://via.placeholder.com/400x200?text=Dish"
                                   else i
                       | None => "https://via.placeholder.com/400x200?text=Dish"
                       end));
         ("orderCount", match order_count self with
                        | Some c => JInt c
                        | None => JNull
                        end) ].
End MenuItem.

Definition opt_str (o : option string) : json :=
  match o with Some s => JStr s | None => JNull end.

Module Table.
Record t := mk {
  id : Z;
  restaurant_id : Z;
  num : string;
  status : option string
}.

Definition to_dict (self : t) : json :=
  JObj [ ("id", JInt (id self));
         ("num", JStr (num self));
         ("status", opt_str (status self)) ].
End Table.

Module Booking.
Record t := mk {
  id : Z;
  table_id : Z;
  user_name : option string;
  start : option string;
  end_ : option string
}.

(** [self.table], the backref: the row of the owning table. *)
Definition table (tables : list Table.t) (self : t) : option Table.t :=
  find (fun tb => Table.id tb =? table_id self) tables.

Definition to_dict (tables : list Table.t) (self : t) : json :=
  JObj [ ("id", JInt (id self));
         ("tableNum", JStr (match table tables self with
                            | Some tb => Table.num tb
                            | None => py_str (table_id self)
                            end));
         ("userName", opt_str (user_name self));
         ("start", opt_str (start self));
         ("end", opt_str (end_ self)) ].
End Booking.

(** A [datetime] is carried as its ISO-8601 text, what [isoformat()]
    gives. *)
Module Income.
Record t := mk {
  id : Z;
  restaurant_id : Z;
  amount : pyfloat;
  when : string
}.
End Income.

Module Feedback.
Record t := mk {
  id : Z;
  restaurant_id : Z;
  user_name : option string;
  when : string;
  food_rating : Z;
  service_rating : Z;
  text : option string
}.

Definition to_dict (self : t) : json :=
  JObj [ ("id", JInt (id self));
         ("userName", opt_str (user_name self));
         ("when", JStr (when self));
         ("foodRating", JInt (food_rating self));
         ("serviceRating", JInt (service_rating self));
         ("text", opt_str (text self)) ].
End Feedback.

(** [items_json] holds [json.dumps(items)]; the text is identified with the
    value it encodes, which [json.loads] gives back. *)
Module Order.
Record t := mk {
  id : string;
  restaurant_id : Z;
  user_name : option string;
  items_json : option json;
  total : option pyfloat;
  method : option string;
  when : string
}.

Definition to_dict (self : t) : json :=
  let items := match items_json self with
               | Some v => v
               | None => JArr []
               end in
  JObj [ ("id", JStr (id self));
         ("userName", opt_str (user_name self));
         ("items", items);
         ("total", match total self with
                   | Some f => JFloat f
                   | None => JNull
                   end);
         ("method", opt_str (method self));
         ("when", JStr (when self)) ].
End Order.

Record db := mkdb {
  users : list User.t;
  restaurants : list Restaurant.t;
  menu_items : list MenuItem.t;
  tables : list Table.t;
  bookings : list Booking.t;
  incomes : list Income.t;
  feedback : list Feedback.t;
  orders : list Order.t
}.

Definition empty_db : db := mkdb [] [] [] [] [] [] [] [].

(** An INTEGER PRIMARY KEY left to the store: one more than the largest
    in use, 1 in an empty table. *)
Definition next_id (ids : list Z) : Z :=
  match ids with
  | [] => 1
  | i :: rest => fold_left Z.max rest i + 1
  end.

Fixpoint update_first {A : Type} (p : A -> bool) (f : A -> A) (l : list A) : list A :=
  match l with
  | [] => []
  | x :: l' => if p x then f x :: l' else x :: update_first p f l'
  end.

(** ** Relationships *)

Definition menu_items_of (s : db) (r : Restaurant.t) : list MenuItem.t :=
  filter (fun m => MenuItem.restaurant_id m =? Restaurant.id r) (menu_items s).

Definition tables_of (s : db) (r : Restaurant.t) : list Table.t :=
  filter (fun tb => Table.restaurant_id tb =? Restaurant.id r) (tables s).

Definition orders_of (s : db) (r : Restaurant.t) : list Order.t :=
  filter (fun o => Order.restaurant_id o =? Restaurant.id r) (orders s).

Definition incomes_of (s : db) (r : Restaurant.t) : list Income.t :=
  filter (fun i => Income.restaurant_id i =? Restaurant.id r) (incomes s).

Definition feedback_of (s : db) (r : Restaurant.t) : list Feedback.t :=
  filter (fun f => Feedback.restaurant_id f =? Restaurant.id r) (feedback s).

Definition bookings_of (s : db) (tb : Table.t) : list Booking.t :=
  filter (fun b => Booking.table_id b =? Table.id tb) (bookings s).

(* ================================================================== *)
(** * Serializers of a restaurant *)

Definition avatar_url (name : string) : string :=
  "https://ui-avatars.com/api/?name=" ++ replace_space name
    ++ "&&background=101827&color=fff".

(** [self.logo or f"..."] *)
Definition logo_or_avatar (self : Restaurant.t) : string :=
  match Restaurant.logo self with
  | Some l => if (l =? "")%string then avatar_url (Restaurant.name self) else l
  | None => avatar_url (Restaurant.name self)
  end.

Definition to_list_item (s : db) (self : Restaurant.t) : json :=
  JObj [ ("id", JInt (Restaurant.id self));
         ("name", JStr (Restaurant.name self));
         ("logo", JStr (logo_or_avatar self));
         ("menuCount", JInt (Z.of_nat (List.length (menu_items_of s self))));
         ("tableCount", JInt (Z.of_nat (List.length (tables_of s self)))) ].

(** The two nested loops of [to_full], appending to [bookings]. *)
Fixpoint append_bookings (s : db) (bs : list Booking.t) (acc : list json) : list json :=
  match bs with
  | [] => acc
  | b :: bs' => append_bookings s bs' (acc ++ [Booking.to_dict (tables s) b])%list
  end.

Fixpoint collect_bookings (s : db) (ts : list Table.t) (acc : list json) : list json :=
  match ts with
  | [] => acc
  | tb :: ts' => collect_bookings s ts' (append_bookings s (bookings_of s tb) acc)
  end.

Definition to_full (s : db) (self : Restaurant.t) : json :=
  let bookings := collect_bookings s (tables_of s self) [] in
  JObj [ ("id", JInt (Restaurant.id self));
         ("name", JStr (Restaurant.name self));
         ("logo", JStr (logo_or_avatar self));
         ("menu", JArr (map MenuItem.to_dict (menu_items_of s self)));
         ("tables", JArr (map Table.to_dict (tables_of s self)));
         ("orders", JArr (map Order.to_dict (orders_of s self)));
         ("incomes", JArr (map (fun i => JFloat (Income.amount i)) (incomes_of s self)));
         ("feedback", JArr (map Feedback.to_dict (feedback_of s self)));
         ("bookings", JArr bookings) ].

(* ================================================================== *)
(** * Request handlers *)

(** What the client gets: a JSON body with a status, the 404 page of
    [get_or_404], or the 500 of an exception nobody caught. *)
Inductive outcome :=
| Json (status : Z) (body : json)
| NotFound
| Unhandled (e : exn).

(** The body of a handler: it leaves early with an outcome ([inl]), before
    any commit, or goes on with a value. *)
Definition comp (A : Type) : Type := (outcome + A)%type.

Definition bind {A B : Type} (c : comp A) (k : A -> comp B) : comp B :=
  match c with
  | inl o => inl o
  | inr a => k a
  end.

Notation "x <- c ;; k" := (bind c (fun x => k))
  (at level 61, c at next level, right associativity).

(** A Python or store call that may raise. *)
Definition py {A : Type} (c : exn + A) : comp A :=
  match c with
  | inl e => inl (Unhandled e)
  | inr a => inr a
  end.

Definition leave {A : Type} (o : outcome) : comp A := inl o.

(** [db.session.commit()] and the response that follows it. *)
Definition commit (s : db) (o : outcome) : comp (db * outcome) := inr (s, o).

(** A handler that left early committed nothing. *)
Definition run (s : db) (c : comp (db * outcome)) : db * outcome :=
  match c with
  | inl o => (s, o)
  | inr p => p
  end.

(** What a request draws from outside: the clock, [uuid.uuid4()], the salt
    of [generate_password_hash]. *)
Record env := mkenv {
  utcnow : string;
  uuid4 : string;
  gen_salt : string
}.

Definition error (msg : string) : json := JObj [("error", JStr msg)].
Definition message (msg : string) : json := JObj [("message", JStr msg)].

Definition py_eq_str (v : json) (s : string) : bool :=
  match v with
  | JStr t => (t =? s)%string
  | _ => false
  end.

(** ** Password hashing (werkzeug), at its interface

    A hash is a salt and a key derived from salt and password.  The key
    derivation is a stand-in: all that is used of it is that it is a
    function of the salt and the password, so that the hash of a password
    checks against that password. *)
Definition derive_key (salt password : string) : string :=
  salt ++ "$" ++ password.

Definition generate_password_hash (salt : string) (password : json)
  : exn + (string * string) :=
  match password with
  | JStr p => inr (salt, derive_key salt p)
  | _ => inl AttributeError
  end.

Definition check_password_hash (h : string * string) (password : json)
  : exn + bool :=
  match password with
  | JStr p => inr (derive_key (fst h) p =? snd h)%string
  | _ => inl AttributeError
  end.

(** ** Queries *)

(** [Restaurant.query.get_or_404(rid)].  The id of the route is bound to
    the query, and the driver refuses one beyond 64 bits; the store gives
    no row such an id, so that the refusal is written as the second case
    of an id that no row has. *)
Definition get_or_404 (s : db) (rid : Z) : comp Restaurant.t :=
  match find (fun r => Restaurant.id r =? rid) (restaurants s) with
  | Some r => inr r
  | None => if int64 rid then leave NotFound
            else leave (Unhandled OverflowError)
  end.

(** [User.query.filter_by(email=email).first()] *)
Definition user_by_email (s : db) (email : json) : exn + option User.t :=
  match sql_text email with
  | inl e => inl e
  | inr None => inr None
  | inr (Some t) => inr (find (fun u => (User.email u =? t)%string) (users s))
  end.

(** The predicate of [Table.query.filter_by(restaurant_id=.., num=..)]. *)
Definition table_is (rid : Z) (num : string) (tb : Table.t) : bool :=
  (Table.restaurant_id tb =? rid) && (Table.num tb =? num)%string.

(** The predicate of [MenuItem.query.filter_by(id=.., restaurant_id=..)]. *)
Definition menu_item_is (key : option Z) (rid : Z) (m : MenuItem.t) : bool :=
  match key with
  | Some k => (MenuItem.id m =? k) && (MenuItem.restaurant_id m =? rid)
  | None => false
  end.

(** ** Updates of one table of the store *)

Definition set_users (s : db) (l : list User.t) : db :=
  mkdb l (restaurants s) (menu_items s) (tables s) (bookings s) (incomes s)
       (feedback s) (orders s).
Definition set_restaurants (s : db) (l : list Restaurant.t) : db :=
  mkdb (users s) l (menu_items s) (tables s) (bookings s) (incomes s)
       (feedback s) (orders s).
Definition set_menu_items (s : db) (l : list MenuItem.t) : db :=
  mkdb (users s) (restaurants s) l (tables s) (bookings s) (incomes s)
       (feedback s) (orders s).
Definition set_tables (s : db) (l : list Table.t) : db :=
  mkdb (users s) (restaurants s) (menu_items s) l (bookings s) (incomes s)
       (feedback s) (orders s).
Definition set_incomes (s : db) (l : list Income.t) : db :=
  mkdb (users s) (restaurants s) (menu_items s) (tables s) (bookings s) l
       (feedback s) (orders s).
Definition set_feedback (s : db) (l : list Feedback.t) : db :=
  mkdb (users s) (restaurants s) (menu_items s) (tables s) (bookings s)
       (incomes s) l (orders s).
Definition set_orders (s : db) (l : list Order.t) : db :=
  mkdb (users s) (restaurants s) (menu_items s) (tables s) (bookings s)
       (incomes s) (feedback s) l.

(** ** POST /api/register *)

(** The INSERT of the new user; [email] is declared unique. *)
Definition insert_user (s : db) (name email type_ : json)
    (password_hash : string * string) (restaurant_id : option Z) : exn + db :=
  match sql_text_nn name, sql_text_nn email, sql_text_nn type_ with
  | inr n, inr em, inr ty =>
      if existsb (fun u => (User.email u =? em)%string) (users s)
      then inl IntegrityError
      else inr (set_users s
                  (users s ++ [User.mk (next_id (map User.id (users s)))
                                       n em password_hash ty restaurant_id])%list)
  | inl e, _, _ => inl e
  | _, inl e, _ => inl e
  | _, _, inl e => inl e
  end.

(** [Restaurant(name=name)], added and flushed. *)
Definition insert_restaurant (s : db) (name : json) : exn + (db * Z) :=
  match sql_text_nn name with
  | inr n =>
      let rid := next_id (map Restaurant.id (restaurants s)) in
      inr (set_restaurants s (restaurants s ++ [Restaurant.mk rid n None])%list, rid)
  | inl e => inl e
  end.

Definition register (s : db) (e : env) (body : json) : db * outcome :=
  run s (
    data <- py (as_dict (py_or body (JObj [])));;
    let type_ := get data "type" JNull in
    let name := get data "name" JNull in
    let email := get data "email" JNull in
    let password := get data "password" JNull in
    if negb (forallb truthy [type_; name; email; password]) then
      leave (Json 400 (error "Missing fields"))
    else
      found <- py (user_by_email s email);;
      match found with
      | Some _ => leave (Json 400 (error "Email already registered"))
      | None =>
          password_hash <- py (generate_password_hash (gen_salt e) password);;
          sr <- (if py_eq_str type_ "restaurant" then
                   p <- py (insert_restaurant s name);;
                   inr (fst p, Some (snd p))
                 else inr (s, None));;
          s' <- py (insert_user (fst sr) name email type_ password_hash (snd sr));;
          commit s' (Json 201 (message "Registration successful"))
      end).

(** ** POST /api/login *)

Definition login (s : db) (body : json) : db * outcome :=
  run s (
    data <- py (as_dict (py_or body (JObj [])));;
    let email := get data "email" JNull in
    let password := get data "password" JNull in
    if negb (truthy email) || negb (truthy password) then
      leave (Json 400 (error "Missing credentials"))
    else
      found <- py (user_by_email s email);;
      match found with
      | None => leave (Json 401 (error "Invalid email or password"))
      | Some user =>
          ok <- py (check_password_hash (User.password_hash user) password);;
          if negb ok then leave (Json 401 (error "Invalid email or password"))
          else
            let resp := [ ("id", JInt (User.id user));
                          ("name", JStr (User.name user));
                          ("email", JStr (User.email user));
                          ("type", JStr (User.type user)) ] in
            if (User.type user =? "restaurant")%string then
              leave (Json 200 (JObj (resp ++
                [("restaurantId", match User.restaurant_id user with
                                  | Some i => JInt i
                                  | None => JNull
                                  end)])%list))
            else leave (Json 200 (JObj resp))
      end).

(** ** GET /api/restaurants and /api/restaurants/<rid> *)

Definition list_restaurants (s : db) : db * outcome :=
  (s, Json 200 (JArr (map (to_list_item s) (restaurants s)))).

Definition get_restaurant (s : db) (rid : Z) : db * outcome :=
  run s (
    r <- get_or_404 s rid;;
    leave (Json 200 (to_full s r))).

(** ** POST /api/restaurants/<rid>/menu *)

Definition is_none (v : json) : bool :=
  match v with JNull => true | _ => false end.

Definition add_menu_item (s : db) (rid : Z) (body : json) : db * outcome :=
  run s (
    r <- get_or_404 s rid;;
    data <- py (as_dict (py_or body (JObj [])));;
    let name := get data "name" JNull in
    let price := get data "price" JNull in
    let img := get data "img" JNull in
    if negb (truthy name) || is_none price then
      leave (Json 400 (error "Missing name or price"))
    else
      p <- py (py_float price);;
      n <- py (sql_text_nn name);;
      i <- py (sql_text img);;
      p' <- py (sql_real_nn p);;
      let mi := MenuItem.mk (next_id (map MenuItem.id (menu_items s)))
                            (Restaurant.id r) n p' i (Some 0) in
      commit (set_menu_items s (menu_items s ++ [mi])%list)
             (Json 201 (JObj [ ("message", JStr "Menu item added");
                               ("item", MenuItem.to_dict mi) ]))).

(** ** POST /api/restaurants/<rid>/tables *)

Definition add_table (s : db) (rid : Z) (body : json) : db * outcome :=
  run s (
    r <- get_or_404 s rid;;
    data <- py (as_dict (py_or body (JObj [])));;
    let num := get data "num" JNull in
    let status := get data "status" (JStr "Available") in
    if negb (truthy num) then
      leave (Json 400 (error "Missing table number"))
    else
      key <- py (sql_text num);;
      let same := fun tb => match key with
                            | Some n => table_is (Restaurant.id r) n tb
                            | None => false
                            end in
      match find same (tables s) with
      | Some t =>
          st <- py (sql_text status);;
          let t' := Table.mk (Table.id t) (Table.restaurant_id t) (Table.num t) st in
          commit (set_tables s (update_first same (fun _ => t') (tables s)))
                 (Json 201 (JObj [ ("message", JStr "Table updated");
                                   ("table", Table.to_dict t') ]))
      | None =>
          n <- py (sql_text_nn num);;
          st <- py (sql_text status);;
          let t := Table.mk (next_id (map Table.id (tables s)))
                            (Restaurant.id r) n (or_default "Available" st) in
          commit (set_tables s (tables s ++ [t])%list)
                 (Json 201 (JObj [ ("message", JStr "Table updated");
                                   ("table", Table.to_dict t) ]))
      end).

(** ** POST /api/restaurants/<rid>/income *)

Definition add_income (s : db) (e : env) (rid : Z) (body : json) : db * outcome :=
  run s (
    r <- get_or_404 s rid;;
    data <- py (as_dict (py_or body (JObj [])));;
    let amount := get data "amount" JNull in
    match py_float amount with
    | inl ValueError | inl TypeError =>
        leave (Json 400 (error "Invalid amount"))
    | inl ex => leave (Unhandled ex)
    | inr amt =>
        a <- py (sql_real_nn amt);;
        let inc := Income.mk (next_id (map Income.id (incomes s)))
                             (Restaurant.id r) a (utcnow e) in
        commit (set_incomes s (incomes s ++ [inc])%list)
               (Json 201 (message "Income added"))
    end).

(** ** POST /api/restaurants/<rid>/feedback *)

Definition add_feedback (s : db) (e : env) (rid : Z) (body : json) : db * outcome :=
  run s (
    r <- get_or_404 s rid;;
    data <- py (as_dict (py_or body (JObj [])));;
    let user_name := get data "userName" (JStr "Anonymous") in
    food_rating <- py (py_int (get data "foodRating" (JInt 0)));;
    service_rating <- py (py_int (get data "serviceRating" (JInt 0)));;
    let text := get data "text" (JStr "") in
    un <- py (sql_text user_name);;
    fr <- py (sql_integer food_rating);;
    sr <- py (sql_integer service_rating);;
    tx <- py (sql_text text);;
    let fb := Feedback.mk (next_id (map Feedback.id (feedback s)))
                          (Restaurant.id r) un (utcnow e) fr sr tx in
    commit (set_feedback s (feedback s ++ [fb])%list)
           (Json 201 (message "Feedback submitted"))).

(** ** POST /api/restaurants/<rid>/orders *)

(** [(mi.order_count or 0) + qty] *)
Definition count_or_0 (c : option Z) : Z :=
  match c with
  | Some n => n
  | None => 0
  end.

Definition add_count (qty : Z) (mi : MenuItem.t) : MenuItem.t :=
  MenuItem.mk (MenuItem.id mi) (MenuItem.restaurant_id mi) (MenuItem.name mi)
              (MenuItem.price mi) (MenuItem.img mi)
              (Some (count_or_0 (MenuItem.order_count mi) + qty)).

(** The session while the loop runs: the store as the transaction sees it,
    and what the next flush has to write, if anything: the new order as
    long as it has not been flushed (the row, or the error its INSERT will
    raise), later on a count that does not fit its column (the error its
    UPDATE will raise). *)
Definition session : Type := (db * option (exn + Order.t))%type.

(** The order id is the primary key of its table. *)
Definition insert_order (s : db) (o : Order.t) : exn + db :=
  if existsb (fun o' => (Order.id o' =? Order.id o)%string) (orders s)
  then inl IntegrityError
  else inr (set_orders s (orders s ++ [o])%list).

(** A query, and the commit, first flush what is pending. *)
Definition flush (ss : session) : exn + db :=
  match snd ss with
  | None => inr (fst ss)
  | Some (inl e) => inl e
  | Some (inr o) => insert_order (fst ss) o
  end.

(** The loop [for it in items]. *)
Fixpoint update_counts (rid : Z) (items : list json) (ss : session) : comp session :=
  match items with
  | [] => inr ss
  | it :: rest =>
      d <- py (as_dict it);;
      let mid := get d "id" JNull in
      qty <- py (py_int (get d "qty" (JInt 1)));;
      if truthy mid then
        s1 <- py (flush ss);;
        key <- py (sql_int mid);;
        match find (menu_item_is key rid) (menu_items s1) with
        | Some mi =>
            update_counts rid rest
              (set_menu_items s1
                 (update_first (menu_item_is key rid) (add_count qty) (menu_items s1)),
               if int64 (count_or_0 (MenuItem.order_count mi) + qty) then None
               else Some (inl OverflowError))
        | None => update_counts rid rest (s1, None)
        end
      else update_counts rid rest ss
  end.

Definition new_order (e : env) (rid : Z) (order_id : string)
    (user_name items method : json) (total : pyfloat) : exn + Order.t :=
  match sql_text user_name, sql_text method with
  | inr un, inr me =>
      inr (Order.mk order_id rid un (Some items) (sql_real total) me (utcnow e))
  | inl ex, _ => inl ex
  | _, inl ex => inl ex
  end.

Definition create_order (s : db) (e : env) (rid : Z) (body : json) : db * outcome :=
  run s (
    r <- get_or_404 s rid;;
    data <- py (as_dict (py_or body (JObj [])));;
    let user_name := get data "userName" (JStr "Guest") in
    let items := get data "items" (JArr []) in
    let method := get data "method" (JStr "online") in
    total <- py (py_float (get data "total" (JInt 0)));;
    let order_id := substring 0 8 (uuid4 e) in
    let o := new_order e (Restaurant.id r) order_id user_name items method total in
    lines <- py (py_iter items);;
    ss <- update_counts (Restaurant.id r) lines (s, Some o);;
    s' <- py (flush ss);;
    commit s' (Json 201 (JObj [ ("message", JStr "Order placed");
                                ("orderId", JStr order_id) ]))).

(** ** GET /api/health *)

Definition health (s : db) : db * outcome :=
  (s, Json 200 (JObj [("status", JStr "ok"); ("database", JStr "connected")])).

(** ** Start-up: [init_db] *)

Definition float_of_int (z : Z) : pyfloat :=
  SpecFloat.binary_normalize 53 1024 z 0 false.

Definition init_db (s : db) : db :=
  match restaurants s with
  | [] =>
      let demo_rest :=
        Restaurant.mk (next_id (map Restaurant.id (restaurants s)))
          "Spice & Flavor"
          (Some "https://ui-avatars.com/api/?name=Spice+Flavor&background=ff6b35&color=fff") in
      let rid := Restaurant.id demo_rest in
      let m0 := next_id (map MenuItem.id (menu_items s)) in
      let new_items :=
        [ MenuItem.mk m0 rid "Masala Dosa" (float_of_int 120)
            (Some "https://via.placeholder.com/400x200?text=Masala+Dosa") (Some 45);
          MenuItem.mk (m0 + 1) rid "Paneer Butter Masala" (float_of_int 240)
            (Some "https://via.placeholder.com/400x200?text=Paneer+Butter+Masala") (Some 32);
          MenuItem.mk (m0 + 2) rid "Biryani" (float_of_int 280)
            (Some "https://via.placeholder.com/400x200?text=Biryani") (Some 67) ] in
      let t0 := next_id (map Table.id (tables s)) in
      let new_tables :=
        [ Table.mk t0 rid "1" (Some "Available");
          Table.mk (t0 + 1) rid "2" (Some "Available");
          Table.mk (t0 + 2) rid "3" (Some "Occupied") ] in
      mkdb (users s) (restaurants s ++ [demo_rest])%list
           (menu_items s ++ new_items)%list (tables s ++ new_tables)%list
           (bookings s) (incomes s) (feedback s) (orders s)
  | _ => s
  end.

(** ** Runs of the service *)

Inductive operation :=
| Register (e : env) (body : json)
| Login (body : json)
| ListRestaurants
| GetRestaurant (rid : Z)
| AddMenuItem (rid : Z) (body : json)
| AddTable (rid : Z) (body : json)
| AddIncome (e : env) (rid : Z) (body : json)
| AddFeedback (e : env) (rid : Z) (body : json)
| CreateOrder (e : env) (rid : Z) (body : json)
| Health
| InitDb.

Definition perform (s : db) (op : operation) : db * outcome :=
  match op with
  | Register e body => register s e body
  | Login body => login s body
  | ListRestaurants => list_restaurants s
  | GetRestaurant rid => get_restaurant s rid
  | AddMenuItem rid body => add_menu_item s rid body
  | AddTable rid body => add_table s rid body
  | AddIncome e rid body => add_income s e rid body
  | AddFeedback e rid body => add_feedback s e rid body
  | CreateOrder e rid body => create_order s e rid body
  | Health => health s
  | InitDb => (init_db s, Json 200 JNull)
  end.

(** The store after a run, from left to right. *)
Definition run_all (s : db) (ops : list operation) : db :=
  fold_left (fun st op => fst (perform st op)) ops s.

(** The stores the service can be in: what a run from the empty store
    reaches. *)
Definition reachable (s : db) : Prop :=
  exists ops, s = run_all empty_db ops.

(* ================================================================== *)
(** * The vocabulary of the properties *)

(** ** Answers *)

(** A field of a serialized object. *)
Definition field (k : string) (v : json) : option json :=
  match v with
  | JObj d => lookup k d
  | _ => None
  end.

(** The bodies of two answers. *)
Definition table_updated (tb : Table.t) : json :=
  JObj [ ("message", JStr "Table updated"); ("table", Table.to_dict tb) ].

Definition order_placed (order_id : string) : json :=
  JObj [ ("message", JStr "Order placed"); ("orderId", JStr order_id) ].

(** ** Bookings and the logo *)

(** The flattening in the words of the specification: tables in stored
    order, and within a table its bookings in stored order. *)
Definition flat_bookings (s : db) (r : Restaurant.t) : list json :=
  flat_map (fun tb => map (Booking.to_dict (tables s)) (bookings_of s tb))
           (tables_of s r).

(** The number of bookings of each table of the restaurant. *)
Definition booking_counts (s : db) (r : Restaurant.t) : list nat :=
  map (fun tb => List.length (bookings_of s tb)) (tables_of s r).

(** The substitution in the words of the specification: every space of the
    name becomes a plus sign, every other character stays. *)
Definition subst_spaces (name : string) : string :=
  string_of_list_ascii
    (map (fun c => if (c =? " ")%char then "+"%char else c)
         (list_ascii_of_string name)).

(** ** Effects of an operation, invariants of the store *)

(** Two rows of the menu that differ in their order count at most. *)
Definition same_item (m m' : MenuItem.t) : Prop :=
  MenuItem.id m' = MenuItem.id m
  /\ MenuItem.restaurant_id m' = MenuItem.restaurant_id m
  /\ MenuItem.name m' = MenuItem.name m
  /\ MenuItem.price m' = MenuItem.price m
  /\ MenuItem.img m' = MenuItem.img m.

(** The store has a restaurant with this id. *)
Definition has_restaurant (s : db) (rid : Z) : Prop :=
  exists r, find (fun r => Restaurant.id r =? rid) (restaurants s) = Some r.

(** The ways in which one operation can change the store. *)
Inductive effect (s : db) : db -> Prop :=
| eff_none : effect s s
| eff_customer (u : User.t) :
    existsb (fun v => (User.email v =? User.email u)%string) (users s) = false ->
    User.type u <> "restaurant" ->
    User.restaurant_id u = None ->
    effect s (set_users s (users s ++ [u]))
| eff_owner (u : User.t) (n : string) :
    existsb (fun v => (User.email v =? User.email u)%string) (users s) = false ->
    User.restaurant_id u = Some (next_id (map Restaurant.id (restaurants s))) ->
    effect s (set_users
                (set_restaurants s
                   (restaurants s ++
                      [Restaurant.mk (next_id (map Restaurant.id (restaurants s))) n None]))
                (users s ++ [u]))
| eff_menu (mi : MenuItem.t) :
    MenuItem.id mi = next_id (map MenuItem.id (menu_items s)) ->
    MenuItem.order_count mi = Some 0 ->
    has_restaurant s (MenuItem.restaurant_id mi) ->
    effect s (set_menu_items s (menu_items s ++ [mi]))
| eff_table_new (tb : Table.t) :
    Table.id tb = next_id (map Table.id (tables s)) ->
    find (table_is (Table.restaurant_id tb) (Table.num tb)) (tables s) = None ->
    has_restaurant s (Table.restaurant_id tb) ->
    effect s (set_tables s (tables s ++ [tb]))
| eff_table_status (rid : Z) (n : string) (tb : Table.t) (st : option string) :
    find (table_is rid n) (tables s) = Some tb ->
    effect s (set_tables s
                (update_first (table_is rid n)
                   (fun _ => Table.mk (Table.id tb) (Table.restaurant_id tb)
                                      (Table.num tb) st)
                   (tables s)))
| eff_income (i : Income.t) :
    effect s (set_incomes s (incomes s ++ [i]))
| eff_feedback (f : Feedback.t) :
    effect s (set_feedback s (feedback s ++ [f]))
| eff_order (o : Order.t) (ms : list MenuItem.t) :
    Forall2 same_item (menu_items s) ms ->
    effect s (set_orders (set_menu_items s ms) (orders s ++ [o]))
| eff_seed :
    restaurants s = [] ->
    effect s (init_db s).

(** The key of the upsert of [add_table]. *)
Definition table_key (tb : Table.t) : Z * string :=
  (Table.restaurant_id tb, Table.num tb).

(** What holds of every store the service reaches. *)
Record consistent (s : db) : Prop := {
  emails_unique : NoDup (map User.email (users s));
  owners_linked :
    forall u, In u (users s) -> User.type u = "restaurant" ->
              User.restaurant_id u <> None;
  logos_set :
    forall r, In r (restaurants s) -> Restaurant.logo r <> Some "";
  menu_ids_unique : NoDup (map MenuItem.id (menu_items s));
  menu_ids_positive : Forall (fun m => 0 < MenuItem.id m) (menu_items s);
  table_keys_unique : NoDup (map table_key (tables s));
  tables_owned : restaurants s = [] -> tables s = []
}.

(** The rows of a menu have distinct ids, all positive. *)
Definition keyed (ms : list MenuItem.t) : Prop :=
  NoDup (map MenuItem.id ms) /\ Forall (fun m => 0 < MenuItem.id m) ms.

(** The row a registration writes. *)
Definition registered_user (s : db) (e : env) (ty n em pw : string)
    (rid : option Z) : User.t :=
  User.mk (next_id (map User.id (users s))) n em
          (gen_salt e, derive_key (gen_salt e) pw) ty rid.

(** ** The loop of an order *)

(** Every quantity the loop reads satisfies [Q]. *)
Definition quantities (Q : Z -> Prop) (items : list json) : Prop :=
  forall it d q, In it items -> as_dict it = inr d ->
                 py_int (get d "qty" (JInt 1)) = inr q -> Q q.

(** The session is the store [s] with its menu rows moved along [R], the
    order pending or appended; or it is one whose next flush raises. *)
Definition tracks (R : MenuItem.t -> MenuItem.t -> Prop) (s : db)
    (pending : exn + Order.t) (ss : session) : Prop :=
  exists ms, Forall2 R (menu_items s) ms /\
    ((snd ss = Some pending /\ fst ss = set_menu_items s ms) \/
     (exists o, pending = inr o /\ snd ss = None /\
                fst ss = set_orders (set_menu_items s ms) (orders s ++ [o])) \/
     (exists ex, snd ss = Some (inl ex))).

(** The session holds the store [s] with menu [ms], the order [o] still
    pending or already appended. *)
Definition holds (s : db) (o : Order.t) (ss : session)
    (ms : list MenuItem.t) : Prop :=
  (snd ss = Some (inr o) /\ fst ss = set_menu_items s ms)
  \/ (snd ss = None
      /\ fst ss = set_orders (set_menu_items s ms) (orders s ++ [o])).

(** A line of an order as the loop reads it: the menu item it names, if
    any, and its quantity. *)
Definition line : Type := (option Z * Z)%type.

(** A line that can be read: a dict whose id is an integer, null or left
    out, and whose qty, 1 if left out, [int()] accepts. *)
Definition read_line (it : json) : option line :=
  match it with
  | JObj dl =>
      match get dl "id" JNull, py_int (get dl "qty" (JInt 1)) with
      | JNull, inr q => Some (None, q)
      | JInt k, inr q => Some (Some k, q)
      | _, _ => None
      end
  | _ => None
  end.

(** The line names the row [m] by its id, and [m] is a menu item of
    restaurant [rid]. *)
Definition refers (rid : Z) (m : MenuItem.t) (l : line) : bool :=
  match fst l with
  | Some k => (k =? MenuItem.id m) && (rid =? MenuItem.restaurant_id m)
  | None => false
  end.

(** The id a line gives, if any, fits 64 bits. *)
Definition line_fits (l : line) : bool :=
  match fst l with
  | Some k => int64 k
  | None => true
  end.

(** A float as a row gives it back: nothing for NaN, 0.0 for a zero of
    either sign, the float itself otherwise. *)
Definition as_stored (f : pyfloat) : option pyfloat :=
  match f with
  | SpecFloat.S754_nan => None
  | SpecFloat.S754_zero _ => Some (SpecFloat.S754_zero false)
  | SpecFloat.S754_finite _ _ _ | SpecFloat.S754_infinity _ => Some f
  end.

(** The sum of a list of integers. *)
Fixpoint Zsum (l : list Z) : Z :=
  match l with
  | [] => 0
  | x :: l' => x + Zsum l'
  end.

(** The quantity the lines order of [m], all in all. *)
Definition ordered_qty (rid : Z) (ls : list line) (m : MenuItem.t) : Z :=
  Zsum (map snd (filter (refers rid m) ls)).

(** The row [m] with another count. *)
Definition set_count (m : MenuItem.t) (c : option Z) : MenuItem.t :=
  MenuItem.mk (MenuItem.id m) (MenuItem.restaurant_id m) (MenuItem.name m)
              (MenuItem.price m) (MenuItem.img m) c.

(** The row [m] after the order: untouched when no line names it, its
    count raised by what the lines order of it otherwise. *)
Definition ordered (rid : Z) (ls : list line) (m : MenuItem.t) : MenuItem.t :=
  if existsb (refers rid m) ls
  then set_count m (Some (count_or_0 (MenuItem.order_count m)
                          + ordered_qty rid ls m))
  else m.

(** One line seen from a row: the count of the row the line names goes up
    by the quantity of the line.  And all lines, one after the other. *)
Definition bump (rid : Z) (l : line) (m : MenuItem.t) : MenuItem.t :=
  if refers rid m l
  then set_count m (Some (count_or_0 (MenuItem.order_count m) + snd l))
  else m.

Definition apply_lines (rid : Z) (ls : list line) (m : MenuItem.t) : MenuItem.t :=
  fold_left (fun m' l => bump rid l m') ls m.

(** Line after line, the count a line gives to a row it names fits 64
    bits. *)
Fixpoint counts_fit (rid : Z) (ls : list line) (ms : list MenuItem.t) : bool :=
  match ls with
  | [] => true
  | l :: ls' =>
      forallb (fun m => negb (refers rid m l)
                        || int64 (count_or_0 (MenuItem.order_count m) + snd l)) ms
      && counts_fit rid ls' (map (bump rid l) ms)
  end.

(** ** Counts that do not decrease *)

(** The same row, its count not smaller. *)
Definition item_le (m m' : MenuItem.t) : Prop :=
  same_item m m'
  /\ count_or_0 (MenuItem.order_count m) <= count_or_0 (MenuItem.order_count m').

(** Every menu row of [s] is still there in [s'], in place, with a count
    that is not smaller; [s'] may have more rows after them. *)
Definition counts_grow (s s' : db) : Prop :=
  exists ms added,
    menu_items s' = (ms ++ added)%list /\ Forall2 item_le (menu_items s) ms.

(** Text of ASCII characters only, 4300 at most: what every interpreter
    reads in the same way, whatever its Unicode tables and its limit on the
    digits of a numeral. *)
Definition plain_ascii (t : string) : bool :=
  forallb (fun c => byte c <? 128) (list_ascii_of_string t)
  && (Z.of_nat (String.length t) <=? 4300).

(** A line of an order asks for a quantity that is not negative, or for one
    that cannot be read at all.  Text that is not read counts only when it
    is plain ASCII. *)
Definition qty_nonneg (it : json) : bool :=
  match it with
  | JObj d => match py_int (get d "qty" (JInt 1)) with
              | inr q => 0 <=? q
              | inl _ => match get d "qty" (JInt 1) with
                         | JStr t => plain_ascii t
                         | _ => true
                         end
              end
  | _ => true
  end.

(** The same of a whole order, and of an operation. *)
Definition nonneg_order (body : json) : bool :=
  match as_dict (py_or body (JObj [])) with
  | inr d => match py_iter (get d "items" (JArr [])) with
             | inr l => forallb qty_nonneg l
             | inl _ => true
             end
  | inl _ => true
  end.

Definition nonneg_op (op : operation) : bool :=
  match op with
  | CreateOrder _ _ body => nonneg_order body
  | _ => true
  end.

(** ** A small run of the service and some requests *)

(** What two requests draw from outside. *)
Definition env0 : env :=
  mkenv "2024-05-01T12:00:00" "3f2b8c1e-9a4d-4c6e-8f1a-2b3c4d5e6f70" "x9Kq".

Definition env1 : env :=
  mkenv "2024-05-01T12:30:00" "7d1e5a90-1b2c-4d3e-9f4a-5b6c7d8e9f01" "Lm2p".

(** Bodies of requests. *)
Definition owner_body : json :=
  JObj [ ("type", JStr "restaurant"); ("name", JStr "Spice & Flavor");
         ("email", JStr "owner@example.com"); ("password", JStr "s3cret") ].

Definition customer_body : json :=
  JObj [ ("type", JStr "customer"); ("name", JStr "Asha");
         ("email", JStr "asha@example.com"); ("password", JStr "hunter2") ].

Definition dosa_body : json :=
  JObj [ ("name", JStr "Masala Dosa"); ("price", JInt 120) ].

Definition table_body : json := JObj [ ("num", JStr "7") ].

(** One owner registered, one dish on the menu, one table. *)
Definition small_store : db :=
  run_all empty_db
    [ Register env0 owner_body; AddMenuItem 1 dosa_body; AddTable 1 table_body ].

(** The restaurant of [small_store], and the one [init_db] seeds. *)
Definition registered_restaurant : Restaurant.t :=
  Restaurant.mk 1 "Spice & Flavor" None.

Definition seeded_restaurant : Restaurant.t :=
  Restaurant.mk 1 "Spice & Flavor"
    (Some "https://ui-avatars.com/api/?name=Spice+Flavor&background=ff6b35&color=fff").

Definition occupied_body : json :=
  JObj [ ("num", JStr "7"); ("status", JStr "Occupied") ].

(** A dish for nothing. *)
Definition free_water_body : json :=
  JObj [ ("name", JStr "Water"); ("price", JInt 0) ].

(** A table whose status is given as null. *)
Definition null_status_body : json :=
  JObj [ ("num", JStr "8"); ("status", JNull) ].



Definition bad_price_body : json :=
  JObj [ ("name", JStr "Dosa"); ("price", JStr "abc") ].

Definition bad_total_body : json :=
  JObj [ ("items", JArr []); ("total", JStr "abc") ].

Definition bad_qty_body : json :=
  JObj [ ("items", JArr [ JObj [ ("id", JInt 1); ("qty", JStr "abc") ] ]) ].

Definition bad_rating_body : json :=
  JObj [ ("foodRating", JStr "abc") ].

Definition bad_amount_body : json :=
  JObj [ ("amount", JStr "abc") ].

Definition two_dosas_body : json :=
  JObj [ ("userName", JStr "Asha");
         ("items", JArr [ JObj [ ("id", JInt 1); ("qty", JInt 2) ] ]);
         ("total", JInt 240) ].

Definition negative_order_body : json :=
  JObj [ ("items", JArr [ JObj [ ("id", JInt 1); ("qty", JInt (-2)) ] ]) ].

(** Three dosas, five of a dish that does not exist, and one more dosa
    without a quantity. *)
Definition mixed_order_lines : list json :=
  [ JObj [ ("id", JInt 1); ("qty", JInt 3) ];
    JObj [ ("id", JInt 99); ("qty", JInt 5) ];
    JObj [ ("id", JInt 1) ] ].

Definition mixed_order_body : json :=
  JObj [ ("userName", JStr "Asha"); ("items", JArr mixed_order_lines);
         ("total", JInt 480) ].

(** Two owners, each with one dish: dish 1 is of restaurant 1, dish 2 of
    restaurant 2. *)
Definition second_owner_body : json :=
  JObj [ ("type", JStr "restaurant"); ("name", JStr "Idli House");
         ("email", JStr "idli@example.com"); ("password", JStr "pa55") ].

Definition idli_body : json :=
  JObj [ ("name", JStr "Idli"); ("price", JStr "40.5") ].

Definition two_kitchens : db :=
  run_all empty_db
    [ Register env0 owner_body; Register env1 second_owner_body;
      AddMenuItem 1 dosa_body; AddMenuItem 2 idli_body ].

(** An order for restaurant 1: three dosas, five of the dish of the other
    restaurant, five of a dish that does not exist, and one more dosa
    without a quantity. *)
Definition cross_order_lines : list json :=
  [ JObj [ ("id", JInt 1); ("qty", JInt 3) ];
    JObj [ ("id", JInt 2); ("qty", JInt 5) ];
    JObj [ ("id", JInt 99); ("qty", JInt 5) ];
    JObj [ ("id", JInt 1) ] ].

Definition cross_order_body : json :=
  JObj [ ("userName", JStr "Asha"); ("items", JArr cross_order_lines);
         ("total", JInt 480) ].

(** ** Requests that fail, requests that are missing something *)

(** The answer is a 404 or an exception nobody caught. *)
Definition failed (o : outcome) : Prop :=
  o = NotFound \/ exists ex, o = Unhandled ex.

(** The store holds a restaurant with this id. *)
Definition known (s : db) (rid : Z) : Prop :=
  In rid (map Restaurant.id (restaurants s)).

(** Two rows of a table that differ in their status at most. *)
Definition same_table (t t' : Table.t) : Prop :=
  Table.id t' = Table.id t
  /\ Table.restaurant_id t' = Table.restaurant_id t
  /\ Table.num t' = Table.num t.

(** The store [s'] holds everything [s] holds: users, restaurants, incomes,
    feedback and orders of [s] come first and unchanged, the tables of [s]
    come first with their id, restaurant and number. *)
Definition extends (s s' : db) : Prop :=
  (exists l, users s' = (users s ++ l)%list)
  /\ (exists l, restaurants s' = (restaurants s ++ l)%list)
  /\ (exists l, incomes s' = (incomes s ++ l)%list)
  /\ (exists l, feedback s' = (feedback s ++ l)%list)
  /\ (exists l, orders s' = (orders s ++ l)%list)
  /\ (exists ts l, tables s' = (ts ++ l)%list /\ Forall2 same_table (tables s) ts).

(** Primary keys are distinct, every reference to a restaurant points to
    one, and no booking is stored. *)
Record sound (s : db) : Prop := {
  user_ids : NoDup (map User.id (users s));
  restaurant_ids : NoDup (map Restaurant.id (restaurants s));
  table_ids : NoDup (map Table.id (tables s));
  income_ids : NoDup (map Income.id (incomes s));
  feedback_ids : NoDup (map Feedback.id (feedback s));
  order_ids : NoDup (map Order.id (orders s));
  user_refs :
    forall u rid, In u (users s) -> User.restaurant_id u = Some rid ->
                  known s rid;
  menu_refs :
    forall m, In m (menu_items s) -> known s (MenuItem.restaurant_id m);
  table_refs :
    forall tb, In tb (tables s) -> known s (Table.restaurant_id tb);
  income_refs :
    forall i, In i (incomes s) -> known s (Income.restaurant_id i);
  feedback_refs :
    forall f, In f (feedback s) -> known s (Feedback.restaurant_id f);
  order_refs :
    forall o, In o (orders s) -> known s (Order.restaurant_id o);
  no_bookings : bookings s = []
}.

(** The row [create_order] writes. *)
Definition order_row (e : env) (rid : Z) (d : dict) (total : pyfloat)
    (un me : option string) : Order.t :=
  Order.mk (substring 0 8 (uuid4 e)) rid un (Some (get d "items" (JArr [])))
           (sql_real total) me (utcnow e).

(** A store made by hand, with a booking: no request makes one. *)
Definition booked_store : db :=
  mkdb [] [Restaurant.mk 1 "Spice & Flavor" None] []
       [Table.mk 4 1 "T4" (Some "Occupied")]
       [Booking.mk 1 4 (Some "Asha") (Some "2024-05-01T19:00")
                   (Some "2024-05-01T21:00")]
       [] [] [].

Definition login_body (em pw : string) : json :=
  JObj [ ("email", JStr em); ("password", JStr pw) ].

(** ** Tactics *)

(** Case analysis on the innermost [match] of the goal, of a hypothesis. *)
Ltac split_match :=
  match goal with
  | |- context [match ?x with _ => _ end] =>
      lazymatch x with
      | context [match _ with _ => _ end] => fail
      | _ => destruct x eqn:?
      end
  end.

Ltac split_match_in H :=
  match type of H with
  | context [match ?x with _ => _ end] =>
      lazymatch x with
      | context [match _ with _ => _ end] => fail
      | _ => destruct x eqn:?
      end
  end.

(** A handler unfolded into all its paths. *)
Ltac unfold_handler :=
  unfold run, bind, py, leave, commit, get_or_404.

Ltac handler_cases :=
  unfold_handler; repeat (simpl fst; simpl snd; split_match);
  simpl fst; simpl snd.

(* ================================================================== *)
(** * Properties *)

(** ** The bookings of the full view *)

Section Bookings.
Variable s : db.

Lemma append_bookings_spec (bs : list Booking.t) (acc : list json) :
  append_bookings s bs acc = (acc ++ map (Booking.to_dict (tables s)) bs)%list.
Proof.
  revert acc; induction bs as [|b bs IH]; intro acc; simpl.
  - now rewrite app_nil_r.
  - rewrite IH, <- app_assoc. reflexivity.
Qed.

Lemma collect_bookings_spec (ts : list Table.t) (acc : list json) :
  collect_bookings s ts acc =
  (acc ++ flat_map (fun tb => map (Booking.to_dict (tables s)) (bookings_of s tb)) ts)%list.
Proof.
  revert acc; induction ts as [|tb ts IH]; intro acc; simpl.
  - now rewrite app_nil_r.
  - rewrite IH, append_bookings_spec, <- app_assoc. reflexivity.
Qed.

Lemma length_flat_bookings (ts : list Table.t) :
  List.length (flat_map (fun tb => map (Booking.to_dict (tables s)) (bookings_of s tb)) ts)
  = list_sum (map (fun tb => List.length (bookings_of s tb)) ts).
Proof.
  induction ts as [|tb ts IH]; simpl; [reflexivity|].
  now rewrite length_app, length_map, IH.
Qed.
End Bookings.

(** C1.  The bookings field of the full view of a restaurant is the
    concatenation, over the restaurant's tables in stored order, of the
    serializations of each table's bookings in stored order; its length is
    the sum of the booking counts of these tables. *)
Theorem to_full_bookings_flattened (s : db) (r : Restaurant.t) :
  field "bookings" (to_full s r) = Some (JArr (flat_bookings s r))
  /\ List.length (flat_bookings s r) = list_sum (booking_counts s r).
Proof.
  split.
  - unfold to_full, flat_bookings. simpl.
    now rewrite collect_bookings_spec.
  - apply length_flat_bookings.
Qed.

(** ** What an operation can do to the store *)

Lemma existsb_find_none {A : Type} (p : A -> bool) (l : list A) :
  find p l = None -> existsb p l = false.
Proof.
  induction l as [|x l IH]; simpl; [reflexivity|].
  destruct (p x); [discriminate|auto].
Qed.

Lemma sql_text_restaurant (v : json) :
  sql_text_nn v = inr "restaurant" -> py_eq_str v "restaurant" = true.
Proof.
  unfold sql_text_nn, sql_text.
  destruct v as [|b|z| | | |]; try discriminate.
  - destruct b; discriminate.
  - destruct (int64 z); [|discriminate].
    unfold py_str. destruct z as [|p|p]; simpl; try discriminate.
    unfold NilZero.string_of_uint.
    destruct (Pos.to_uint p); simpl; discriminate.
  - intro H. injection H as ->. reflexivity.
Qed.

Lemma register_effect (s : db) (e : env) (body : json) :
  effect s (fst (register s e body)).
Proof.
  unfold register, insert_user, insert_restaurant, user_by_email.
  handler_cases; try apply eff_none.
  all: try (apply eff_owner; simpl; auto).
  all: apply eff_customer; simpl; auto.
  all: intros ->.
  all: match goal with
       | H : sql_text_nn _ = inr "restaurant" |- _ =>
           apply sql_text_restaurant in H; congruence
       end.
Qed.

Lemma find_has_restaurant (s : db) (rid : Z) (r : Restaurant.t) :
  find (fun r => Restaurant.id r =? rid) (restaurants s) = Some r ->
  has_restaurant s (Restaurant.id r).
Proof.
  intro H. exists r.
  destruct (find_some _ _ H) as [_ E]. apply Z.eqb_eq in E.
  now rewrite E.
Qed.

Lemma add_menu_item_effect (s : db) (rid : Z) (body : json) :
  effect s (fst (add_menu_item s rid body)).
Proof.
  unfold add_menu_item.
  handler_cases; try apply eff_none.
  apply eff_menu; simpl; eauto using find_has_restaurant.
Qed.

Lemma add_table_effect (s : db) (rid : Z) (body : json) :
  effect s (fst (add_table s rid body)).
Proof.
  unfold add_table.
  handler_cases; try apply eff_none.
  all: try (eapply eff_table_status; eassumption).
  all: try match goal with
       | H : find (fun _ => false) _ = Some _ |- _ =>
           apply find_some in H; destruct H; discriminate
       end.
  all: unfold sql_text_nn in *;
    match goal with
    | H : sql_text ?v = _, H' : match sql_text ?v with _ => _ end = _ |- _ =>
        rewrite H in H'
    end.
  - match goal with H : inr _ = inr _ |- _ => injection H as <- end.
    apply eff_table_new; simpl; eauto using find_has_restaurant.
  - discriminate.
Qed.

Lemma add_income_effect (s : db) (e : env) (rid : Z) (body : json) :
  effect s (fst (add_income s e rid body)).
Proof.
  unfold add_income.
  handler_cases; try apply eff_none.
  apply eff_income.
Qed.

Lemma add_feedback_effect (s : db) (e : env) (rid : Z) (body : json) :
  effect s (fst (add_feedback s e rid body)).
Proof.
  unfold add_feedback.
  handler_cases; try apply eff_none.
  apply eff_feedback.
Qed.

(** ** The loop of [create_order] *)

Lemma Forall2_refl {A : Type} (R : A -> A -> Prop) (l : list A) :
  (forall x, R x x) -> Forall2 R l l.
Proof. intro H; induction l; constructor; auto. Qed.

Lemma Forall2_trans {A : Type} (R : A -> A -> Prop) (l1 l2 l3 : list A) :
  (forall a b c, R a b -> R b c -> R a c) ->
  Forall2 R l1 l2 -> Forall2 R l2 l3 -> Forall2 R l1 l3.
Proof.
  intros T H; revert l3; induction H; intros l3 H3; inversion H3; subst;
    constructor; eauto.
Qed.

Lemma Forall2_update_first {A : Type} (R : A -> A -> Prop) (p : A -> bool)
    (f : A -> A) (l : list A) :
  (forall x, R x x) -> (forall x, R x (f x)) ->
  Forall2 R l (update_first p f l).
Proof.
  intros Hr Hf; induction l as [|x l IH]; simpl; [constructor|].
  destruct (p x); constructor; auto using Forall2_refl.
Qed.

Section OrderLoop.
Variable R : MenuItem.t -> MenuItem.t -> Prop.
Variable Q : Z -> Prop.
Hypothesis R_refl : forall m, R m m.
Hypothesis R_trans : forall a b c, R a b -> R b c -> R a c.
Hypothesis R_add : forall m q, Q q -> R m (add_count q m).

Variable s : db.
Variable pending : exn + Order.t.
Variable rid : Z.

Local Abbreviation quantities := (quantities Q).
Local Abbreviation tracks := (tracks R s pending).

Lemma flush_tracks (ss : session) (s1 : db) :
  tracks ss -> flush ss = inr s1 -> tracks (s1, None).
Proof.
  intros (ms & HR & [[Hp Hs] | [(o & Ho & Hp & Hs) | (ex & Hp)]]) Hf;
    unfold flush in Hf; rewrite Hp in Hf.
  - destruct pending as [ex|o] eqn:Ep; [discriminate|].
    unfold insert_order in Hf. rewrite Hs in Hf. simpl in Hf.
    destruct (existsb _ (orders s)); [discriminate|].
    injection Hf as <-.
    exists ms; split; [assumption|]. right. left. exists o. auto.
  - injection Hf as <-.
    exists ms; split; [assumption|]. right. left. exists o. auto.
  - discriminate.
Qed.

Lemma bump_tracks (s1 : db) (key : option Z) (q : Z)
    (todo : option (exn + Order.t)) :
  Q q -> tracks (s1, None) ->
  todo = None \/ (exists ex, todo = Some (inl ex)) ->
  tracks (set_menu_items s1
            (update_first (menu_item_is key rid) (add_count q) (menu_items s1)),
          todo).
Proof.
  intros Hq (ms & HR & [[Hp _] | [(o & Ho & _ & Hs) | (ex & Hp)]]) Htodo;
    [discriminate | | discriminate].
  simpl in Hs. subst s1. simpl.
  exists (update_first (menu_item_is key rid) (add_count q) ms). split.
  - eapply Forall2_trans; [exact R_trans | exact HR |].
    apply Forall2_update_first; auto.
  - destruct Htodo as [-> | (ex & ->)].
    + right. left. exists o. auto.
    + right. right. exists ex. reflexivity.
Qed.

Lemma update_counts_tracks (items : list json) (ss ss' : session) :
  quantities items -> tracks ss ->
  update_counts rid items ss = inr ss' -> tracks ss'.
Proof.
  revert ss; induction items as [|it items IH]; intros ss HQ Ht H; simpl in H.
  - now injection H as <-.
  - assert (HQ' : quantities items)
      by (intros it' d q Hin; apply HQ; now right).
    unfold bind, py in H.
    destruct (as_dict it) as [|d] eqn:Ed; [discriminate|].
    destruct (py_int (get d "qty" (JInt 1))) as [|q] eqn:Eq; [discriminate|].
    assert (Hq : Q q) by (eapply HQ; [now left | eassumption | eassumption]).
    destruct (truthy (get d "id" JNull)); [|eauto].
    destruct (flush ss) as [|s1] eqn:Ef; [discriminate|].
    destruct (sql_int (get d "id" JNull)) as [|key]; [discriminate|].
    pose proof (flush_tracks Ht Ef) as Ht1.
    destruct (find (menu_item_is key rid) (menu_items s1)) as [mi|].
    + eapply IH; [assumption | | exact H].
      apply bump_tracks; [assumption | assumption |].
      destruct (int64 _); [now left | right; now exists OverflowError].
    + eauto.
Qed.

Lemma committed (ss : session) (s' : db) :
  tracks ss -> flush ss = inr s' ->
  exists o ms, Forall2 R (menu_items s) ms /\
               s' = set_orders (set_menu_items s ms) (orders s ++ [o]).
Proof.
  intros Ht Hf.
  destruct (flush_tracks Ht Hf)
    as (ms & HR & [[Hp _] | [(o & _ & _ & Hs) | (ex & Hp)]]);
    [discriminate | | discriminate].
  exists o, ms. auto.
Qed.
End OrderLoop.

(** What [create_order] does to the store when it commits, for a relation
    on menu rows that every addition of a quantity respects. *)
Lemma create_order_commits
    (R : MenuItem.t -> MenuItem.t -> Prop) (Q : Z -> Prop)
    (s : db) (e : env) (rid : Z) (body : json) :
  (forall m, R m m) ->
  (forall a b c, R a b -> R b c -> R a c) ->
  (forall m q, Q q -> R m (add_count q m)) ->
  (forall d l, as_dict (py_or body (JObj [])) = inr d ->
               py_iter (get d "items" (JArr [])) = inr l -> quantities Q l) ->
  fst (create_order s e rid body) = s \/
  exists o ms, Forall2 R (menu_items s) ms /\
               fst (create_order s e rid body)
               = set_orders (set_menu_items s ms) (orders s ++ [o]).
Proof.
  intros Hr Ht Ha HQ. unfold create_order, run, bind, py, leave, commit, get_or_404.
  destruct (find _ (restaurants s)) as [r|];
    [|destruct (int64 rid); now left].
  destruct (as_dict _) as [|d] eqn:Ed; [now left|].
  destruct (py_float _) as [|total]; [now left|].
  destruct (py_iter _) as [|lines] eqn:El; [now left|].
  destruct (update_counts _ _ _) as [|ss] eqn:Eu; [now left|].
  destruct (flush ss) as [|s'] eqn:Ef; [now left|].
  right. simpl.
  eapply committed; [| exact Ef].
  eapply update_counts_tracks; [exact Hr | exact Ht | exact Ha | | | exact Eu].
  - eapply HQ; eauto.
  - exists (menu_items s). split; [now apply Forall2_refl|].
    left. split; [reflexivity|]. now destruct s.
Qed.

Lemma same_item_refl (m : MenuItem.t) : same_item m m.
Proof. unfold same_item; auto. Qed.

Lemma same_item_trans (a b c : MenuItem.t) :
  same_item a b -> same_item b c -> same_item a c.
Proof. unfold same_item; intuition congruence. Qed.

Lemma same_item_add_count (m : MenuItem.t) (q : Z) : same_item m (add_count q m).
Proof. unfold same_item; simpl; auto. Qed.

Lemma create_order_effect (s : db) (e : env) (rid : Z) (body : json) :
  effect s (fst (create_order s e rid body)).
Proof.
  destruct (@create_order_commits same_item (fun _ => True) s e rid body)
    as [-> | (o & ms & HR & ->)];
    auto using same_item_refl, same_item_add_count, eff_none, eff_order.
  - exact same_item_trans.
  - intros d l _ _ it d' q _ _ _. exact I.
Qed.

Lemma init_db_effect (s : db) : effect s (init_db s).
Proof.
  destruct (restaurants s) eqn:E.
  - now apply eff_seed.
  - unfold init_db. rewrite E. apply eff_none.
Qed.

Lemma perform_effect (s : db) (op : operation) : effect s (fst (perform s op)).
Proof.
  destruct op; simpl;
    auto using register_effect, add_menu_item_effect, add_table_effect,
      add_income_effect, add_feedback_effect, create_order_effect,
      init_db_effect, eff_none.
  - unfold login, user_by_email. handler_cases; apply eff_none.
  - unfold get_restaurant. handler_cases; apply eff_none.
Qed.

(** ** Reachable stores *)

Lemma run_all_snoc (s : db) (ops : list operation) (op : operation) :
  run_all s (ops ++ [op]) = fst (perform (run_all s ops) op).
Proof. unfold run_all. now rewrite fold_left_app. Qed.

Lemma reachable_empty : reachable empty_db.
Proof. now exists []. Qed.

Lemma reachable_perform (s : db) (op : operation) :
  reachable s -> reachable (fst (perform s op)).
Proof.
  intros [ops ->]. exists (ops ++ [op])%list. now rewrite run_all_snoc.
Qed.

(** A property of the empty store that every effect preserves holds of every
    reachable store. *)
Lemma reachable_invariant (P : db -> Prop) :
  P empty_db ->
  (forall s s', P s -> effect s s' -> P s') ->
  forall s, reachable s -> P s.
Proof.
  intros H0 Hstep s [ops ->].
  induction ops as [|op ops IH] using rev_ind; [exact H0|].
  rewrite run_all_snoc. eapply Hstep; [exact IH | apply perform_effect].
Qed.

(** ** Keys *)

Lemma fold_max_ge (l : list Z) (a : Z) :
  a <= fold_left Z.max l a /\ forall x, In x l -> x <= fold_left Z.max l a.
Proof.
  revert a; induction l as [|y l IH]; intro a; simpl.
  - split; [lia | contradiction].
  - destruct (IH (Z.max a y)) as [H1 H2]. split; [lia|].
    intros x [<- | Hin]; [lia | auto].
Qed.

Lemma next_id_above (l : list Z) (x : Z) : In x l -> x < next_id l.
Proof.
  destruct l as [|i rest]; [contradiction|]. unfold next_id.
  destruct (fold_max_ge rest i) as [H1 H2].
  intros [<- | Hin]; [lia | specialize (H2 _ Hin); lia].
Qed.

Lemma next_id_fresh (l : list Z) : ~ In (next_id l) l.
Proof. intro H. apply next_id_above in H. lia. Qed.

Lemma next_id_positive (l : list Z) : Forall (fun x => 0 < x) l -> 0 < next_id l.
Proof.
  destruct l as [|i rest]; [reflexivity|]. intro H.
  assert (Hi : 0 < i) by now inversion H.
  unfold next_id. destruct (fold_max_ge rest i) as [H1 _]. lia.
Qed.

Lemma NoDup_snoc {A : Type} (l : list A) (x : A) :
  NoDup l -> ~ In x l -> NoDup (l ++ [x]).
Proof.
  intros Hl Hx. apply NoDup_app; [assumption | repeat constructor; auto |].
  intros a Ha [<- | []]. contradiction.
Qed.

Lemma map_update_first {A B : Type} (g : A -> B) (p : A -> bool) (f : A -> A)
    (l : list A) :
  (forall x, g (f x) = g x) -> map g (update_first p f l) = map g l.
Proof.
  intro H; induction l as [|x l IH]; simpl; [reflexivity|].
  destruct (p x); simpl; congruence.
Qed.

Lemma map_update_found {A B : Type} (g : A -> B) (p : A -> bool) (y x : A)
    (l : list A) :
  find p l = Some x -> g y = g x ->
  map g (update_first p (fun _ => y) l) = map g l.
Proof.
  intros Hf Hg; induction l as [|z l IH]; simpl in *; [reflexivity|].
  destruct (p z); simpl.
  - injection Hf as ->. congruence.
  - now rewrite IH.
Qed.

(** ** Invariants of the store *)

Lemma same_item_ids (l l' : list MenuItem.t) :
  Forall2 same_item l l' -> map MenuItem.id l' = map MenuItem.id l.
Proof.
  induction 1 as [|m m' l l' [H _] _ IH]; simpl; [reflexivity|].
  now rewrite H, IH.
Qed.

Lemma not_in_emails (l : list User.t) (em : string) :
  existsb (fun v => (User.email v =? em)%string) l = false ->
  ~ In em (map User.email l).
Proof.
  intros H Hin. apply in_map_iff in Hin as (v & <- & Hv).
  assert (existsb (fun w => (User.email w =? User.email v)%string) l = true).
  { apply existsb_exists. exists v. split; [assumption | apply String.eqb_refl]. }
  congruence.
Qed.

Lemma not_in_table_keys (l : list Table.t) (tb : Table.t) :
  find (table_is (Table.restaurant_id tb) (Table.num tb)) l = None ->
  ~ In (table_key tb) (map table_key l).
Proof.
  intros H Hin. apply in_map_iff in Hin as (v & Hk & Hv).
  pose proof (find_none _ _ H _ Hv) as Hf.
  unfold table_key in Hk. injection Hk as Hr Hn.
  unfold table_is in Hf. rewrite Hr, Hn, Z.eqb_refl, String.eqb_refl in Hf.
  discriminate.
Qed.

Lemma has_restaurant_nonempty (s : db) (rid : Z) :
  has_restaurant s rid -> restaurants s <> [].
Proof. intros [r H] E. rewrite E in H. discriminate. Qed.

Lemma consistent_empty : consistent empty_db.
Proof. constructor; simpl; auto using NoDup_nil; contradiction. Qed.

Lemma users_snoc_linked (l : list User.t) (u : User.t) :
  (forall v, In v l -> User.type v = "restaurant" -> User.restaurant_id v <> None) ->
  (User.type u = "restaurant" -> User.restaurant_id u <> None) ->
  forall v, In v (l ++ [u]) -> User.type v = "restaurant" ->
            User.restaurant_id v <> None.
Proof.
  intros Hl Hu v Hin. apply in_app_or in Hin as [Hin | [<- | []]]; auto.
Qed.

Lemma consistent_seed (s : db) :
  consistent s -> restaurants s = [] -> consistent (init_db s).
Proof.
  intros [He Ho Hl Hm Hp Ht Hr] E.
  unfold init_db. rewrite E. specialize (Hr E).
  constructor; simpl; auto.
  - intros r [<- | []]. discriminate.
  - rewrite map_app. simpl.
    set (m0 := next_id (map MenuItem.id (menu_items s))).
    apply NoDup_app; [assumption | |].
    + repeat constructor; simpl; intuition lia.
    + intros a Ha Hin. apply next_id_above in Ha. fold m0 in Ha.
      simpl in Hin. intuition lia.
  - apply Forall_app. split; [assumption|].
    assert (Hpos : 0 < next_id (map MenuItem.id (menu_items s)))
      by (apply next_id_positive; now rewrite Forall_map).
    repeat constructor; simpl; lia.
  - rewrite Hr. simpl. unfold table_key; simpl.
    repeat constructor; simpl; intuition discriminate.
  - discriminate.
Qed.

Lemma consistent_effect (s s' : db) :
  consistent s -> effect s s' -> consistent s'.
Proof.
  intros C E. destruct E; [assumption | | | | | | | | | now apply consistent_seed].
  all: destruct C as [He Ho Hl Hm Hp Ht Hr]; constructor; simpl; auto.
  - rewrite map_app. apply NoDup_snoc; [assumption | now apply not_in_emails].
  - apply users_snoc_linked; [assumption | congruence].
  - rewrite map_app. apply NoDup_snoc; [assumption | now apply not_in_emails].
  - apply users_snoc_linked; [assumption | congruence].
  - intros r Hin. apply in_app_or in Hin as [Hin | [<- | []]]; [auto | discriminate].
  - intro E. now apply app_eq_nil in E as [_ E].
  - rewrite map_app. apply NoDup_snoc; [assumption|].
    simpl. rewrite H. apply next_id_fresh.
  - apply Forall_app. split; [assumption|]. repeat constructor.
    rewrite H. apply next_id_positive. now rewrite Forall_map.
  - rewrite map_app. apply NoDup_snoc; [assumption | now apply not_in_table_keys].
  - intro E. now apply has_restaurant_nonempty in H1.
  - erewrite map_update_found; [assumption | eassumption | reflexivity].
  - intro E. rewrite (Hr E) in *. reflexivity.
  - now rewrite (same_item_ids H).
  - clear - Hp H. induction H as [|m m' l l' [Hid _] _ IH]; [constructor|].
    inversion Hp; subst. constructor; [rewrite Hid; assumption | auto].
Qed.

Lemma reachable_consistent (s : db) : reachable s -> consistent s.
Proof.
  apply reachable_invariant; [exact consistent_empty | exact consistent_effect].
Qed.

(** ** The small run *)

Lemma small_store_reachable : reachable small_store.
Proof.
  now exists [ Register env0 owner_body; AddMenuItem 1 dosa_body;
               AddTable 1 table_body ].
Qed.

Example small_store_login :
  login small_store
    (JObj [ ("email", JStr "owner@example.com"); ("password", JStr "s3cret") ])
  = (small_store,
     Json 200 (JObj [ ("id", JInt 1); ("name", JStr "Spice & Flavor");
                      ("email", JStr "owner@example.com");
                      ("type", JStr "restaurant"); ("restaurantId", JInt 1) ])).
Proof. reflexivity. Qed.

Example small_store_list :
  list_restaurants small_store
  = (small_store,
     Json 200 (JArr [ JObj [ ("id", JInt 1); ("name", JStr "Spice & Flavor");
                             ("logo", JStr "https://ui-avatars.com/api/?name=Spice+&+Flavor&&background=101827&color=fff");
                             ("menuCount", JInt 1); ("tableCount", JInt 1) ] ])).
Proof. reflexivity. Qed.

Example small_store_not_found :
  get_restaurant small_store 2 = (small_store, NotFound)
  /\ add_menu_item small_store 2 dosa_body = (small_store, NotFound).
Proof. split; reflexivity. Qed.

Example small_store_missing_fields :
  register small_store env1 (JObj [ ("email", JStr "a@b.c") ])
  = (small_store, Json 400 (error "Missing fields"))
  /\ add_table small_store 1 JNull
     = (small_store, Json 400 (error "Missing table number"))
  /\ add_income small_store env1 1 JNull
     = (small_store, Json 400 (error "Invalid amount")).
Proof. repeat split; reflexivity. Qed.

(** ** The placeholder logo *)

Lemma replace_space_subst (name : string) :
  replace_space name = subst_spaces name.
Proof.
  unfold subst_spaces. induction name as [|c name IH]; simpl; [reflexivity|].
  now rewrite IH.
Qed.

Lemma logo_of_set (r : Restaurant.t) (l : string) :
  Restaurant.logo r = Some l -> l <> "" -> logo_or_avatar r = l.
Proof.
  unfold logo_or_avatar. intros -> Hl.
  destruct (String.eqb_spec l ""); [contradiction | reflexivity].
Qed.

(** C3.  With no stored logo, the logo of the list view and of the full
    view is the avatar URL with the name in it, every space replaced by a
    plus sign, so that "Spice & Flavor" gives a URL with Spice+&+Flavor in
    it.  A stored logo, which is not the empty string in any store the
    service reaches, is returned as it is. *)
Theorem logo_placeholder (s : db) (r : Restaurant.t) :
  (Restaurant.logo r = None ->
     let url := "https://ui-avatars.com/api/?name="
                  ++ subst_spaces (Restaurant.name r)
                  ++ "&&background=101827&color=fff" in
     field "logo" (to_list_item s r) = Some (JStr url)
     /\ field "logo" (to_full s r) = Some (JStr url))
  /\ (Restaurant.logo r = None -> Restaurant.name r = "Spice & Flavor" ->
      field "logo" (to_list_item s r)
      = Some (JStr "https://ui-avatars.com/api/?name=Spice+&+Flavor&&background=101827&color=fff"))
  /\ (forall l, Restaurant.logo r = Some l ->
        l <> "" \/ (reachable s /\ In r (restaurants s)) ->
        field "logo" (to_list_item s r) = Some (JStr l)
        /\ field "logo" (to_full s r) = Some (JStr l)).
Proof.
  split; [|split].
  - intro H. simpl. unfold logo_or_avatar, avatar_url.
    rewrite H, replace_space_subst. auto.
  - intros H Hn. simpl. unfold logo_or_avatar, avatar_url.
    rewrite H, Hn. reflexivity.
  - intros l H Hl.
    assert (Hne : l <> "").
    { destruct Hl as [Hl | [Hs Hin]]; [assumption|].
      intros ->. exact (logos_set (reachable_consistent Hs) r Hin H). }
    simpl. rewrite (logo_of_set r H Hne). auto.
Qed.

Lemma logo_placeholder_witness :
  field "logo" (to_list_item small_store registered_restaurant)
  = Some (JStr "https://ui-avatars.com/api/?name=Spice+&+Flavor&&background=101827&color=fff")
  /\ field "logo" (to_full (init_db empty_db) seeded_restaurant)
     = Some (JStr "https://ui-avatars.com/api/?name=Spice+Flavor&background=ff6b35&color=fff").
Proof.
  split.
  - apply (proj1 (proj2 (logo_placeholder small_store registered_restaurant)));
      reflexivity.
  - apply (proj2 (proj2 (logo_placeholder (init_db empty_db) seeded_restaurant))
             "https://ui-avatars.com/api/?name=Spice+Flavor&background=ff6b35&color=fff").
    + reflexivity.
    + right. split.
      * exists [InitDb]. reflexivity.
      * simpl. left. reflexivity.
Defined.

(** ** Tables: the upsert *)

Lemma update_first_split {A : Type} (p : A -> bool) (f : A -> A) (l : list A)
    (x : A) :
  find p l = Some x ->
  exists before after,
    l = (before ++ x :: after)%list
    /\ update_first p f l = (before ++ f x :: after)%list.
Proof.
  induction l as [|y l IH]; simpl; [discriminate|].
  destruct (p y) eqn:E; intro H.
  - injection H as ->. now exists [], l.
  - destruct (IH H) as (before & after & -> & ->).
    now exists (y :: before), after.
Qed.

Lemma NoDup_key_eq {A B : Type} (g : A -> B) (l : list A) (x y : A) :
  NoDup (map g l) -> In x l -> In y l -> g x = g y -> x = y.
Proof.
  induction l as [|z l IH]; simpl; [contradiction|].
  intros Hn Hx Hy E. inversion Hn as [|? ? Hz Hl]; subst.
  destruct Hx as [-> | Hx], Hy as [-> | Hy]; auto.
  - exfalso. apply Hz. rewrite E. now apply in_map.
  - exfalso. apply Hz. rewrite <- E. now apply in_map.
Qed.

(** What [add_table] does when it gets as far as the query. *)
Lemma add_table_step (s : db) (rid : Z) (body : json) (r : Restaurant.t)
    (d : dict) (n : string) (st : option string) :
  find (fun r => Restaurant.id r =? rid) (restaurants s) = Some r ->
  as_dict (py_or body (JObj [])) = inr d ->
  truthy (get d "num" JNull) = true ->
  sql_text (get d "num" JNull) = inr (Some n) ->
  sql_text (get d "status" (JStr "Available")) = inr st ->
  add_table s rid body
  = match find (table_is rid n) (tables s) with
    | Some t =>
        let t' := Table.mk (Table.id t) (Table.restaurant_id t) (Table.num t) st in
        (set_tables s (update_first (table_is rid n) (fun _ => t') (tables s)),
         Json 201 (table_updated t'))
    | None =>
        let t := Table.mk (next_id (map Table.id (tables s))) rid n
                          (or_default "Available" st) in
        (set_tables s (tables s ++ [t]), Json 201 (table_updated t))
    end.
Proof.
  intros Hr Hd Hnum Hn Hst.
  assert (Er : Restaurant.id r = rid)
    by (apply find_some in Hr as [_ E]; now apply Z.eqb_eq).
  unfold add_table, run, bind, py, leave, commit, get_or_404, sql_text_nn.
  rewrite Hr, Hd, Hnum, Hn, Hst, Er. simpl.
  destruct (find (table_is rid n) (tables s)); reflexivity.
Qed.

(** C5.  In every store the service reaches there is at most one table row
    for a restaurant and a number, before and after [add_table].  A request
    for an existing restaurant with a number [n] and a status [st]
    (Available when the request gives none) does this and nothing else to
    the store: if a row of the restaurant has number [n], that row gets
    status [st] where it stands and no row is added; if none has, one row
    with [n] and [st] is added at the end, with the status Available when
    [st] is null. *)
Theorem add_table_upsert (s : db) (rid : Z) (body : json) (r : Restaurant.t)
    (d : dict) (n : string) (st : option string) :
  reachable s ->
  find (fun r => Restaurant.id r =? rid) (restaurants s) = Some r ->
  as_dict (py_or body (JObj [])) = inr d ->
  truthy (get d "num" JNull) = true ->
  sql_text (get d "num" JNull) = inr (Some n) ->
  sql_text (get d "status" (JStr "Available")) = inr st ->
  (lookup "status" d = None -> st = Some "Available")
  /\ NoDup (map table_key (tables s))
  /\ NoDup (map table_key (tables (fst (add_table s rid body))))
  /\ (forall tb, In tb (tables s) -> table_key tb = (rid, n) ->
        exists before after,
          tables s = (before ++ tb :: after)%list
          /\ add_table s rid body
             = (mkdb (users s) (restaurants s) (menu_items s)
                     (before ++ Table.mk (Table.id tb) rid n st :: after)
                     (bookings s) (incomes s) (feedback s) (orders s),
                Json 201 (table_updated (Table.mk (Table.id tb) rid n st))))
  /\ ((forall tb, In tb (tables s) -> table_key tb <> (rid, n)) ->
        let tb := Table.mk (next_id (map Table.id (tables s))) rid n
                           (match st with
                            | Some _ => st
                            | None => Some "Available"
                            end) in
        add_table s rid body
        = (mkdb (users s) (restaurants s) (menu_items s) (tables s ++ [tb])
                (bookings s) (incomes s) (feedback s) (orders s),
           Json 201 (table_updated tb))).
Proof.
  intros Hs Hr Hd Hnum Hn Hst.
  assert (Hu : NoDup (map table_key (tables s)))
    by exact (table_keys_unique (reachable_consistent Hs)).
  pose proof (@add_table_step s rid body r d n st Hr Hd Hnum Hn Hst) as Hstep.
  split; [|split; [|split; [|split]]].
  - intro Hl. unfold get in Hst. rewrite Hl in Hst. simpl in Hst. congruence.
  - exact Hu.
  - apply table_keys_unique, reachable_consistent.
    exact (reachable_perform (AddTable rid body) Hs).
  - intros tb Hin Hk. rewrite Hstep.
    destruct (find (table_is rid n) (tables s)) as [t|] eqn:Ef.
    + assert (t = tb) as ->.
      { destruct (find_some _ _ Ef) as [Hint Hp].
        apply (NoDup_key_eq table_key (tables s)); auto.
        rewrite Hk. unfold table_is in Hp.
        apply andb_prop in Hp as [H1 H2].
        apply Z.eqb_eq in H1. apply String.eqb_eq in H2.
        unfold table_key. congruence. }
      unfold table_key in Hk. injection Hk as Hk1 Hk2.
      destruct (update_first_split (table_is rid n)
                  (fun _ => Table.mk (Table.id tb) (Table.restaurant_id tb)
                                     (Table.num tb) st) _ Ef)
        as (before & after & E1 & E2).
      exists before, after. split; [exact E1|].
      unfold set_tables. simpl. rewrite E2, Hk1, Hk2. reflexivity.
    + exfalso. pose proof (find_none _ _ Ef _ Hin) as Hp.
      unfold table_key in Hk. injection Hk as Hk1 Hk2.
      unfold table_is in Hp.
      rewrite Hk1, Hk2, Z.eqb_refl, String.eqb_refl in Hp. discriminate.
  - intros Hnone. rewrite Hstep.
    destruct (find (table_is rid n) (tables s)) as [t|] eqn:Ef.
    + exfalso. destruct (find_some _ _ Ef) as [Hint Hp].
      apply (Hnone t Hint). unfold table_is in Hp.
      apply andb_prop in Hp as [H1 H2].
      apply Z.eqb_eq in H1. apply String.eqb_eq in H2.
      unfold table_key. congruence.
    + unfold set_tables, or_default. destruct st; reflexivity.
Qed.

Lemma add_table_upsert_witness :
  reachable small_store
  /\ tables small_store = [Table.mk 1 1 "7" (Some "Available")]
  /\ tables (fst (add_table small_store 1 occupied_body))
     = [Table.mk 1 1 "7" (Some "Occupied")]
  /\ add_table small_store 1 null_status_body
     = (mkdb (users small_store) (restaurants small_store)
             (menu_items small_store)
             [Table.mk 1 1 "7" (Some "Available");
              Table.mk 2 1 "8" (Some "Available")]
             [] [] [] [],
        Json 201 (table_updated (Table.mk 2 1 "8" (Some "Available")))).
Proof.
  split; [exact small_store_reachable|].
  split; [reflexivity|]. split.
  - destruct (@add_table_upsert small_store 1 occupied_body registered_restaurant
                [("num", JStr "7"); ("status", JStr "Occupied")] "7"
                (Some "Occupied") small_store_reachable
                eq_refl eq_refl eq_refl eq_refl eq_refl)
      as (_ & _ & _ & Hupd & _).
    destruct (Hupd (Table.mk 1 1 "7" (Some "Available")))
      as (before & after & E1 & E2).
    + simpl. left. reflexivity.
    + reflexivity.
    + rewrite E2. clear E2. simpl fst. simpl tables.
      destruct before as [|x before]; simpl in E1.
      * injection E1 as <-. reflexivity.
      * injection E1 as _ E1. destruct before; discriminate.
  - destruct (@add_table_upsert small_store 1 null_status_body
                registered_restaurant
                [("num", JStr "8"); ("status", JNull)] "8" None
                small_store_reachable
                eq_refl eq_refl eq_refl eq_refl eq_refl)
      as (_ & _ & _ & _ & Hnew).
    rewrite Hnew; [reflexivity|].
    intros tb [<- | []]. discriminate.
Defined.

(** ** Registration and login *)

Lemma truthy_str (t : string) : t <> "" -> truthy (JStr t) = true.
Proof.
  intro H. simpl. destruct (String.eqb_spec t ""); [contradiction | reflexivity].
Qed.

Lemma find_email_none (l : list User.t) (em : string) :
  (forall u, In u l -> User.email u <> em) ->
  find (fun u => (User.email u =? em)%string) l = None.
Proof.
  induction l as [|v l IH]; simpl; intro H; [reflexivity|].
  destruct (String.eqb_spec (User.email v) em) as [E|_].
  - exfalso. apply (H v); auto.
  - apply IH. intros u Hu. apply H. now right.
Qed.

Lemma find_email_snoc (l : list User.t) (u : User.t) :
  exists v, find (fun w => (User.email w =? User.email u)%string) (l ++ [u])
            = Some v.
Proof.
  induction l as [|x l IH]; simpl.
  - rewrite String.eqb_refl. now exists u.
  - destruct (User.email x =? User.email u)%string; [now exists x | exact IH].
Qed.

(** A registration with four non-empty strings and an email not yet in the
    store goes through. *)
Lemma register_ok (s : db) (e : env) (body : json) (d : dict)
    (ty n em pw : string) :
  as_dict (py_or body (JObj [])) = inr d ->
  get d "type" JNull = JStr ty -> get d "name" JNull = JStr n ->
  get d "email" JNull = JStr em -> get d "password" JNull = JStr pw ->
  ty <> "" -> n <> "" -> em <> "" -> pw <> "" ->
  (forall u, In u (users s) -> User.email u <> em) ->
  register s e body
  = (if (ty =? "restaurant")%string then
       let rid := next_id (map Restaurant.id (restaurants s)) in
       set_users
         (set_restaurants s (restaurants s ++ [Restaurant.mk rid n None]))
         (users s ++ [registered_user s e ty n em pw (Some rid)])
     else set_users s (users s ++ [registered_user s e ty n em pw None]),
     Json 201 (message "Registration successful")).
Proof.
  intros Hd Hty Hn Hem Hpw Nty Nn Nem Npw Hfresh.
  pose proof (find_email_none _ Hfresh) as Hf.
  pose proof (existsb_find_none _ _ Hf) as Hx.
  unfold register, run, bind, py, leave, commit, user_by_email,
    insert_restaurant, insert_user, sql_text_nn.
  rewrite Hd, Hty, Hn, Hem, Hpw. unfold forallb.
  rewrite !truthy_str by assumption. simpl.
  rewrite Hf. simpl.
  destruct (ty =? "restaurant")%string; simpl; rewrite Hx; reflexivity.
Qed.

(** C6.  Of two registrations with the same email, the first one, made
    with four non-empty strings and an email the store does not hold,
    succeeds with 201 and adds one user; the second one fails with 400 and
    the duplicate-email error and leaves the store as the first one left
    it.  No two users of a reachable store share an email. *)
Theorem register_duplicate_email (s : db) (e1 e2 : env) (b1 b2 : json)
    (d1 d2 : dict) (ty n em pw : string) :
  as_dict (py_or b1 (JObj [])) = inr d1 ->
  get d1 "type" JNull = JStr ty -> get d1 "name" JNull = JStr n ->
  get d1 "email" JNull = JStr em -> get d1 "password" JNull = JStr pw ->
  ty <> "" -> n <> "" -> em <> "" -> pw <> "" ->
  (forall u, In u (users s) -> User.email u <> em) ->
  as_dict (py_or b2 (JObj [])) = inr d2 ->
  forallb truthy [ get d2 "type" JNull; get d2 "name" JNull;
                   get d2 "email" JNull; get d2 "password" JNull ] = true ->
  get d2 "email" JNull = JStr em ->
  let s1 := fst (register s e1 b1) in
  snd (register s e1 b1) = Json 201 (message "Registration successful")
  /\ (exists u, users s1 = (users s ++ [u])%list /\ User.email u = em)
  /\ register s1 e2 b2 = (s1, Json 400 (error "Email already registered"))
  /\ (reachable s -> NoDup (map User.email (users s1))).
Proof.
  intros Hd Hty Hn Hem Hpw Nty Nn Nem Npw Hfresh Hd2 Hall Hem2 s1.
  pose proof (@register_ok s e1 b1 d1 ty n em pw
                Hd Hty Hn Hem Hpw Nty Nn Nem Npw Hfresh) as E.
  assert (Hu : exists u, users s1 = (users s ++ [u])%list /\ User.email u = em).
  { subst s1. rewrite E. simpl.
    destruct (ty =? "restaurant")%string; simpl; eexists; split; reflexivity. }
  split; [now rewrite E | split; [exact Hu | split]].
  - destruct Hu as (u & Hus & Heu).
    unfold register, run, bind, py, leave, user_by_email.
    rewrite Hd2, Hall, Hem2. simpl. rewrite Hus, <- Heu.
    destruct (find_email_snoc (users s) u) as [v ->]. reflexivity.
  - intro Hs. apply emails_unique, reachable_consistent.
    exact (reachable_perform (Register e1 b1) Hs).
Qed.

Lemma register_duplicate_email_witness :
  reachable small_store
  /\ snd (register small_store env1 customer_body)
     = Json 201 (message "Registration successful")
  /\ register (fst (register small_store env1 customer_body)) env0 customer_body
     = (fst (register small_store env1 customer_body),
        Json 400 (error "Email already registered")).
Proof.
  assert (H : forall u, In u (users small_store) ->
                        User.email u <> "asha@example.com").
  { intros u [<- | []]. discriminate. }
  destruct (@register_duplicate_email small_store env1 env0
              customer_body customer_body
              [ ("type", JStr "customer"); ("name", JStr "Asha");
                ("email", JStr "asha@example.com"); ("password", JStr "hunter2") ]
              [ ("type", JStr "customer"); ("name", JStr "Asha");
                ("email", JStr "asha@example.com"); ("password", JStr "hunter2") ]
              "customer" "Asha" "asha@example.com" "hunter2"
              eq_refl eq_refl eq_refl eq_refl eq_refl
              ltac:(discriminate) ltac:(discriminate) ltac:(discriminate)
              ltac:(discriminate) H eq_refl eq_refl eq_refl)
    as (H1 & _ & H3 & _).
  split; [exact small_store_reachable | split; assumption].
Defined.

(** C7.  A registration that succeeds with type "restaurant" adds exactly
    one restaurant, under an id no restaurant had, and the new user refers
    to it; one that succeeds with type "customer" adds no restaurant and the
    new user refers to none.  In a reachable store every user of type
    "restaurant" refers to a restaurant. *)
Theorem register_links_restaurant (s s' : db) (e : env) (body o : json)
    (d : dict) :
  as_dict (py_or body (JObj [])) = inr d ->
  register s e body = (s', Json 201 o) ->
  (get d "type" JNull = JStr "restaurant" ->
     exists r u,
       restaurants s' = (restaurants s ++ [r])%list
       /\ ~ In (Restaurant.id r) (map Restaurant.id (restaurants s))
       /\ users s' = (users s ++ [u])%list
       /\ User.type u = "restaurant"
       /\ User.restaurant_id u = Some (Restaurant.id r))
  /\ (get d "type" JNull = JStr "customer" ->
        restaurants s' = restaurants s
        /\ exists u, users s' = (users s ++ [u])%list
                     /\ User.type u = "customer"
                     /\ User.restaurant_id u = None)
  /\ (reachable s ->
        forall u, In u (users s') -> User.type u = "restaurant" ->
                  User.restaurant_id u <> None).
Proof.
  intros Hd H.
  assert (Hlinked : reachable s ->
            forall u, In u (users s') -> User.type u = "restaurant" ->
                      User.restaurant_id u <> None).
  { intro Hs. apply owners_linked, reachable_consistent.
    replace s' with (fst (perform s (Register e body)))
      by (simpl; now rewrite H).
    now apply reachable_perform. }
  unfold register, run, bind, py, leave, commit, user_by_email,
    insert_restaurant, insert_user in H.
  rewrite Hd in H.
  repeat (simpl fst in H; simpl snd in H; split_match_in H); try discriminate.
  all: injection H as <- <-; simpl.
  all: split; [|split; [|exact Hlinked]]; intro Hty.
  all: rewrite Hty in *; simpl in *; try discriminate.
  all: match goal with
       | E : sql_text_nn (JStr _) = inr _ |- _ =>
           unfold sql_text_nn, sql_text in E; injection E as <-
       end.
  all: try (eexists; eexists; repeat split; try reflexivity;
            simpl; apply next_id_fresh).
  all: split; [reflexivity|]; eexists; repeat split; reflexivity.
Qed.

Lemma register_links_restaurant_witness :
  exists r u,
    restaurants (fst (register empty_db env0 owner_body)) = ([] ++ [r])%list
    /\ users (fst (register empty_db env0 owner_body)) = ([] ++ [u])%list
    /\ User.restaurant_id u = Some (Restaurant.id r).
Proof.
  destruct (@register_links_restaurant empty_db
              (fst (register empty_db env0 owner_body)) env0 owner_body
              (message "Registration successful")
              [ ("type", JStr "restaurant"); ("name", JStr "Spice & Flavor");
                ("email", JStr "owner@example.com"); ("password", JStr "s3cret") ]
              eq_refl eq_refl) as (H & _ & _).
  destruct (H eq_refl) as (r & u & Hr & _ & Hu & _ & Hl).
  exists r, u. auto.
Defined.




(** ** Feedback *)

(** C10.  A feedback for an existing restaurant whose fields are left out or
    can be read (the ratings by [int()], as integers of 64 bits, the name
    and the text by the store) is answered with 201 and adds exactly one
    row, all else in the store staying as it is; a name left out is stored
    as Anonymous, a rating left out as 0, a text left out as the empty
    string. *)
Theorem add_feedback_defaults (s : db) (e : env) (rid : Z) (body : json)
    (r : Restaurant.t) (d : dict) (un tx : option string) (fr sr : Z) :
  find (fun r => Restaurant.id r =? rid) (restaurants s) = Some r ->
  as_dict (py_or body (JObj [])) = inr d ->
  sql_text (get d "userName" (JStr "Anonymous")) = inr un ->
  py_int (get d "foodRating" (JInt 0)) = inr fr ->
  py_int (get d "serviceRating" (JInt 0)) = inr sr ->
  sql_text (get d "text" (JStr "")) = inr tx ->
  int64 fr = true -> int64 sr = true ->
  add_feedback s e rid body
  = (mkdb (users s) (restaurants s) (menu_items s) (tables s) (bookings s)
          (incomes s)
          (feedback s ++
             [Feedback.mk (next_id (map Feedback.id (feedback s))) rid un
                          (utcnow e) fr sr tx])
          (orders s),
     Json 201 (message "Feedback submitted"))
  /\ (lookup "userName" d = None -> un = Some "Anonymous")
  /\ (lookup "foodRating" d = None -> fr = 0)
  /\ (lookup "serviceRating" d = None -> sr = 0)
  /\ (lookup "text" d = None -> tx = Some "").
Proof.
  intros Hr Hd Hun Hfr Hsr Htx Bfr Bsr.
  assert (Er : Restaurant.id r = rid)
    by (apply find_some in Hr as [_ E]; now apply Z.eqb_eq).
  split.
  - unfold add_feedback, run, bind, py, leave, commit, get_or_404, sql_integer.
    rewrite Hr, Hd, Hun, Hfr, Hsr, Htx, Bfr, Bsr, Er. reflexivity.
  - unfold get in *.
    repeat split; intro Hl; rewrite Hl in *; simpl in *; congruence.
Qed.

Lemma add_feedback_defaults_witness :
  add_feedback small_store env1 1 (JObj [])
  = (mkdb (users small_store) (restaurants small_store)
          (menu_items small_store) (tables small_store) [] []
          [Feedback.mk 1 1 (Some "Anonymous") "2024-05-01T12:30:00" 0 0 (Some "")]
          [],
     Json 201 (message "Feedback submitted")).
Proof.
  apply (@add_feedback_defaults small_store env1 1 (JObj [])
           registered_restaurant [] (Some "Anonymous") (Some "") 0 0);
    reflexivity.
Defined.

(** ** Numeric fields that cannot be read *)

(** [add_income] catches what [float()] raises on a bad amount: the answer
    is 400 and nothing is stored. *)
Lemma add_income_fails_closed (s : db) (e : env) (rid : Z) (body : json)
    (r : Restaurant.t) (d : dict) (ex : exn) :
  find (fun r => Restaurant.id r =? rid) (restaurants s) = Some r ->
  as_dict (py_or body (JObj [])) = inr d ->
  py_float (get d "amount" JNull) = inl ex ->
  ex = ValueError \/ ex = TypeError ->
  add_income s e rid body = (s, Json 400 (error "Invalid amount")).
Proof.
  intros Hr Hd Hf Hex.
  unfold add_income, run, bind, py, leave, get_or_404.
  rewrite Hr, Hd, Hf. destruct Hex as [-> | ->]; reflexivity.
Qed.

(** [add_menu_item] does not: what [float()] raises on the price goes up
    to the caller, a 500. *)
Lemma add_menu_item_raises (s : db) (rid : Z) (body : json)
    (r : Restaurant.t) (d : dict) (ex : exn) :
  find (fun r => Restaurant.id r =? rid) (restaurants s) = Some r ->
  as_dict (py_or body (JObj [])) = inr d ->
  truthy (get d "name" JNull) = true ->
  py_float (get d "price" JNull) = inl ex ->
  get d "price" JNull <> JNull ->
  add_menu_item s rid body = (s, Unhandled ex).
Proof.
  intros Hr Hd Hn Hf Hp.
  unfold add_menu_item, run, bind, py, leave, get_or_404.
  rewrite Hr, Hd, Hn, Hf.
  destruct (get d "price" JNull); try reflexivity. contradiction.
Qed.

(** C9.  The string "abc" where a number is expected: the menu price, the
    order total, a line's quantity and a feedback rating each end in an
    uncaught ValueError, a 500, where the income amount ends in 400 with
    an error body.  None of the five stores anything. *)
Theorem numeric_fields_unguarded :
  add_menu_item small_store 1 bad_price_body
  = (small_store, Unhandled ValueError)
  /\ create_order small_store env1 1 bad_total_body
     = (small_store, Unhandled ValueError)
  /\ create_order small_store env1 1 bad_qty_body
     = (small_store, Unhandled ValueError)
  /\ add_feedback small_store env1 1 bad_rating_body
     = (small_store, Unhandled ValueError)
  /\ add_income small_store env1 1 bad_amount_body
     = (small_store, Json 400 (error "Invalid amount")).
Proof. repeat split; vm_compute; reflexivity. Qed.

(** ** The order count *)

Lemma item_le_refl (m : MenuItem.t) : item_le m m.
Proof. split; [apply same_item_refl | lia]. Qed.

Lemma item_le_trans (a b c : MenuItem.t) :
  item_le a b -> item_le b c -> item_le a c.
Proof.
  intros [H1 H2] [H3 H4]. split; [eapply same_item_trans; eauto | lia].
Qed.

Lemma item_le_add_count (m : MenuItem.t) (q : Z) :
  0 <= q -> item_le m (add_count q m).
Proof. intro H. split; [apply same_item_add_count | simpl; lia]. Qed.

Lemma counts_grow_refl (s : db) : counts_grow s s.
Proof.
  exists (menu_items s), []. rewrite app_nil_r.
  split; [reflexivity | apply Forall2_refl, item_le_refl].
Qed.

Lemma counts_grow_trans (s1 s2 s3 : db) :
  counts_grow s1 s2 -> counts_grow s2 s3 -> counts_grow s1 s3.
Proof.
  intros (ms & a & E & H) (ms' & a' & E' & H').
  rewrite E in H'. apply Forall2_app_inv_l in H' as (l1 & l2 & H1 & H2 & ->).
  exists l1, (l2 ++ a')%list. split; [now rewrite E', app_assoc|].
  eapply Forall2_trans; [exact item_le_trans | exact H | exact H1].
Qed.

Lemma nonneg_quantities (body : json) :
  nonneg_order body = true ->
  forall d l, as_dict (py_or body (JObj [])) = inr d ->
              py_iter (get d "items" (JArr [])) = inr l ->
              quantities (fun q => 0 <= q) l.
Proof.
  unfold nonneg_order. intros H d l Hd Hl. rewrite Hd, Hl in H.
  intros it d' q Hin Hit Hq.
  rewrite forallb_forall in H. specialize (H it Hin).
  destruct it; try discriminate. injection Hit as <-.
  unfold qty_nonneg in H. rewrite Hq in H. now apply Z.leb_le.
Qed.

(** What the operations other than an order do to the menu: they add rows
    at the end, if anything. *)
Lemma menu_extended (s : db) (op : operation) :
  (forall e rid body, op <> CreateOrder e rid body) ->
  exists added, menu_items (fst (perform s op)) = (menu_items s ++ added)%list.
Proof.
  intro Hop. destruct op; simpl.
  - unfold register, insert_user, insert_restaurant, user_by_email.
    handler_cases; exists []; now rewrite app_nil_r.
  - unfold login, user_by_email.
    handler_cases; exists []; now rewrite app_nil_r.
  - exists []; now rewrite app_nil_r.
  - unfold get_restaurant.
    handler_cases; exists []; now rewrite app_nil_r.
  - unfold add_menu_item.
    handler_cases; try (exists []; now rewrite app_nil_r).
    eexists. reflexivity.
  - unfold add_table.
    handler_cases; exists []; now rewrite app_nil_r.
  - unfold add_income.
    handler_cases; exists []; now rewrite app_nil_r.
  - unfold add_feedback.
    handler_cases; exists []; now rewrite app_nil_r.
  - now destruct (Hop e rid body).
  - exists []; now rewrite app_nil_r.
  - unfold init_db. destruct (restaurants s); simpl.
    + eexists. reflexivity.
    + exists []; now rewrite app_nil_r.
Qed.

Lemma perform_counts_grow (s : db) (op : operation) :
  nonneg_op op = true -> counts_grow s (fst (perform s op)).
Proof.
  intro Hn.
  assert (Hext : forall op', (forall e rid body, op' <> CreateOrder e rid body) ->
                             counts_grow s (fst (perform s op'))).
  { intros op' H. destruct (menu_extended s H) as [added E].
    exists (menu_items s), added.
    split; [exact E | apply Forall2_refl, item_le_refl]. }
  destruct op; try (apply Hext; discriminate).
  simpl in *.
  destruct (@create_order_commits item_le (fun q => 0 <= q) s e rid body
              item_le_refl item_le_trans item_le_add_count
              (@nonneg_quantities body Hn))
    as [-> | (o & ms & HR & ->)].
  - apply counts_grow_refl.
  - exists ms, []. rewrite app_nil_r. auto.
Qed.

(** C4, as the code has it.  A menu item made by [add_menu_item] starts
    with count 0.  No operation other than an order touches the rows of the
    menu: it adds rows at the end at most.  Along a run in which no order
    line asks for a negative quantity, the count of a menu item never
    decreases. *)
Theorem order_count_grows :
  (forall s rid body s' o,
      add_menu_item s rid body = (s', Json 201 o) ->
      exists mi, menu_items s' = (menu_items s ++ [mi])%list
                 /\ MenuItem.order_count mi = Some 0)
  /\ (forall s op,
        (forall e rid body, op <> CreateOrder e rid body) ->
        exists added,
          menu_items (fst (perform s op)) = (menu_items s ++ added)%list)
  /\ (forall ops s,
        forallb nonneg_op ops = true -> counts_grow s (run_all s ops)).
Proof.
  split; [|split].
  - intros s rid body s' o H.
    unfold add_menu_item, run, bind, py, leave, commit, get_or_404 in H.
    repeat (simpl fst in H; simpl snd in H; split_match_in H); try discriminate.
    all: unfold leave in *; try congruence.
    injection H as <- _. simpl. eexists. split; reflexivity.
  - exact menu_extended.
  - induction ops as [|op ops IH]; intros s H; simpl in *.
    + apply counts_grow_refl.
    + apply andb_prop in H as [H1 H2].
      eapply counts_grow_trans; [apply perform_counts_grow, H1 | apply IH, H2].
Qed.

Lemma order_count_grows_witness :
  counts_grow small_store
    (run_all small_store
       [ CreateOrder env1 1 two_dosas_body; AddMenuItem 1 dosa_body ]).
Proof.
  apply (proj2 (proj2 order_count_grows)). reflexivity.
Defined.

(** An order for minus two dosas is accepted and takes the count of the
    dish from 0 to -2. *)
Lemma order_count_decreases :
  reachable small_store
  /\ map MenuItem.order_count (menu_items small_store) = [Some 0]
  /\ snd (create_order small_store env1 1 negative_order_body)
     = Json 201 (JObj [ ("message", JStr "Order placed");
                        ("orderId", JStr "7d1e5a90") ])
  /\ map MenuItem.order_count
         (menu_items (fst (create_order small_store env1 1 negative_order_body)))
     = [Some (-2)]
  /\ ~ counts_grow small_store
         (fst (create_order small_store env1 1 negative_order_body)).
Proof.
  split; [exact small_store_reachable|].
  repeat split; try reflexivity.
  intros (ms & added & E & H).
  vm_compute in E.
  remember (menu_items small_store) as l0 eqn:El. vm_compute in El. subst l0.
  inversion H as [|m m' l l' [_ Hle] Hl]; subst.
  inversion Hl; subst. simpl in E. injection E as <- _.
  simpl in Hle. lia.
Qed.

(** ** Placing an order *)

Lemma refers_is (rid : Z) (l : line) (m : MenuItem.t) :
  refers rid m l = menu_item_is (fst l) rid m.
Proof.
  unfold refers, menu_item_is. destruct (fst l) as [k|]; [|reflexivity].
  now rewrite (Z.eqb_sym k), (Z.eqb_sym rid).
Qed.

Lemma refers_bump (rid : Z) (l l' : line) (m : MenuItem.t) :
  refers rid (bump rid l m) l' = refers rid m l'.
Proof.
  unfold bump. destruct (refers rid m l); reflexivity.
Qed.

Lemma ordered_nil (rid : Z) (m : MenuItem.t) : ordered rid [] m = m.
Proof. reflexivity. Qed.

Lemma existsb_false_filter {A : Type} (p : A -> bool) (l : list A) :
  existsb p l = false -> filter p l = [].
Proof.
  induction l as [|x l IH]; simpl; [reflexivity|].
  destruct (p x); simpl; [discriminate | exact IH].
Qed.

Lemma existsb_eq {A : Type} (p q : A -> bool) (l : list A) :
  (forall x, p x = q x) -> existsb p l = existsb q l.
Proof.
  intro H; induction l as [|x l IH]; simpl; [reflexivity|].
  now rewrite H, IH.
Qed.

Lemma filter_eq {A : Type} (p q : A -> bool) (l : list A) :
  (forall x, p x = q x) -> filter p l = filter q l.
Proof.
  intro H; induction l as [|x l IH]; simpl; [reflexivity|].
  now rewrite H, IH.
Qed.

Lemma apply_lines_ordered (rid : Z) (ls : list line) (m : MenuItem.t) :
  apply_lines rid ls m = ordered rid ls m.
Proof.
  revert m; induction ls as [|l ls IH]; intro m; [reflexivity|].
  unfold apply_lines in *. simpl. rewrite IH.
  unfold ordered, ordered_qty. simpl.
  assert (Hf : forall l', refers rid (bump rid l m) l' = refers rid m l')
    by (intro; apply refers_bump).
  rewrite (existsb_eq _ _ ls Hf), (filter_eq _ _ ls Hf).
  unfold bump. destruct (refers rid m l) eqn:E; simpl; [|reflexivity].
  destruct (existsb (refers rid m) ls) eqn:Ex.
  - unfold set_count, add_count. simpl. f_equal. f_equal. lia.
  - rewrite (existsb_false_filter _ _ Ex). unfold set_count, add_count.
    simpl. f_equal. f_equal. lia.
Qed.

Lemma bump_id (rid : Z) (l : line) (m : MenuItem.t) :
  MenuItem.id (bump rid l m) = MenuItem.id m.
Proof. unfold bump. destruct (refers rid m l); reflexivity. Qed.

Lemma keyed_bump (rid : Z) (l : line) (ms : list MenuItem.t) :
  keyed ms -> keyed (map (bump rid l) ms).
Proof.
  intros [Hn Hp]. split.
  - rewrite map_map. erewrite map_ext; [exact Hn|]. intro; apply bump_id.
  - rewrite Forall_map. eapply Forall_impl; [|exact Hp].
    intros m Hm. now rewrite bump_id.
Qed.

Lemma bump_none_found (rid : Z) (key : option Z) (q : Z) (ms : list MenuItem.t) :
  find (menu_item_is key rid) ms = None -> map (bump rid (key, q)) ms = ms.
Proof.
  intro H. rewrite <- (map_id ms) at 2. apply map_ext_in.
  intros m Hin. unfold bump. rewrite refers_is. simpl.
  now rewrite (find_none _ _ H m Hin).
Qed.

Lemma bump_zero (rid : Z) (q : Z) (ms : list MenuItem.t) :
  keyed ms -> map (bump rid (Some 0, q)) ms = ms.
Proof.
  intros [_ Hp]. rewrite <- (map_id ms) at 2. apply map_ext_in.
  intros m Hin. rewrite Forall_forall in Hp. specialize (Hp m Hin).
  unfold bump. rewrite refers_is. unfold menu_item_is. simpl.
  destruct (Z.eqb_spec (MenuItem.id m) 0); [lia | reflexivity].
Qed.

Lemma update_first_bump (rid k q : Z) (ms : list MenuItem.t) :
  NoDup (map MenuItem.id ms) ->
  update_first (menu_item_is (Some k) rid) (add_count q) ms
  = map (bump rid (Some k, q)) ms.
Proof.
  induction ms as [|m ms IH]; intro Hn; [reflexivity|].
  cbn [update_first map] in *.
  inversion Hn as [|? ? Hm Hms]; subst.
  unfold bump at 1. rewrite refers_is. cbn [fst snd].
  destruct (menu_item_is (Some k) rid m) eqn:E.
  - f_equal. symmetry. apply bump_none_found.
    destruct (find (menu_item_is (Some k) rid) ms) as [m'|] eqn:Hf;
      [|reflexivity].
    exfalso. destruct (find_some _ _ Hf) as [Hin Hp].
    apply Hm. unfold menu_item_is in *.
    apply andb_prop in E as [E _]. apply andb_prop in Hp as [Hp _].
    apply Z.eqb_eq in E. apply Z.eqb_eq in Hp.
    rewrite E, <- Hp. now apply in_map.
  - f_equal. auto.
Qed.

(** The count the loop gives to the row a line names fits, when the counts
    of the line fit. *)
Lemma found_fits (rid k q : Z) (ms : list MenuItem.t) (mi : MenuItem.t) :
  find (menu_item_is (Some k) rid) ms = Some mi ->
  forallb (fun m => negb (refers rid m (Some k, q))
                    || int64 (count_or_0 (MenuItem.order_count m) + q)) ms
  = true ->
  int64 (count_or_0 (MenuItem.order_count mi) + q) = true.
Proof.
  intros Hf Hall. destruct (find_some _ _ Hf) as [Hin Hp].
  rewrite forallb_forall in Hall. specialize (Hall mi Hin).
  rewrite refers_is in Hall. cbn [fst] in Hall. rewrite Hp in Hall.
  exact Hall.
Qed.

Section OrderLines.
Variable s : db.
Variable o : Order.t.
Variable rid : Z.
Hypothesis fresh :
  existsb (fun o' => (Order.id o' =? Order.id o)%string) (orders s) = false.

Local Abbreviation holds := (holds s o).

Lemma flush_holds (ss : session) (ms : list MenuItem.t) :
  holds ss ms ->
  flush ss = inr (set_orders (set_menu_items s ms) (orders s ++ [o])).
Proof.
  unfold flush, insert_order.
  intros [[-> ->] | [-> ->]]; [|reflexivity].
  simpl. now rewrite fresh.
Qed.

Lemma update_counts_lines (L : list json) (ls : list line) :
  map read_line L = map Some ls ->
  forallb line_fits ls = true ->
  forall ss ms, holds ss ms -> keyed ms -> counts_fit rid ls ms = true ->
  exists ss', update_counts rid L ss = inr ss'
              /\ holds ss' (map (apply_lines rid ls) ms).
Proof.
  revert ls; induction L as [|it L IH]; intros [|l ls] Hmap Hfit;
    try discriminate.
  - intros ss ms H _ _. exists ss. split; [reflexivity|].
    unfold apply_lines. simpl. now rewrite map_id.
  - simpl in Hmap. injection Hmap as Hl Hmap. intros ss ms H Hk Hc.
    simpl in Hfit. apply andb_prop in Hfit as [Hfl Hfit].
    simpl in Hc. apply andb_prop in Hc as [Hc1 Hc].
    assert (Hnext : forall ss1, holds ss1 (map (bump rid l) ms) ->
              exists ss', update_counts rid L ss1 = inr ss'
                          /\ holds ss' (map (apply_lines rid (l :: ls)) ms)).
    { intros ss1 H1.
      destruct (IH ls Hmap Hfit ss1 _ H1 (keyed_bump rid l Hk) Hc)
        as (ss' & E & H').
      exists ss'. split; [exact E|]. now rewrite map_map in H'. }
    destruct it as [| | | | | |dl]; try discriminate.
    simpl in Hl. simpl. unfold bind, py.
    destruct (py_int (get dl "qty" (JInt 1))) as [|q];
      [destruct (get dl "id" JNull); discriminate|].
    destruct (get dl "id" JNull) as [| |k| | | |]; try discriminate;
      injection Hl as <-.
    + simpl. apply Hnext.
      replace (map (bump rid (None, q)) ms) with ms; [exact H|].
      symmetry. rewrite <- (map_id ms) at 2. now apply map_ext.
    + simpl. destruct (Z.eqb_spec k 0) as [-> | Hk0]; simpl.
      * apply Hnext. now rewrite bump_zero.
      * rewrite (flush_holds H). unfold line_fits in Hfl. simpl in Hfl.
        rewrite Hfl. simpl.
        destruct (find (menu_item_is (Some k) rid) ms) as [mi|] eqn:Ef.
        -- rewrite (@found_fits rid k q ms mi Ef Hc1).
           apply Hnext. right. simpl. split; [reflexivity|].
           now rewrite update_first_bump by apply Hk.
        -- apply Hnext. right. simpl. split; [reflexivity|].
           now rewrite bump_none_found.
Qed.
End OrderLines.

Lemma fresh_order_id (l : list Order.t) (i : string) :
  (forall o, In o l -> Order.id o <> i) ->
  existsb (fun o' => (Order.id o' =? i)%string) l = false.
Proof.
  induction l as [|o l IH]; simpl; intro H; [reflexivity|].
  destruct (String.eqb_spec (Order.id o) i) as [E|_].
  - exfalso. apply (H o); auto.
  - apply IH. intros o' Ho'. apply H. now right.
Qed.

Lemma set_menu_items_same (s : db) : set_menu_items s (menu_items s) = s.
Proof. now destruct s. Qed.

Lemma sql_real_as_stored (f : pyfloat) : sql_real f = as_stored f.
Proof. now destruct f. Qed.

(** C2.  An order for an existing restaurant [rid] of a reachable store,
    with a total [float()] accepts, lines that can be read, ids and counts
    that fit 64 bits and an order id not in use, is answered with 201,
    appends the order and changes the menu in this way only: the count of
    every menu item of [rid] that some line names by its id goes up by the
    sum of the quantities of these lines, a line without qty counting for
    1.  A line that names no menu item of [rid], because no item has the id
    or because the item is of another restaurant, changes nothing and does
    not fail the order; a menu item that no line names, and every menu item
    of another restaurant, keeps its row as it is. *)
Theorem create_order_counts (s : db) (e : env) (rid : Z) (body : json)
    (r : Restaurant.t) (d : dict) (total : pyfloat) (un me : option string)
    (L : list json) (ls : list line) :
  reachable s ->
  find (fun r => Restaurant.id r =? rid) (restaurants s) = Some r ->
  as_dict (py_or body (JObj [])) = inr d ->
  py_float (get d "total" (JInt 0)) = inr total ->
  sql_text (get d "userName" (JStr "Guest")) = inr un ->
  sql_text (get d "method" (JStr "online")) = inr me ->
  get d "items" (JArr []) = JArr L ->
  map read_line L = map Some ls ->
  forallb line_fits ls = true ->
  counts_fit rid ls (menu_items s) = true ->
  (forall o, In o (orders s) -> Order.id o <> substring 0 8 (uuid4 e)) ->
  let order_id := substring 0 8 (uuid4 e) in
  let o := Order.mk order_id rid un (Some (JArr L)) (as_stored total) me
                    (utcnow e) in
  create_order s e rid body
  = (mkdb (users s) (restaurants s)
          (map (ordered rid ls) (menu_items s))
          (tables s) (bookings s) (incomes s) (feedback s)
          (orders s ++ [o]),
     Json 201 (order_placed order_id))
  /\ (forall m,
        same_item m (ordered rid ls m)
        /\ count_or_0 (MenuItem.order_count (ordered rid ls m))
           = count_or_0 (MenuItem.order_count m) + ordered_qty rid ls m
        /\ (existsb (refers rid m) ls = false -> ordered rid ls m = m)
        /\ (MenuItem.restaurant_id m <> rid -> ordered rid ls m = m)
        /\ ((forall l, In l ls -> fst l <> Some (MenuItem.id m)) ->
            ordered rid ls m = m))
  /\ (forall dl k q, lookup "id" dl = Some (JInt k) ->
                     lookup "qty" dl = Some (JInt q) ->
                     read_line (JObj dl) = Some (Some k, q))
  /\ (forall dl k, lookup "id" dl = Some (JInt k) -> lookup "qty" dl = None ->
                   read_line (JObj dl) = Some (Some k, 1)).
Proof.
  intros Hs Hr Hd Htot Hun Hme Hit Hls Hfit Hcnt Hfresh order_id o.
  assert (Er : Restaurant.id r = rid)
    by (apply find_some in Hr as [_ E]; now apply Z.eqb_eq).
  split; [|split; [|split]].
  - pose proof (reachable_consistent Hs) as C.
    assert (Hk : keyed (menu_items s))
      by (split; [apply (menu_ids_unique C) | apply (menu_ids_positive C)]).
    assert (Hh : holds s o (s, Some (inr o)) (menu_items s))
      by (left; split; [reflexivity | symmetry; apply set_menu_items_same]).
    assert (Hfr : existsb (fun o' => (Order.id o' =? Order.id o)%string)
                          (orders s) = false)
      by exact (fresh_order_id (orders s) Hfresh).
    destruct (@update_counts_lines s o rid Hfr L ls Hls Hfit _ _ Hh Hk Hcnt)
      as (ss' & Eu & Hh').
    unfold create_order, run, bind, py, leave, commit, get_or_404, new_order.
    rewrite Hr, Hd, Htot, Hun, Hme, Hit, Er, sql_real_as_stored.
    simpl py_iter. cbv iota beta.
    fold order_id. fold o. rewrite Eu.
    rewrite (@flush_holds s o Hfr ss' _ Hh').
    fold (order_placed order_id).
    unfold set_orders, set_menu_items. simpl.
    rewrite (map_ext _ _ (apply_lines_ordered rid ls)). reflexivity.
  - intro m.
    assert (Hun' : existsb (refers rid m) ls = false -> ordered rid ls m = m)
      by (unfold ordered; now intros ->).
    unfold ordered_qty.
    split; [|split; [|split; [exact Hun' | split]]].
    + unfold ordered. destruct (existsb (refers rid m) ls);
        [unfold same_item; simpl; auto | apply same_item_refl].
    + unfold ordered. destruct (existsb (refers rid m) ls) eqn:Ex.
      * reflexivity.
      * rewrite (existsb_false_filter _ _ Ex). simpl. lia.
    + intro Hne. apply Hun'.
      destruct (existsb (refers rid m) ls) eqn:Ex; [|reflexivity].
      apply existsb_exists in Ex as (l & _ & Hl). unfold refers in Hl.
      destruct (fst l); [|discriminate].
      apply andb_prop in Hl as [_ Hl]. apply Z.eqb_eq in Hl. congruence.
    + intro Hne. apply Hun'.
      destruct (existsb (refers rid m) ls) eqn:Ex; [|reflexivity].
      apply existsb_exists in Ex as (l & Hin & Hl). unfold refers in Hl.
      destruct (fst l) as [k|] eqn:Ek; [|discriminate].
      apply andb_prop in Hl as [Hl _]. apply Z.eqb_eq in Hl.
      exfalso. apply (Hne l Hin). congruence.
  - intros dl k q Hid Hq. unfold read_line, get. now rewrite Hid, Hq.
  - intros dl k Hid Hq. unfold read_line, get. now rewrite Hid, Hq.
Qed.

Lemma two_kitchens_reachable : reachable two_kitchens.
Proof.
  now exists [ Register env0 owner_body; Register env1 second_owner_body;
               AddMenuItem 1 dosa_body; AddMenuItem 2 idli_body ].
Qed.

Lemma create_order_counts_witness :
  reachable two_kitchens
  /\ map (fun m => (MenuItem.id m, MenuItem.restaurant_id m,
                    MenuItem.order_count m))
         (menu_items two_kitchens)
     = [ (1, 1, Some 0); (2, 2, Some 0) ]
  /\ snd (create_order two_kitchens env1 1 cross_order_body)
     = Json 201 (order_placed "7d1e5a90")
  /\ map (fun m => (MenuItem.id m, MenuItem.restaurant_id m,
                    MenuItem.order_count m))
         (menu_items (fst (create_order two_kitchens env1 1 cross_order_body)))
     = [ (1, 1, Some 4); (2, 2, Some 0) ]
  /\ map Order.id (orders (fst (create_order two_kitchens env1 1 cross_order_body)))
     = [ "7d1e5a90" ].
Proof.
  assert (Hfresh : forall o, In o (orders two_kitchens) ->
                             Order.id o <> substring 0 8 (uuid4 env1))
    by (intros o []).
  destruct (@create_order_counts two_kitchens env1 1 cross_order_body
              registered_restaurant
              [ ("userName", JStr "Asha"); ("items", JArr cross_order_lines);
                ("total", JInt 480) ]
              (float_of_int 480) (Some "Asha") (Some "online")
              cross_order_lines
              [ (Some 1, 3); (Some 2, 5); (Some 99, 5); (Some 1, 1) ]
              two_kitchens_reachable eq_refl eq_refl eq_refl eq_refl eq_refl
              eq_refl eq_refl eq_refl eq_refl Hfresh) as (E & _).
  split; [exact two_kitchens_reachable|].
  split; [reflexivity|].
  rewrite E. repeat split; reflexivity.
Defined.

(** ** Requests for a restaurant that does not exist *)

(** X1.  Every route under /api/restaurants/<rid> looks the restaurant up
    first: when no restaurant has the id, the answer is 404 whatever the
    body is, and nothing is stored; for an id beyond 64 bits the lookup
    itself raises, a 500.  When a restaurant has the id, the GET answers
    200 with its full view. *)
Theorem missing_restaurant_not_found (s : db) (rid : Z) :
  (find (fun r => Restaurant.id r =? rid) (restaurants s) = None ->
   forall o, (int64 rid = true /\ o = NotFound)
             \/ (int64 rid = false /\ o = Unhandled OverflowError) ->
   forall e body,
     get_restaurant s rid = (s, o)
     /\ add_menu_item s rid body = (s, o)
     /\ add_table s rid body = (s, o)
     /\ add_income s e rid body = (s, o)
     /\ add_feedback s e rid body = (s, o)
     /\ create_order s e rid body = (s, o))
  /\ (forall r, find (fun r => Restaurant.id r =? rid) (restaurants s) = Some r ->
                get_restaurant s rid = (s, Json 200 (to_full s r))).
Proof.
  split.
  - intros H o Ho e body.
    unfold get_restaurant, add_menu_item, add_table, add_income, add_feedback,
      create_order, run, bind, get_or_404, leave.
    rewrite H. destruct Ho as [[-> ->] | [-> ->]]; repeat split.
  - intros r H. unfold get_restaurant, run, bind, get_or_404, leave.
    now rewrite H.
Qed.

Lemma missing_restaurant_not_found_witness :
  create_order small_store env1 2 mixed_order_body = (small_store, NotFound)
  /\ add_table small_store (2 ^ 63) table_body
     = (small_store, Unhandled OverflowError)
  /\ get_restaurant small_store 1
     = (small_store, Json 200 (to_full small_store registered_restaurant)).
Proof.
  split; [|split].
  - apply (proj1 (missing_restaurant_not_found small_store 2) eq_refl NotFound
             (or_introl (conj eq_refl eq_refl)) env1).
  - apply (proj1 (missing_restaurant_not_found small_store (2 ^ 63)) eq_refl
             (Unhandled OverflowError)
             (or_intror (conj eq_refl eq_refl)) env1).
  - apply (proj2 (missing_restaurant_not_found small_store 1)). reflexivity.
Defined.

(** ** Start-up *)

(** X12.  [init_db] seeds the demo data only into a store without any
    restaurant: on a store that has one it does nothing, and run twice it
    does what it does once. *)
Theorem init_db_idempotent (s : db) :
  (restaurants s <> [] -> init_db s = s)
  /\ init_db (init_db s) = init_db s.
Proof.
  split.
  - unfold init_db. destruct (restaurants s); [contradiction | reflexivity].
  - unfold init_db at 1. destruct (restaurants (init_db s)) eqn:E; [|reflexivity].
    exfalso. unfold init_db in E. destruct (restaurants s) eqn:E'; simpl in E.
    + discriminate.
    + congruence.
Qed.

Lemma init_db_idempotent_witness : init_db small_store = small_store.
Proof.
  apply (proj1 (init_db_idempotent small_store)). discriminate.
Defined.

(** ** The ways an order can go *)

(** A session whose flush fails stays as it is until the loop ends or
    raises. *)
Lemma stuck_session (rid : Z) (L : list json) (ss ss' : session) (ex : exn) :
  flush ss = inl ex -> update_counts rid L ss = inr ss' -> ss' = ss.
Proof.
  intro Hf. induction L as [|it L IH]; simpl; intro H.
  - now injection H.
  - unfold bind, py in H.
    destruct (as_dict it) as [|d]; [discriminate|].
    destruct (py_int _) as [|q]; [discriminate|].
    destruct (truthy _); [|auto].
    rewrite Hf in H. discriminate.
Qed.

Lemma failed_unhandled (ex : exn) : failed (Unhandled ex).
Proof. right. now exists ex. Qed.

(** Either [create_order] fails and stores nothing, or it is answered with
    201 and appends the order under an id not in use, the menu rows keeping
    all but their counts. *)
Lemma create_order_cases (s : db) (e : env) (rid : Z) (body : json) :
  (fst (create_order s e rid body) = s /\ failed (snd (create_order s e rid body)))
  \/ exists r d total un me ms,
       find (fun r => Restaurant.id r =? rid) (restaurants s) = Some r
       /\ as_dict (py_or body (JObj [])) = inr d
       /\ py_float (get d "total" (JInt 0)) = inr total
       /\ sql_text (get d "userName" (JStr "Guest")) = inr un
       /\ sql_text (get d "method" (JStr "online")) = inr me
       /\ Forall2 same_item (menu_items s) ms
       /\ existsb (fun o' => (Order.id o' =? substring 0 8 (uuid4 e))%string)
                  (orders s) = false
       /\ create_order s e rid body
          = (set_orders (set_menu_items s ms)
               (orders s ++ [order_row e (Restaurant.id r) d total un me]),
             Json 201 (order_placed (substring 0 8 (uuid4 e)))).
Proof.
  unfold create_order, run, bind, py, leave, commit, get_or_404.
  destruct (find _ (restaurants s)) as [r|] eqn:Er;
    [|left; destruct (int64 rid);
      (split; [reflexivity | (now left) || apply failed_unhandled])].
  destruct (as_dict _) as [|d] eqn:Ed;
    [left; split; [reflexivity | apply failed_unhandled]|].
  destruct (py_float _) as [|total] eqn:Et;
    [left; split; [reflexivity | apply failed_unhandled]|].
  destruct (py_iter _) as [|lines];
    [left; split; [reflexivity | apply failed_unhandled]|].
  destruct (update_counts _ _ _) as [o|ss'] eqn:Eu.
  { left. split; [reflexivity|].
    clear - Eu. revert Eu. generalize (s, Some (new_order e (Restaurant.id r)
      (substring 0 8 (uuid4 e)) (get d "userName" (JStr "Guest"))
      (get d "items" (JArr [])) (get d "method" (JStr "online")) total)).
    induction lines as [|it L IH]; simpl; intros ss H; [discriminate|].
    unfold bind, py in H.
    destruct (as_dict it); [injection H as <-; apply failed_unhandled|].
    destruct (py_int _); [injection H as <-; apply failed_unhandled|].
    destruct (truthy _); [|eauto].
    destruct (flush ss); [injection H as <-; apply failed_unhandled|].
    destruct (sql_int _); [injection H as <-; apply failed_unhandled|].
    destruct (find _ _); eauto. }
  destruct (flush ss') as [|s'] eqn:Ef;
    [left; split; [reflexivity | apply failed_unhandled]|].
  right.
  set (pending := new_order e (Restaurant.id r) (substring 0 8 (uuid4 e))
                    (get d "userName" (JStr "Guest")) (get d "items" (JArr []))
                    (get d "method" (JStr "online")) total) in *.
  destruct (flush (s, Some pending)) as [ex|s0] eqn:E0.
  { rewrite (@stuck_session _ _ _ _ _ E0 Eu) in Ef. congruence. }
  unfold flush in E0. simpl in E0.
  destruct pending as [|o] eqn:Ep; [discriminate|].
  unfold insert_order in E0.
  destruct (existsb _ (orders s)) eqn:Ex; [discriminate|]. clear E0.
  unfold pending, new_order in Ep.
  destruct (sql_text (get d "userName" (JStr "Guest"))) as [|un] eqn:Eun;
    [discriminate|].
  destruct (sql_text (get d "method" (JStr "online"))) as [|me] eqn:Eme;
    [discriminate|].
  injection Ep as <-. simpl in Ex.
  assert (T0 : tracks same_item s (inr (order_row e (Restaurant.id r) d total un me))
                 (s, Some (inr (order_row e (Restaurant.id r) d total un me)))).
  { exists (menu_items s). split; [apply Forall2_refl, same_item_refl|].
    left. split; [reflexivity | now destruct s]. }
  assert (HQ : quantities (fun _ : Z => True) lines) by (intros ? ? ? ? ? ?; exact I).
  pose proof (@update_counts_tracks same_item (fun _ => True) same_item_refl
                same_item_trans (fun m q _ => same_item_add_count m q)
                s _ (Restaurant.id r) lines _ _ HQ T0 Eu) as T1.
  destruct (flush_tracks T1 Ef)
    as (ms & HR & [[Hp _] | [(o' & Ho & _ & Hs) | (ex & Hp)]]);
    [discriminate | | discriminate].
  injection Ho as <-. simpl in Hs. subst s'.
  exists r, d, total, un, me, ms. repeat split; auto.
Qed.

Lemma failed_not_json (st : Z) (b : json) : ~ failed (Json st b).
Proof. intros [H | [ex H]]; discriminate. Qed.

Lemma existsb_order_id (l : list Order.t) (i : string) :
  existsb (fun o' => (Order.id o' =? i)%string) l = false ->
  forall o, In o l -> Order.id o <> i.
Proof.
  intros H o Hin E.
  assert (existsb (fun o' => (Order.id o' =? i)%string) l = true).
  { apply existsb_exists. exists o. split; [assumption|].
    now apply String.eqb_eq. }
  congruence.
Qed.

(** ** Orders: the id, the defaults, the view *)

Lemma collide_lines (rid : Z) (L : list json) (ls : list line) (ss : session) :
  flush ss = inl IntegrityError ->
  map read_line L = map Some ls ->
  update_counts rid L ss = inr ss
  \/ update_counts rid L ss = inl (Unhandled IntegrityError).
Proof.
  intro Hf. revert ls; induction L as [|it L IH]; intros [|l ls] Hm;
    try discriminate; simpl.
  - now left.
  - simpl in Hm. injection Hm as Hl Hm.
    destruct it as [| | | | | |dl]; try discriminate.
    simpl in Hl. simpl. unfold bind, py.
    destruct (py_int (get dl "qty" (JInt 1))) as [|q];
      [destruct (get dl "id" JNull); discriminate|].
    destruct (get dl "id" JNull) as [| |k| | | |]; try discriminate.
    + simpl. eauto.
    + simpl. destruct (k =? 0); simpl; [eauto|].
      rewrite Hf. now right.
Qed.

(** X5.  The order id is drawn, not checked: when the eight characters are
    the id of an order already stored, the request is not answered with 201
    and stores nothing; if the request is otherwise in order (restaurant
    found, total and lines readable), the IntegrityError of the store is
    what comes out. *)
Theorem order_id_in_use (s : db) (e : env) (rid : Z) (body : json) :
  existsb (fun o' => (Order.id o' =? substring 0 8 (uuid4 e))%string)
          (orders s) = true ->
  fst (create_order s e rid body) = s
  /\ failed (snd (create_order s e rid body))
  /\ (forall r d total un me L ls,
        find (fun r => Restaurant.id r =? rid) (restaurants s) = Some r ->
        as_dict (py_or body (JObj [])) = inr d ->
        py_float (get d "total" (JInt 0)) = inr total ->
        sql_text (get d "userName" (JStr "Guest")) = inr un ->
        sql_text (get d "method" (JStr "online")) = inr me ->
        get d "items" (JArr []) = JArr L ->
        map read_line L = map Some ls ->
        snd (create_order s e rid body) = Unhandled IntegrityError).
Proof.
  intro Hx.
  destruct (create_order_cases s e rid body)
    as [[H1 H2] | (r & d & total & un & me & ms & _ & _ & _ & _ & _ & _ & Hf & _)];
    [|congruence].
  split; [exact H1 | split; [exact H2|]].
  intros r d total un me L ls Hr Hd Ht Hun Hme Hit Hls.
  unfold create_order, run, bind, py, leave, commit, get_or_404, new_order.
  rewrite Hr, Hd, Ht, Hun, Hme, Hit. simpl py_iter. cbv iota beta.
  match goal with
  | |- context [update_counts ?a ?b ?c] =>
      assert (Hfl : flush c = inl IntegrityError)
        by (unfold flush, insert_order; simpl; now rewrite Hx);
      destruct (@collide_lines a b ls c Hfl Hls) as [-> | ->];
        [rewrite Hfl|]; reflexivity
  end.
Qed.

Lemma order_id_in_use_witness :
  let s1 := fst (create_order small_store env1 1 two_dosas_body) in
  create_order s1 env1 1 mixed_order_body = (s1, Unhandled IntegrityError).
Proof.
  intro s1.
  destruct (@order_id_in_use s1 env1 1 mixed_order_body eq_refl)
    as (H1 & _ & H3).
  rewrite (surjective_pairing (create_order s1 env1 1 mixed_order_body)).
  rewrite H1.
  rewrite (H3 registered_restaurant
              [ ("userName", JStr "Asha"); ("items", JArr mixed_order_lines);
                ("total", JInt 480) ]
              (float_of_int 480) (Some "Asha") (Some "online")
              mixed_order_lines [ (Some 1, 3); (Some 99, 5); (Some 1, 1) ]
              eq_refl eq_refl eq_refl eq_refl eq_refl eq_refl eq_refl).
  reflexivity.
Defined.

(** X14.  An order that gives no items, no total, no userName and no method
    is accepted all the same: it is stored with an empty list of items,
    total 0.0, user Guest and method online, and nothing else in the store
    changes, no count either. *)
Theorem create_order_defaults (s : db) (e : env) (rid : Z) (body : json)
    (r : Restaurant.t) (d : dict) :
  find (fun r => Restaurant.id r =? rid) (restaurants s) = Some r ->
  as_dict (py_or body (JObj [])) = inr d ->
  lookup "userName" d = None -> lookup "items" d = None ->
  lookup "method" d = None -> lookup "total" d = None ->
  (forall o, In o (orders s) -> Order.id o <> substring 0 8 (uuid4 e)) ->
  create_order s e rid body
  = (mkdb (users s) (restaurants s) (menu_items s) (tables s) (bookings s)
          (incomes s) (feedback s)
          (orders s ++
             [Order.mk (substring 0 8 (uuid4 e)) rid (Some "Guest")
                       (Some (JArr [])) (Some (SpecFloat.S754_zero false))
                       (Some "online") (utcnow e)]),
     Json 201 (order_placed (substring 0 8 (uuid4 e)))).
Proof.
  intros Hr Hd Hu Hi Hm Ht Hfresh.
  assert (Er : Restaurant.id r = rid)
    by (apply find_some in Hr as [_ E]; now apply Z.eqb_eq).
  unfold create_order, run, bind, py, leave, commit, get_or_404, new_order, get.
  rewrite Hr, Hd, Hu, Hi, Hm, Ht, Er.
  pose proof (fresh_order_id (orders s) Hfresh) as Hx.
  cbn -[existsb substring insert_order]. unfold insert_order.
  cbn -[existsb substring]. rewrite Hx. reflexivity.
Qed.

Lemma create_order_defaults_witness :
  create_order small_store env1 1 JNull
  = (mkdb (users small_store) (restaurants small_store)
          (menu_items small_store) (tables small_store) [] [] []
          [Order.mk "7d1e5a90" 1 (Some "Guest") (Some (JArr []))
                    (Some (SpecFloat.S754_zero false)) (Some "online")
                    "2024-05-01T12:30:00"],
     Json 201 (order_placed "7d1e5a90")).
Proof.
  apply (@create_order_defaults small_store env1 1 JNull registered_restaurant []);
    try reflexivity.
  intros o [].
Defined.

(** X6.  An order that was answered with 201 is the last order of the full
    view of its restaurant from then on: under the id the answer gave, with
    the items as they were sent and the time of the request; the id was not
    in use before. *)
Theorem placed_order_shown (s s' : db) (e : env) (rid : Z) (body b : json) :
  create_order s e rid body = (s', Json 201 b) ->
  exists r d o,
    find (fun r => Restaurant.id r =? rid) (restaurants s') = Some r
    /\ as_dict (py_or body (JObj [])) = inr d
    /\ b = order_placed (substring 0 8 (uuid4 e))
    /\ orders s' = (orders s ++ [o])%list
    /\ (forall o', In o' (orders s) -> Order.id o' <> substring 0 8 (uuid4 e))
    /\ field "id" (Order.to_dict o) = Some (JStr (substring 0 8 (uuid4 e)))
    /\ field "items" (Order.to_dict o) = Some (get d "items" (JArr []))
    /\ field "when" (Order.to_dict o) = Some (JStr (utcnow e))
    /\ field "orders" (to_full s' r)
       = Some (JArr (map Order.to_dict (orders_of s r ++ [o]))).
Proof.
  intro H.
  destruct (create_order_cases s e rid body)
    as [[_ H2] | (r & d & total & un & me & ms & Hr & Hd & _ & _ & _ & _ & Hf & E)].
  - rewrite H in H2. now apply failed_not_json in H2.
  - rewrite E in H. injection H as <- <-.
    exists r, d, (order_row e (Restaurant.id r) d total un me).
    repeat split; auto.
    + now apply existsb_order_id.
    + simpl. unfold orders_of. simpl. rewrite filter_app. simpl.
      now rewrite Z.eqb_refl.
Qed.

Lemma placed_order_shown_witness :
  exists r d o,
    find (fun r => Restaurant.id r =? 1)
         (restaurants (fst (create_order small_store env1 1 two_dosas_body)))
    = Some r
    /\ as_dict (py_or two_dosas_body (JObj [])) = inr d
    /\ field "orders"
         (to_full (fst (create_order small_store env1 1 two_dosas_body)) r)
       = Some (JArr (map Order.to_dict (orders_of small_store r ++ [o]))).
Proof.
  destruct (@placed_order_shown small_store
              (fst (create_order small_store env1 1 two_dosas_body))
              env1 1 two_dosas_body (order_placed "7d1e5a90") eq_refl)
    as (r & d & o & H1 & H2 & _ & _ & _ & _ & _ & _ & H9).
  exists r, d, o. auto.
Defined.

(** ** Requests that miss a field *)

(** X15.  What is checked before anything is stored.  A registration with
    one of its four fields missing, null or empty is answered with 400, and
    so are a login without email or password, a menu item without a name or
    with no price, a table without a number and an income without an
    amount; none of them stores anything.  A price of 0 is a price: the
    menu item is made, its row the one change of the store. *)
Theorem missing_fields_rejected (s : db) (e : env) (rid : Z) (body : json)
    (d : dict) :
  as_dict (py_or body (JObj [])) = inr d ->
  (forallb truthy [ get d "type" JNull; get d "name" JNull;
                    get d "email" JNull; get d "password" JNull ] = false ->
   register s e body = (s, Json 400 (error "Missing fields")))
  /\ (truthy (get d "email" JNull) && truthy (get d "password" JNull) = false ->
      login s body = (s, Json 400 (error "Missing credentials")))
  /\ (forall r,
        find (fun r => Restaurant.id r =? rid) (restaurants s) = Some r ->
        (truthy (get d "name" JNull) = false \/ get d "price" JNull = JNull ->
         add_menu_item s rid body
         = (s, Json 400 (error "Missing name or price")))
        /\ (truthy (get d "num" JNull) = false ->
            add_table s rid body
            = (s, Json 400 (error "Missing table number")))
        /\ (lookup "amount" d = None ->
            add_income s e rid body
            = (s, Json 400 (error "Invalid amount")))
        /\ (forall n i, get d "name" JNull = JStr n -> n <> "" ->
              get d "price" JNull = JInt 0 ->
              sql_text (get d "img" JNull) = inr i ->
              let mi := MenuItem.mk (next_id (map MenuItem.id (menu_items s)))
                                    rid n (SpecFloat.S754_zero false) i (Some 0) in
              add_menu_item s rid body
              = (mkdb (users s) (restaurants s) (menu_items s ++ [mi])
                      (tables s) (bookings s) (incomes s) (feedback s)
                      (orders s),
                 Json 201 (JObj [ ("message", JStr "Menu item added");
                                  ("item", MenuItem.to_dict mi) ])))).
Proof.
  intro Hd. split; [|split].
  - intro H. unfold register, run, bind, py, leave. now rewrite Hd, H.
  - intro H. unfold login, run, bind, py, leave. rewrite Hd.
    destruct (truthy (get d "email" JNull)), (truthy (get d "password" JNull));
      try discriminate; reflexivity.
  - intros r Hr.
    assert (Er : Restaurant.id r = rid)
      by (apply find_some in Hr as [_ E]; now apply Z.eqb_eq).
    split; [|split; [|split]].
    + intro H. unfold add_menu_item, run, bind, py, leave, get_or_404.
      rewrite Hr, Hd. destruct H as [-> | ->]; [reflexivity|].
      now rewrite orb_true_r.
    + intro H. unfold add_table, run, bind, py, leave, get_or_404.
      now rewrite Hr, Hd, H.
    + intro H. apply (@add_income_fails_closed s e rid body r d TypeError);
        auto. unfold get. now rewrite H.
    + intros n i Hn Hne Hp Hi mi.
      unfold add_menu_item, run, bind, py, leave, commit, get_or_404,
        sql_text_nn.
      rewrite Hr, Hd, Hn, Hp, Hi, Er. rewrite (truthy_str Hne). reflexivity.
Qed.

Lemma missing_fields_rejected_witness :
  register small_store env1 (JObj [ ("type", JStr "customer"); ("name", JStr "");
                                    ("email", JStr "a@b.c"); ("password", JStr "x") ])
  = (small_store, Json 400 (error "Missing fields"))
  /\ add_income small_store env1 1 (JObj [ ("sum", JInt 5) ])
     = (small_store, Json 400 (error "Invalid amount"))
  /\ add_menu_item small_store 1 free_water_body
     = (mkdb (users small_store) (restaurants small_store)
             (menu_items small_store
              ++ [MenuItem.mk 2 1 "Water" (SpecFloat.S754_zero false) None (Some 0)])
             (tables small_store) [] [] [] [],
        Json 201 (JObj [ ("message", JStr "Menu item added");
                         ("item", JObj [ ("id", JInt 2); ("name", JStr "Water");
                                         ("price", JFloat (SpecFloat.S754_zero false));
                                         ("img", JStr "https://via.placeholder.com/400x200?text=Dish");
                                         ("orderCount", JInt 0) ]) ])).
Proof.
  split; [|split].
  - apply (proj1 (@missing_fields_rejected small_store env1 1
                    (JObj [ ("type", JStr "customer"); ("name", JStr "");
                            ("email", JStr "a@b.c"); ("password", JStr "x") ])
                    [ ("type", JStr "customer"); ("name", JStr "");
                      ("email", JStr "a@b.c"); ("password", JStr "x") ]
                    eq_refl)).
    reflexivity.
  - destruct (proj2 (proj2 (@missing_fields_rejected small_store env1 1
                              (JObj [ ("sum", JInt 5) ]) [ ("sum", JInt 5) ]
                              eq_refl))
                registered_restaurant eq_refl) as (_ & _ & H & _).
    apply H. reflexivity.
  - destruct (proj2 (proj2 (@missing_fields_rejected small_store env1 1
                              free_water_body
                              [ ("name", JStr "Water"); ("price", JInt 0) ]
                              eq_refl))
                registered_restaurant eq_refl) as (_ & _ & _ & H).
    apply (H "Water" None); try reflexivity. discriminate.
Defined.

(** ** What was added is what is shown *)

Lemma filter_snoc {A : Type} (p : A -> bool) (l : list A) (x : A) :
  filter p (l ++ [x]) = (filter p l ++ (if p x then [x] else []))%list.
Proof. rewrite filter_app. simpl. now destruct (p x). Qed.

(** X3.  A menu item that was answered with 201 is from then on the last
    item of the menu of its restaurant, in the full view as it was in the
    answer, with a new id and an order count of 0; the list view counts
    one more item, and the menus of the other restaurants are as before. *)
Theorem added_item_shown (s s' : db) (rid : Z) (body b : json) :
  add_menu_item s rid body = (s', Json 201 b) ->
  exists r mi,
    find (fun r => Restaurant.id r =? rid) (restaurants s') = Some r
    /\ b = JObj [ ("message", JStr "Menu item added");
                  ("item", MenuItem.to_dict mi) ]
    /\ menu_items s' = (menu_items s ++ [mi])%list
    /\ ~ In (MenuItem.id mi) (map MenuItem.id (menu_items s))
    /\ field "orderCount" (MenuItem.to_dict mi) = Some (JInt 0)
    /\ field "menu" (to_full s' r)
       = Some (JArr (map MenuItem.to_dict (menu_items_of s r)
                     ++ [MenuItem.to_dict mi]))
    /\ field "menuCount" (to_list_item s' r)
       = Some (JInt (Z.of_nat (List.length (menu_items_of s r)) + 1))
    /\ (forall r', Restaurant.id r' <> rid ->
                   menu_items_of s' r' = menu_items_of s r').
Proof.
  intro H.
  unfold add_menu_item, run, bind, py, leave, commit, get_or_404 in H.
  repeat (simpl fst in H; simpl snd in H; split_match_in H); try discriminate.
  all: unfold leave in *; try congruence.
  injection H as <- <-.
  match goal with
  | Hr : find _ (restaurants s) = Some ?r |- _ =>
      assert (Er : Restaurant.id r = rid)
        by (apply find_some in Hr as [_ E]; now apply Z.eqb_eq);
      exists r
  end.
  eexists. split; [eassumption|]. split; [reflexivity|].
  split; [reflexivity|]. simpl.
  split; [apply next_id_fresh|]. split; [reflexivity|].
  unfold menu_items_of. simpl. rewrite filter_snoc. simpl.
  rewrite Z.eqb_refl. split; [|split].
  - now rewrite map_app.
  - rewrite length_app. simpl. do 2 f_equal. lia.
  - intros r' Hne. rewrite filter_snoc. simpl.
    destruct (Z.eqb_spec (Restaurant.id t) (Restaurant.id r'));
      [congruence | now rewrite app_nil_r].
Qed.

Lemma added_item_shown_witness :
  exists r mi,
    find (fun r => Restaurant.id r =? 1)
         (restaurants (fst (add_menu_item small_store 1 dosa_body))) = Some r
    /\ field "menuCount" (to_list_item (fst (add_menu_item small_store 1 dosa_body)) r)
       = Some (JInt (Z.of_nat (List.length (menu_items_of small_store r)) + 1))
    /\ field "orderCount" (MenuItem.to_dict mi) = Some (JInt 0).
Proof.
  destruct (@added_item_shown small_store
              (fst (add_menu_item small_store 1 dosa_body)) 1 dosa_body
              (JObj [ ("message", JStr "Menu item added");
                      ("item", MenuItem.to_dict
                                 (MenuItem.mk 2 1 "Masala Dosa" (float_of_int 120)
                                              None (Some 0))) ])
              eq_refl)
    as (r & mi & H1 & _ & _ & _ & H5 & _ & H7 & _).
  exists r, mi. auto.
Defined.

(** X8.  An income whose amount [float()] reads to a number is answered with
    201, adds one row and nothing else, and is from then on the last amount
    of the incomes of the full view of its restaurant, the value alone, as
    the store gives it back: 0.0 for a zero of either sign. *)
Theorem added_income_shown (s : db) (e : env) (rid : Z) (body : json)
    (r : Restaurant.t) (d : dict) (a a' : pyfloat) :
  find (fun r => Restaurant.id r =? rid) (restaurants s) = Some r ->
  as_dict (py_or body (JObj [])) = inr d ->
  py_float (get d "amount" JNull) = inr a ->
  as_stored a = Some a' ->
  let s' := fst (add_income s e rid body) in
  add_income s e rid body
  = (mkdb (users s) (restaurants s) (menu_items s) (tables s) (bookings s)
          (incomes s ++ [Income.mk (next_id (map Income.id (incomes s))) rid a'
                                   (utcnow e)])
          (feedback s) (orders s),
     Json 201 (message "Income added"))
  /\ field "incomes" (to_full s' r)
     = Some (JArr (map (fun i => JFloat (Income.amount i)) (incomes_of s r)
                   ++ [JFloat a'])).
Proof.
  intros Hr Hd Ha Hn s'.
  assert (Er : Restaurant.id r = rid)
    by (apply find_some in Hr as [_ E]; now apply Z.eqb_eq).
  assert (E : add_income s e rid body
              = (mkdb (users s) (restaurants s) (menu_items s) (tables s)
                      (bookings s)
                      (incomes s ++ [Income.mk (next_id (map Income.id (incomes s)))
                                               rid a' (utcnow e)])
                      (feedback s) (orders s),
                 Json 201 (message "Income added"))).
  { unfold add_income, run, bind, py, leave, commit, get_or_404, sql_real_nn.
    rewrite Hr, Hd, Ha, Er, sql_real_as_stored, Hn.
    destruct a; reflexivity. }
  split; [exact E|].
  subst s'. rewrite E. simpl. unfold incomes_of. simpl.
  rewrite filter_snoc. simpl. rewrite Er, Z.eqb_refl. now rewrite map_app.
Qed.

Lemma added_income_shown_witness :
  field "incomes"
    (to_full (fst (add_income small_store env1 1 (JObj [ ("amount", JStr "12.5") ])))
             registered_restaurant)
  = Some (JArr [JFloat (SpecFloat.S754_finite false 7036874417766400 (-49))])
  /\ field "incomes"
       (to_full (fst (add_income small_store env1 1 (JObj [ ("amount", JStr "-0.0") ])))
                registered_restaurant)
     = Some (JArr [JFloat (SpecFloat.S754_zero false)]).
Proof.
  split.
  - exact (proj2 (@added_income_shown small_store env1 1
                    (JObj [ ("amount", JStr "12.5") ]) registered_restaurant
                    [ ("amount", JStr "12.5") ]
                    (SpecFloat.S754_finite false 7036874417766400 (-49))
                    (SpecFloat.S754_finite false 7036874417766400 (-49))
                    eq_refl eq_refl eq_refl eq_refl)).
  - exact (proj2 (@added_income_shown small_store env1 1
                    (JObj [ ("amount", JStr "-0.0") ]) registered_restaurant
                    [ ("amount", JStr "-0.0") ]
                    (SpecFloat.S754_zero true) (SpecFloat.S754_zero false)
                    eq_refl eq_refl eq_refl eq_refl)).
Defined.

(** ** Registration, then login *)

Lemma find_snoc_new {A : Type} (p : A -> bool) (l : list A) (x : A) :
  find p l = None -> p x = true -> find p (l ++ [x]) = Some x.
Proof.
  induction l as [|y l IH]; simpl; intros H Hx.
  - now rewrite Hx.
  - destruct (p y); [discriminate | auto].
Qed.

(** A login that reaches the check of the password. *)
Lemma login_checked (s : db) (body : json) (d : dict) (u : User.t) (ok : bool) :
  as_dict (py_or body (JObj [])) = inr d ->
  truthy (get d "email" JNull) = true ->
  truthy (get d "password" JNull) = true ->
  user_by_email s (get d "email" JNull) = inr (Some u) ->
  check_password_hash (User.password_hash u) (get d "password" JNull) = inr ok ->
  login s body
  = (s, if ok then
          let resp := [ ("id", JInt (User.id u)); ("name", JStr (User.name u));
                        ("email", JStr (User.email u));
                        ("type", JStr (User.type u)) ] in
          Json 200 (JObj (if (User.type u =? "restaurant")%string
                          then resp ++ [ ("restaurantId",
                                          match User.restaurant_id u with
                                          | Some i => JInt i
                                          | None => JNull
                                          end) ]
                          else resp))
        else Json 401 (error "Invalid email or password")).
Proof.
  intros Hd He Hp Hu Hc. unfold login, run, bind, py, leave.
  rewrite Hd, He, Hp, Hu, Hc. destruct ok; [|reflexivity]. simpl.
  destruct (User.type u =? "restaurant")%string; reflexivity.
Qed.

(** X4.  After a registration with four non-empty strings and an email the
    store did not hold, a login with that email and that password is
    answered with 200 and the user as registered (with the id of the new
    restaurant for type restaurant), and a login with that email and a
    password that the salt of the registration takes to another key with
    401. *)
Theorem register_then_login (s : db) (e : env) (body : json) (d : dict)
    (ty n em pw : string) :
  as_dict (py_or body (JObj [])) = inr d ->
  get d "type" JNull = JStr ty -> get d "name" JNull = JStr n ->
  get d "email" JNull = JStr em -> get d "password" JNull = JStr pw ->
  ty <> "" -> n <> "" -> em <> "" -> pw <> "" ->
  (forall u, In u (users s) -> User.email u <> em) ->
  let s1 := fst (register s e body) in
  let me := [ ("id", JInt (next_id (map User.id (users s))));
              ("name", JStr n); ("email", JStr em); ("type", JStr ty) ] in
  login s1 (login_body em pw)
  = (s1, Json 200
           (JObj (if (ty =? "restaurant")%string
                  then me ++ [ ("restaurantId",
                                JInt (next_id (map Restaurant.id (restaurants s)))) ]
                  else me)))
  /\ (forall pw', pw' <> "" ->
        derive_key (gen_salt e) pw' <> derive_key (gen_salt e) pw ->
        login s1 (login_body em pw')
        = (s1, Json 401 (error "Invalid email or password"))).
Proof.
  intros Hd Hty Hn Hem Hpw Nty Nn Nem Npw Hfresh s1 me.
  pose proof (@register_ok s e body d ty n em pw
                Hd Hty Hn Hem Hpw Nty Nn Nem Npw Hfresh) as E.
  pose proof (find_email_none _ Hfresh) as Hf.
  assert (Hu : exists rid,
             users s1 = (users s ++ [registered_user s e ty n em pw rid])%list
             /\ rid = if (ty =? "restaurant")%string
                      then Some (next_id (map Restaurant.id (restaurants s)))
                      else None).
  { subst s1. rewrite E. simpl.
    destruct (ty =? "restaurant")%string; simpl; eexists; split; reflexivity. }
  destruct Hu as (rid & Hus & Hrid).
  assert (Hfind : find (fun u => (User.email u =? em)%string) (users s1)
                  = Some (registered_user s e ty n em pw rid)).
  { rewrite Hus. apply find_snoc_new; [exact Hf | apply String.eqb_refl]. }
  assert (Hlogin : forall p, p <> "" ->
            login s1 (login_body em p)
            = (s1, if (derive_key (gen_salt e) p =? derive_key (gen_salt e) pw)%string
                   then Json 200 (JObj (if (ty =? "restaurant")%string
                                        then me ++ [ ("restaurantId",
                                               match rid with
                                               | Some i => JInt i
                                               | None => JNull
                                               end) ]
                                        else me))
                   else Json 401 (error "Invalid email or password"))).
  { intros p Np.
    rewrite (@login_checked s1 (login_body em p)
               [("email", JStr em); ("password", JStr p)]
               (registered_user s e ty n em pw rid)
               (derive_key (gen_salt e) p =? derive_key (gen_salt e) pw)%string
               eq_refl (truthy_str Nem) (truthy_str Np)).
    - destruct (derive_key (gen_salt e) p =? derive_key (gen_salt e) pw)%string;
        [|reflexivity].
      simpl. destruct (ty =? "restaurant")%string; reflexivity.
    - unfold user_by_email. change (get _ "email" JNull) with (JStr em).
      cbn [sql_text]. now rewrite Hfind.
    - reflexivity. }
  split.
  - rewrite (Hlogin pw Npw), String.eqb_refl. subst rid.
    destruct (ty =? "restaurant")%string; reflexivity.
  - intros pw' Npw' Hne. rewrite (Hlogin pw' Npw').
    destruct (String.eqb_spec (derive_key (gen_salt e) pw')
                              (derive_key (gen_salt e) pw)) as [Eq|_];
      [contradiction | reflexivity].
Qed.

Lemma register_then_login_witness :
  let s1 := fst (register small_store env1 customer_body) in
  login s1 (login_body "asha@example.com" "hunter2")
  = (s1, Json 200 (JObj [ ("id", JInt 2); ("name", JStr "Asha");
                          ("email", JStr "asha@example.com");
                          ("type", JStr "customer") ]))
  /\ login s1 (login_body "asha@example.com" "hunter3")
     = (s1, Json 401 (error "Invalid email or password")).
Proof.
  assert (H : forall u, In u (users small_store) ->
                        User.email u <> "asha@example.com").
  { intros u [<- | []]. discriminate. }
  destruct (@register_then_login small_store env1 customer_body
              [ ("type", JStr "customer"); ("name", JStr "Asha");
                ("email", JStr "asha@example.com"); ("password", JStr "hunter2") ]
              "customer" "Asha" "asha@example.com" "hunter2"
              eq_refl eq_refl eq_refl eq_refl eq_refl
              ltac:(discriminate) ltac:(discriminate) ltac:(discriminate)
              ltac:(discriminate) H) as [H1 H2].
  split; [exact H1|].
  apply H2; discriminate.
Defined.

(** ** The upsert of a table, once more *)

Lemma sql_text_none (v : json) : sql_text v = inr None -> v = JNull.
Proof.
  destruct v as [|[]|z| | | |]; simpl; try discriminate; [reflexivity|].
  destruct (int64 z); discriminate.
Qed.

(** What a request that [add_table] answered with 201 was made of. *)
Lemma add_table_accepted (s s1 : db) (rid : Z) (body b : json) :
  add_table s rid body = (s1, Json 201 b) ->
  exists r d n st,
    find (fun r => Restaurant.id r =? rid) (restaurants s) = Some r
    /\ as_dict (py_or body (JObj [])) = inr d
    /\ truthy (get d "num" JNull) = true
    /\ sql_text (get d "num" JNull) = inr (Some n)
    /\ sql_text (get d "status" (JStr "Available")) = inr st.
Proof.
  intro H.
  unfold add_table, run, bind, py, leave, commit, get_or_404 in H.
  repeat (simpl fst in H; simpl snd in H; split_match_in H); try discriminate.
  all: unfold leave in *; try congruence.
  all: match goal with
       | Hn : negb (truthy _) = false |- _ => apply negb_false_iff in Hn
       end.
  all: try match goal with
       | Hn : sql_text ?v = inr None, Ht : truthy ?v = true |- _ =>
           apply sql_text_none in Hn; rewrite Hn in Ht; discriminate
       end.
  all: do 4 eexists; repeat split; eassumption.
Qed.

Lemma find_update_first {A : Type} (p : A -> bool) (l : list A) (x y : A) :
  find p l = Some x -> p y = true ->
  find p (update_first p (fun _ => y) l) = Some y.
Proof.
  intros Hf Hy; induction l as [|z l IH]; simpl in *; [discriminate|].
  destruct (p z) eqn:E; simpl.
  - now rewrite Hy.
  - rewrite E. auto.
Qed.

Lemma update_first_twice {A : Type} (p : A -> bool) (l : list A) (y : A) :
  p y = true ->
  update_first p (fun _ => y) (update_first p (fun _ => y) l)
  = update_first p (fun _ => y) l.
Proof.
  intro Hy; induction l as [|z l IH]; simpl; [reflexivity|].
  destruct (p z) eqn:E; simpl.
  - now rewrite Hy.
  - now rewrite E, IH.
Qed.

Lemma update_first_snoc {A : Type} (p : A -> bool) (f : A -> A) (l : list A)
    (x : A) :
  find p l = None -> p x = true ->
  update_first p f (l ++ [x]) = (l ++ [f x])%list.
Proof.
  intros Hf Hx; induction l as [|z l IH]; simpl in *.
  - now rewrite Hx.
  - destruct (p z); [discriminate|]. now rewrite IH.
Qed.

Lemma table_is_key (rid : Z) (n : string) (t : Table.t) :
  table_is rid n t = true <-> table_key t = (rid, n).
Proof.
  unfold table_is, table_key. split.
  - intro H. apply andb_prop in H as [H1 H2].
    apply Z.eqb_eq in H1. apply String.eqb_eq in H2. congruence.
  - intro H. injection H as -> ->. now rewrite Z.eqb_refl, String.eqb_refl.
Qed.

Lemma find_table_none (rid : Z) (n : string) (l : list Table.t) :
  (forall t, In t l -> table_key t <> (rid, n)) ->
  find (table_is rid n) l = None.
Proof.
  intro H. destruct (find (table_is rid n) l) as [t|] eqn:Ef; [|reflexivity].
  exfalso. destruct (find_some _ _ Ef) as [Hin Hp].
  apply (H t Hin). now apply table_is_key.
Qed.

Lemma find_table_some (rid : Z) (n : string) (l : list Table.t) (t : Table.t) :
  In t l -> table_key t = (rid, n) ->
  exists t', find (table_is rid n) l = Some t'.
Proof.
  intros Hin Hk. destruct (find (table_is rid n) l) as [t'|] eqn:Ef;
    [now exists t'|].
  exfalso. pose proof (find_none _ _ Ef t Hin) as Hp.
  apply table_is_key in Hk. congruence.
Qed.

(** X7.  [add_table] can be repeated: a request that was answered with 201,
    sent again, gets the same answer and leaves the store as the first one
    left it, without a second row.  The one exception is a request that
    made a new table with a status given as null: the row was made with the
    status Available, and the same request sent again sets it to null. *)
Theorem add_table_idempotent (s s1 : db) (rid : Z) (body b : json) (d : dict)
    (n : string) :
  add_table s rid body = (s1, Json 201 b) ->
  as_dict (py_or body (JObj [])) = inr d ->
  sql_text (get d "num" JNull) = inr (Some n) ->
  (get d "status" (JStr "Available") <> JNull
   \/ (exists t, In t (tables s) /\ table_key t = (rid, n)) ->
   add_table s1 rid body = (s1, Json 201 b))
  /\ (get d "status" (JStr "Available") = JNull ->
      (forall t, In t (tables s) -> table_key t <> (rid, n)) ->
      exists tb,
        b = table_updated tb
        /\ tables s1 = (tables s ++ [tb])%list
        /\ Table.status tb = Some "Available"
        /\ snd (add_table s1 rid body)
           = Json 201 (table_updated (Table.mk (Table.id tb) rid n None))
        /\ tables (fst (add_table s1 rid body))
           = (tables s ++ [Table.mk (Table.id tb) rid n None])%list).
Proof.
  intros H Hd Hn.
  destruct (@add_table_accepted s s1 rid body b H)
    as (r & d' & n' & st & Hr & Hd' & Hnum & Hn' & Hst).
  rewrite Hd in Hd'. injection Hd' as <-.
  rewrite Hn in Hn'. injection Hn' as <-.
  rewrite (@add_table_step s rid body r d n st Hr Hd Hnum Hn Hst) in H.
  assert (Hr1 : find (fun r => Restaurant.id r =? rid) (restaurants s1) = Some r).
  { destruct (find (table_is rid n) (tables s)); injection H as <- _; exact Hr. }
  pose proof (@add_table_step s1 rid body r d n st Hr1 Hd Hnum Hn Hst) as H1.
  assert (Hupd : forall t, find (table_is rid n) (tables s) = Some t ->
                           add_table s1 rid body = (s1, Json 201 b)).
  { intros t Ef. rewrite H1. rewrite Ef in H.
    cbv zeta in H; injection H as <- <-; simpl tables.
    assert (Hp : table_is rid n (Table.mk (Table.id t) (Table.restaurant_id t)
                                          (Table.num t) st) = true)
      by (apply find_some in Ef as [_ Hp]; exact Hp).
    rewrite (@find_update_first _ _ _ _ _ Ef Hp). cbv zeta. simpl.
    now rewrite (@update_first_twice _ _ (tables s) _ Hp). }
  assert (Hnew : find (table_is rid n) (tables s) = None ->
            let tb := Table.mk (next_id (map Table.id (tables s))) rid n
                               (or_default "Available" st) in
            b = table_updated tb
            /\ tables s1 = (tables s ++ [tb])%list
            /\ add_table s1 rid body
               = (set_tables s1 (tables s ++ [Table.mk (Table.id tb) rid n st]),
                  Json 201 (table_updated (Table.mk (Table.id tb) rid n st)))).
  { intros Ef tb. rewrite H1. rewrite Ef in H.
    cbv zeta in H; injection H as <- <-; simpl tables.
    assert (Hp : table_is rid n tb = true)
      by (unfold table_is; simpl; now rewrite Z.eqb_refl, String.eqb_refl).
    fold tb. rewrite (@find_snoc_new _ _ _ _ Ef Hp). cbv zeta.
    rewrite (@update_first_snoc _ _
               (fun _ => Table.mk (Table.id tb) (Table.restaurant_id tb)
                                  (Table.num tb) st) _ _ Ef Hp).
    repeat split. }
  split.
  - intros [Hst' | (t & Hin & Hk)].
    + destruct (find (table_is rid n) (tables s)) as [t|] eqn:Ef;
        [now apply (Hupd t)|].
      destruct (Hnew eq_refl) as (Eb & Et & E). rewrite E.
      destruct st as [x|]; [|apply sql_text_none in Hst; contradiction].
      rewrite Eb. simpl. f_equal.
      destruct s1; simpl in *. now rewrite Et.
    + destruct (@find_table_some rid n (tables s) t Hin Hk) as [t' Ef].
      now apply (Hupd t').
  - intros Hst' Hnone.
    rewrite Hst' in Hst. simpl in Hst. injection Hst as <-.
    destruct (Hnew (@find_table_none rid n (tables s) Hnone)) as (Eb & Et & E).
    eexists. split; [exact Eb|]. split; [exact Et|].
    split; [reflexivity|]. rewrite E. split; reflexivity.
Qed.

Lemma add_table_idempotent_witness :
  (let s1 := fst (add_table small_store 1 occupied_body) in
   add_table s1 1 occupied_body
   = (s1, Json 201 (table_updated (Table.mk 1 1 "7" (Some "Occupied")))))
  /\ (let s2 := fst (add_table small_store 1 null_status_body) in
      tables s2 = [ Table.mk 1 1 "7" (Some "Available");
                    Table.mk 2 1 "8" (Some "Available") ]
      /\ snd (add_table s2 1 null_status_body)
         = Json 201 (table_updated (Table.mk 2 1 "8" None))
      /\ tables (fst (add_table s2 1 null_status_body))
         = [ Table.mk 1 1 "7" (Some "Available"); Table.mk 2 1 "8" None ]).
Proof.
  split.
  - intro s1.
    apply (proj1 (@add_table_idempotent small_store s1 1 occupied_body
                    (table_updated (Table.mk 1 1 "7" (Some "Occupied")))
                    [("num", JStr "7"); ("status", JStr "Occupied")] "7"
                    eq_refl eq_refl eq_refl)).
    left. discriminate.
  - intro s2.
    destruct (proj2 (@add_table_idempotent small_store s2 1 null_status_body
                       (table_updated (Table.mk 2 1 "8" (Some "Available")))
                       [("num", JStr "8"); ("status", JNull)] "8"
                       eq_refl eq_refl eq_refl) eq_refl)
      as (tb & Eb & Et & _ & E1 & E2).
    + intros t [<- | []]. discriminate.
    + assert (Eid : Table.id tb = 2).
      { unfold table_updated, Table.to_dict in Eb. now injection Eb. }
      rewrite Eid in E1, E2.
      split; [reflexivity | split; [exact E1 | exact E2]].
Defined.

(** ** The table of a booking *)

(** X13.  Every booking of a full view belongs to a stored table, the one
    its [table_id] names, and is shown with the number of that table: on
    the way through the tables of the restaurant the raw id is never what
    is shown. *)
Theorem booking_table_resolved (s : db) (r : Restaurant.t) (j : json) :
  In j (flat_bookings s r) ->
  exists b tb,
    In b (bookings s) /\ In tb (tables s)
    /\ Table.id tb = Booking.table_id b
    /\ j = Booking.to_dict (tables s) b
    /\ field "tableNum" j = Some (JStr (Table.num tb)).
Proof.
  unfold flat_bookings. intro H.
  apply in_flat_map in H as (tb0 & Htb0 & Hj).
  apply in_map_iff in Hj as (b & <- & Hb).
  unfold bookings_of in Hb. apply filter_In in Hb as [Hb Eb].
  unfold tables_of in Htb0. apply filter_In in Htb0 as [Htb0 _].
  destruct (find (fun tb => Table.id tb =? Booking.table_id b) (tables s))
    as [tb|] eqn:Ef.
  - destruct (find_some _ _ Ef) as [Hin Eid]. apply Z.eqb_eq in Eid.
    exists b, tb. repeat split; auto.
    simpl. unfold Booking.table. now rewrite Ef.
  - pose proof (find_none _ _ Ef tb0 Htb0) as Hn. simpl in Hn.
    apply Z.eqb_eq in Eb. rewrite Eb, Z.eqb_refl in Hn. discriminate.
Qed.

Lemma booking_table_resolved_witness :
  exists b tb,
    In b (bookings booked_store) /\ In tb (tables booked_store)
    /\ field "tableNum" (Booking.to_dict (tables booked_store) b)
       = Some (JStr (Table.num tb)).
Proof.
  destruct (@booking_table_resolved booked_store
              (Restaurant.mk 1 "Spice & Flavor" None)
              (Booking.to_dict (tables booked_store)
                 (Booking.mk 1 4 (Some "Asha") (Some "2024-05-01T19:00")
                             (Some "2024-05-01T21:00"))))
    as (b & tb & H1 & H2 & _ & E & H5).
  - simpl. left. reflexivity.
  - exists b, tb. rewrite <- E. auto.
Defined.

(** ** Nothing is taken away *)

Lemma same_table_refl (t : Table.t) : same_table t t.
Proof. unfold same_table; auto. Qed.

Lemma same_table_trans (a b c : Table.t) :
  same_table a b -> same_table b c -> same_table a c.
Proof. unfold same_table; intuition congruence. Qed.

Lemma Forall2_update_found {A : Type} (R : A -> A -> Prop) (p : A -> bool)
    (l : list A) (x y : A) :
  (forall z, R z z) -> find p l = Some x -> R x y ->
  Forall2 R l (update_first p (fun _ => y) l).
Proof.
  intros Hr Hf Hxy; induction l as [|z l IH]; simpl in *; [constructor|].
  destruct (p z).
  - injection Hf as ->. constructor; [assumption | now apply Forall2_refl].
  - constructor; auto.
Qed.

Lemma extends_refl (s : db) : extends s s.
Proof.
  unfold extends. repeat split; try (exists []; now rewrite app_nil_r).
  exists (tables s), []. rewrite app_nil_r.
  split; [reflexivity | apply Forall2_refl, same_table_refl].
Qed.

Lemma extends_trans (s1 s2 s3 : db) :
  extends s1 s2 -> extends s2 s3 -> extends s1 s3.
Proof.
  intros ([u Hu] & [r Hr] & [i Hi] & [f Hf] & [o Ho] & (ts & t & Ht & HT))
         ([u' Hu'] & [r' Hr'] & [i' Hi'] & [f' Hf'] & [o' Ho'] & (ts' & t' & Ht' & HT')).
  unfold extends. repeat split.
  - exists (u ++ u')%list. now rewrite Hu', Hu, app_assoc.
  - exists (r ++ r')%list. now rewrite Hr', Hr, app_assoc.
  - exists (i ++ i')%list. now rewrite Hi', Hi, app_assoc.
  - exists (f ++ f')%list. now rewrite Hf', Hf, app_assoc.
  - exists (o ++ o')%list. now rewrite Ho', Ho, app_assoc.
  - rewrite Ht in HT'.
    apply Forall2_app_inv_l in HT' as (l1 & l2 & H1 & H2 & ->).
    exists l1, (l2 ++ t')%list. split; [now rewrite Ht', app_assoc|].
    eapply Forall2_trans; [exact same_table_trans | exact HT | exact H1].
Qed.

Lemma effect_extends (s s' : db) : effect s s' -> extends s s'.
Proof.
  intro E. destruct E; try apply extends_refl.
  all: unfold extends; simpl.
  all: try (repeat split; try (exists []; now rewrite app_nil_r);
            try (eexists; reflexivity);
            try (exists (tables s), []; rewrite app_nil_r;
                 split; [reflexivity | apply Forall2_refl, same_table_refl]);
            fail).
  - repeat split; try (exists []; now rewrite app_nil_r).
    exists (tables s), [tb]. split; [reflexivity|].
    apply Forall2_refl, same_table_refl.
  - repeat split; try (exists []; now rewrite app_nil_r).
    eexists _, []. rewrite app_nil_r. split; [reflexivity|].
    eapply Forall2_update_found; [exact same_table_refl | eassumption|].
    unfold same_table; simpl; auto.
  - unfold init_db. rewrite H. simpl.
    repeat split; try (exists []; now rewrite app_nil_r);
      try (eexists; reflexivity).
    eexists (tables s), _. split; [reflexivity|].
    apply Forall2_refl, same_table_refl.
Qed.

(** X16.  No run of the service takes anything away: the users,
    restaurants, incomes, feedback and orders a store holds are still
    there afterwards, first and unchanged, and so are its tables, which can
    change their status only. *)
Theorem nothing_removed (ops : list operation) (s : db) :
  extends s (run_all s ops).
Proof.
  revert s; induction ops as [|op ops IH]; intro s; simpl.
  - apply extends_refl.
  - eapply extends_trans; [apply effect_extends, perform_effect | apply IH].
Qed.

(** ** Keys and references *)

Lemma find_known (s : db) (rid : Z) (r : Restaurant.t) :
  find (fun r => Restaurant.id r =? rid) (restaurants s) = Some r ->
  known s (Restaurant.id r).
Proof.
  intro H. apply find_some in H as [H _]. unfold known. now apply in_map.
Qed.

Lemma known_has_restaurant (s : db) (rid : Z) :
  known s rid -> has_restaurant s rid.
Proof.
  unfold known, has_restaurant. intro H.
  destruct (find (fun r => Restaurant.id r =? rid) (restaurants s)) as [r|] eqn:Ef.
  - now exists r.
  - apply in_map_iff in H as (r & E & Hin).
    pose proof (find_none _ _ Ef r Hin) as Hn. simpl in Hn.
    rewrite E, Z.eqb_refl in Hn. discriminate.
Qed.

Lemma in_snoc {A : Type} (l : list A) (x y : A) :
  In y (l ++ [x]) -> In y l \/ y = x.
Proof. intro H. apply in_app_or in H as [H | [H | []]]; auto. Qed.

Lemma in_update_first {A : Type} (p : A -> bool) (f : A -> A) (l : list A) (y : A) :
  In y (update_first p f l) -> In y l \/ exists x, In x l /\ y = f x.
Proof.
  induction l as [|z l IH]; simpl; [contradiction|].
  destruct (p z); simpl.
  - intros [<- | H]; [right; exists z; auto | auto].
  - intros [<- | H]; [auto|].
    destruct (IH H) as [H' | (x & Hx & ->)]; [auto | right; exists x; auto].
Qed.

Lemma Forall2_in_r {A : Type} (R : A -> A -> Prop) (l l' : list A) (y : A) :
  Forall2 R l l' -> In y l' -> exists x, In x l /\ R x y.
Proof.
  induction 1 as [|a b l l' Hab _ IH]; simpl; [contradiction|].
  intros [<- | H]; [exists a; auto|].
  destruct (IH H) as (x & Hx & HR). exists x; auto.
Qed.

Lemma sound_empty : sound empty_db.
Proof. constructor; simpl; auto using NoDup_nil; contradiction. Qed.

Lemma sound_user (s : db) (u : User.t) :
  sound s ->
  User.id u = next_id (map User.id (users s)) ->
  (forall rid, User.restaurant_id u = Some rid -> known s rid) ->
  sound (set_users s (users s ++ [u])).
Proof.
  intros [] Hid Href. unfold known in *. constructor; unfold known; simpl; auto.
  all: try (rewrite map_app; apply NoDup_snoc; [assumption|];
            simpl; rewrite Hid; apply next_id_fresh).
  intros v rid Hv. apply in_snoc in Hv as [Hv | ->]; eauto.
Qed.

Lemma sound_restaurant (s : db) (n : string) :
  sound s ->
  sound (set_restaurants s
           (restaurants s ++
              [Restaurant.mk (next_id (map Restaurant.id (restaurants s))) n None])).
Proof.
  intros [].
  assert (K : forall rid, known s rid ->
                known (set_restaurants s
                         (restaurants s ++
                            [Restaurant.mk (next_id (map Restaurant.id (restaurants s)))
                                           n None])) rid).
  { unfold known. simpl. intros rid H. rewrite map_app. apply in_or_app. now left. }
  constructor; simpl; eauto.
  rewrite map_app. apply NoDup_snoc; [assumption | apply next_id_fresh].
Qed.

Lemma sound_menu (s : db) (ms : list MenuItem.t) :
  sound s ->
  (forall m, In m ms -> known s (MenuItem.restaurant_id m)) ->
  sound (set_menu_items s ms).
Proof. intros [] H. unfold known in *. constructor; unfold known; simpl; auto. Qed.

Lemma sound_table (s : db) (tb : Table.t) :
  sound s ->
  Table.id tb = next_id (map Table.id (tables s)) ->
  known s (Table.restaurant_id tb) ->
  sound (set_tables s (tables s ++ [tb])).
Proof.
  intros [] Hid Href. unfold known in *. constructor; unfold known; simpl; auto.
  all: try (rewrite map_app; apply NoDup_snoc; [assumption|];
            simpl; rewrite Hid; apply next_id_fresh).
  intros t Ht. apply in_snoc in Ht as [Ht | ->]; auto.
Qed.

Lemma sound_table_status (s : db) (p : Table.t -> bool) (tb : Table.t)
    (st : option string) :
  sound s ->
  find p (tables s) = Some tb ->
  sound (set_tables s
           (update_first p
              (fun _ => Table.mk (Table.id tb) (Table.restaurant_id tb)
                                 (Table.num tb) st)
              (tables s))).
Proof.
  intros [] Hf. unfold known in *. constructor; unfold known; simpl; auto.
  - erewrite map_update_found; [assumption | exact Hf | reflexivity].
  - intros t Ht. apply in_update_first in Ht as [Ht | (x & _ & ->)]; [auto|].
    simpl. apply find_some in Hf as [Hin _]. auto.
Qed.

Lemma sound_income (s : db) (i : Income.t) :
  sound s ->
  Income.id i = next_id (map Income.id (incomes s)) ->
  known s (Income.restaurant_id i) ->
  sound (set_incomes s (incomes s ++ [i])).
Proof.
  intros [] Hid Href. unfold known in *. constructor; unfold known; simpl; auto.
  all: try (rewrite map_app; apply NoDup_snoc; [assumption|];
            simpl; rewrite Hid; apply next_id_fresh).
  intros j Hj. apply in_snoc in Hj as [Hj | ->]; auto.
Qed.

Lemma sound_feedback (s : db) (f : Feedback.t) :
  sound s ->
  Feedback.id f = next_id (map Feedback.id (feedback s)) ->
  known s (Feedback.restaurant_id f) ->
  sound (set_feedback s (feedback s ++ [f])).
Proof.
  intros [] Hid Href. unfold known in *. constructor; unfold known; simpl; auto.
  all: try (rewrite map_app; apply NoDup_snoc; [assumption|];
            simpl; rewrite Hid; apply next_id_fresh).
  intros g Hg. apply in_snoc in Hg as [Hg | ->]; auto.
Qed.

Lemma sound_order (s : db) (o : Order.t) :
  sound s ->
  (forall o', In o' (orders s) -> Order.id o' <> Order.id o) ->
  known s (Order.restaurant_id o) ->
  sound (set_orders s (orders s ++ [o])).
Proof.
  intros [] Hid Href. unfold known in *. constructor; unfold known; simpl; auto.
  - rewrite map_app. apply NoDup_snoc; [assumption|].
    simpl. intro Hin. apply in_map_iff in Hin as (o' & E & Ho').
    exact (Hid o' Ho' E).
  - intros o' Ho'. apply in_snoc in Ho' as [Ho' | ->]; auto.
Qed.

Lemma sound_seed (s : db) : sound s -> sound (init_db s).
Proof.
  intro S. unfold init_db. destruct (restaurants s) eqn:E; [|exact S].
  destruct S. unfold known in *. rewrite E in *. simpl in *.
  assert (Ht : tables s = []).
  { destruct (tables s) as [|t l]; [reflexivity|].
    exfalso. apply (table_refs0 t). now left. }
  assert (Hm : menu_items s = []).
  { destruct (menu_items s) as [|m l]; [reflexivity|].
    exfalso. apply (menu_refs0 m). now left. }
  rewrite Ht, Hm. constructor; unfold known; simpl; auto.
  all: try (repeat constructor; simpl; intuition lia; fail).
  all: try (intros x [<- | [<- | [<- | []]]]; simpl; auto; fail).
  all: try (intros x Hx; exfalso; eauto; fail).
  intros u rid Hu Hr. exfalso. eauto.
Qed.

Lemma register_sound (s : db) (e : env) (body : json) :
  sound s -> sound (fst (register s e body)).
Proof.
  intro S. unfold register, insert_user, insert_restaurant, user_by_email.
  handler_cases; try exact S.
  all: try (apply sound_user; simpl; [exact S | reflexivity | discriminate]).
  all: apply (@sound_user (set_restaurants s _));
    [now apply sound_restaurant | reflexivity |].
  all: simpl; intros rid H; injection H as <-.
  all: unfold known; simpl; rewrite map_app; apply in_or_app; right; now left.
Qed.

Lemma add_menu_item_sound (s : db) (rid : Z) (body : json) :
  sound s -> sound (fst (add_menu_item s rid body)).
Proof.
  intro S. unfold add_menu_item. handler_cases; try exact S.
  apply sound_menu; [exact S|].
  intros m Hm. apply in_snoc in Hm as [Hm | ->].
  - now apply (menu_refs S).
  - simpl. eapply find_known. eassumption.
Qed.

Lemma add_table_sound (s : db) (rid : Z) (body : json) :
  sound s -> sound (fst (add_table s rid body)).
Proof.
  intro S. unfold add_table. handler_cases; try exact S.
  all: try (eapply sound_table_status; [exact S | eassumption]).
  all: apply sound_table; simpl;
    [exact S | reflexivity | eapply find_known; eassumption].
Qed.

Lemma add_income_sound (s : db) (e : env) (rid : Z) (body : json) :
  sound s -> sound (fst (add_income s e rid body)).
Proof.
  intro S. unfold add_income. handler_cases; try exact S.
  apply sound_income; simpl;
    [exact S | reflexivity | eapply find_known; eassumption].
Qed.

Lemma add_feedback_sound (s : db) (e : env) (rid : Z) (body : json) :
  sound s -> sound (fst (add_feedback s e rid body)).
Proof.
  intro S. unfold add_feedback. handler_cases; try exact S.
  apply sound_feedback; simpl;
    [exact S | reflexivity | eapply find_known; eassumption].
Qed.

Lemma create_order_sound (s : db) (e : env) (rid : Z) (body : json) :
  sound s -> sound (fst (create_order s e rid body)).
Proof.
  intro S.
  destruct (create_order_cases s e rid body)
    as [[-> _] | (r & d & total & un & me & ms & Hr & _ & _ & _ & _ & HR & Hf & ->)];
    [exact S|].
  simpl. apply (@sound_order (set_menu_items s ms)).
  - apply sound_menu; [exact S|].
    intros m Hm. destruct (@Forall2_in_r _ _ _ _ m HR Hm) as (m0 & Hm0 & (_ & E & _)).
    rewrite E. now apply (menu_refs S).
  - simpl. now apply existsb_order_id.
  - simpl. eapply find_known. eassumption.
Qed.

Lemma perform_sound (s : db) (op : operation) :
  sound s -> sound (fst (perform s op)).
Proof.
  intro S. destruct op; simpl;
    auto using register_sound, add_menu_item_sound, add_table_sound,
      add_income_sound, add_feedback_sound, create_order_sound, sound_seed.
  - unfold login, user_by_email. handler_cases; exact S.
  - unfold get_restaurant. handler_cases; exact S.
Qed.

Lemma reachable_sound (s : db) : reachable s -> sound s.
Proof.
  intros [ops ->].
  induction ops as [|op ops IH] using rev_ind; [exact sound_empty|].
  rewrite run_all_snoc. now apply perform_sound.
Qed.

(** X10.  Along every run the primary keys stay keys: no two users, no two
    restaurants, menu items, tables, incomes or feedback rows share an id,
    and no two orders share their eight characters. *)
Theorem primary_keys_unique (s : db) :
  reachable s ->
  NoDup (map User.id (users s))
  /\ NoDup (map Restaurant.id (restaurants s))
  /\ NoDup (map MenuItem.id (menu_items s))
  /\ NoDup (map Table.id (tables s))
  /\ NoDup (map Income.id (incomes s))
  /\ NoDup (map Feedback.id (feedback s))
  /\ NoDup (map Order.id (orders s)).
Proof.
  intro H. pose proof (reachable_sound H) as [].
  pose proof (menu_ids_unique (reachable_consistent H)).
  repeat split; assumption.
Qed.

Lemma primary_keys_unique_witness :
  NoDup (map Order.id
           (orders (run_all small_store
                      [ CreateOrder env0 1 two_dosas_body;
                        CreateOrder env1 1 mixed_order_body;
                        CreateOrder env1 1 two_dosas_body ]))).
Proof.
  apply (@primary_keys_unique
           (run_all small_store
              [ CreateOrder env0 1 two_dosas_body;
                CreateOrder env1 1 mixed_order_body;
                CreateOrder env1 1 two_dosas_body ])).
  exists [ Register env0 owner_body; AddMenuItem 1 dosa_body;
           AddTable 1 table_body; CreateOrder env0 1 two_dosas_body;
           CreateOrder env1 1 mixed_order_body;
           CreateOrder env1 1 two_dosas_body ].
  reflexivity.
Defined.

(** X11.  Along every run every reference to a restaurant points to one the
    store holds, so that the lookup of [get_or_404] finds it: the
    restaurant of a user that has one, and the restaurant of every menu
    item, table, income, feedback row and order. *)
Theorem references_resolve (s : db) :
  reachable s ->
  (forall u rid, In u (users s) -> User.restaurant_id u = Some rid ->
                 has_restaurant s rid)
  /\ (forall m, In m (menu_items s) -> has_restaurant s (MenuItem.restaurant_id m))
  /\ (forall tb, In tb (tables s) -> has_restaurant s (Table.restaurant_id tb))
  /\ (forall i, In i (incomes s) -> has_restaurant s (Income.restaurant_id i))
  /\ (forall f, In f (feedback s) -> has_restaurant s (Feedback.restaurant_id f))
  /\ (forall o, In o (orders s) -> has_restaurant s (Order.restaurant_id o)).
Proof.
  intro H. pose proof (reachable_sound H) as [].
  repeat split; intros; apply known_has_restaurant; eauto.
Qed.

Lemma references_resolve_witness :
  has_restaurant small_store
    (MenuItem.restaurant_id
       (MenuItem.mk 1 1 "Masala Dosa" (float_of_int 120) None (Some 0))).
Proof.
  apply (proj1 (proj2 (@references_resolve small_store small_store_reachable))).
  simpl. left. reflexivity.
Defined.

(** X9.  No request makes a booking: in every store the service reaches
    the table of bookings is empty, and the bookings of every full view are
    the empty list. *)
Theorem no_booking_is_made (s : db) :
  reachable s ->
  bookings s = []
  /\ forall r, field "bookings" (to_full s r) = Some (JArr []).
Proof.
  intro H. pose proof (no_bookings (reachable_sound H)) as Hb.
  split; [exact Hb|].
  intro r. unfold to_full. simpl. rewrite collect_bookings_spec. simpl.
  do 2 f_equal.
  induction (tables_of s r) as [|tb l IH]; simpl; [reflexivity|].
  rewrite IH. unfold bookings_of. rewrite Hb. reflexivity.
Qed.

Lemma no_booking_is_made_witness :
  bookings small_store = []
  /\ field "bookings" (to_full small_store registered_restaurant)
     = Some (JArr []).
Proof.
  destruct (@no_booking_is_made small_store small_store_reachable) as [H1 H2].
  split; [exact H1 | apply H2].
Defined.

(** ** The list view counts every row once *)

Lemma list_sum_zero {A : Type} (l : list A) :
  list_sum (map (fun _ => 0%nat) l) = 0%nat.
Proof. induction l; simpl; auto. Qed.

Lemma list_sum_plus {A : Type} (f g : A -> nat) (l : list A) :
  list_sum (map (fun x => (f x + g x)%nat) l)
  = (list_sum (map f l) + list_sum (map g l))%nat.
Proof. induction l as [|x l IH]; simpl; [reflexivity | rewrite IH; lia]. Qed.

Lemma list_sum_one (k : Z) (ids : list Z) :
  NoDup ids -> In k ids ->
  list_sum (map (fun i => if k =? i then 1%nat else 0%nat) ids) = 1%nat.
Proof.
  induction 1 as [|i ids Hi Hn IH]; simpl; [contradiction|].
  intros [-> | Hin].
  - rewrite Z.eqb_refl.
    assert (E : map (fun j => if k =? j then 1%nat else 0%nat) ids
                = map (fun _ => 0%nat) ids).
    { apply map_ext_in. intros j Hj.
      destruct (Z.eqb_spec k j); [subst; contradiction | reflexivity]. }
    rewrite E, list_sum_zero. reflexivity.
  - destruct (Z.eqb_spec k i); [subst; contradiction|]. simpl. auto.
Qed.

Lemma count_by_key {A : Type} (key : A -> Z) (ids : list Z) (l : list A) :
  NoDup ids -> (forall x, In x l -> In (key x) ids) ->
  list_sum (map (fun i => List.length (filter (fun x => key x =? i) l)) ids)
  = List.length l.
Proof.
  intros Hn. induction l as [|x l IH]; intro Hk; simpl.
  - apply list_sum_zero.
  - transitivity
      (list_sum (map (fun i => Nat.add (if key x =? i then 1%nat else 0%nat)
                                 (List.length (filter (fun y => key y =? i) l)))
                     ids)).
    { f_equal. apply map_ext. intro i. destruct (key x =? i); reflexivity. }
    rewrite list_sum_plus.
    rewrite (@list_sum_one (key x) ids Hn (Hk x (or_introl eq_refl))).
    rewrite IH by (intros y Hy; apply Hk; now right). reflexivity.
Qed.

(** X17.  In every store the service reaches, the counts of the list view
    add up: every menu item is counted in the menu of exactly one listed
    restaurant, and every table in the tables of exactly one. *)
Theorem list_counts_add_up (s : db) :
  reachable s ->
  list_sum (map (fun r => List.length (menu_items_of s r)) (restaurants s))
  = List.length (menu_items s)
  /\ list_sum (map (fun r => List.length (tables_of s r)) (restaurants s))
     = List.length (tables s).
Proof.
  intro H. pose proof (reachable_sound H) as [].
  unfold known in *. split.
  - rewrite <- (@count_by_key _ MenuItem.restaurant_id
                  (map Restaurant.id (restaurants s)) (menu_items s))
      by assumption.
    now rewrite map_map.
  - rewrite <- (@count_by_key _ Table.restaurant_id
                  (map Restaurant.id (restaurants s)) (tables s))
      by assumption.
    now rewrite map_map.
Qed.

Lemma list_counts_add_up_witness :
  list_sum (map (fun r => List.length (menu_items_of small_store r))
                (restaurants small_store))
  = List.length (menu_items small_store).
Proof.
  apply (proj1 (@list_counts_add_up small_store small_store_reachable)).
Defined.

(** ** Feedback and tables, as they are shown *)

(** X18.  A feedback that can be read, with ratings that fit 64 bits, is
    from then on the last feedback of the full view of its restaurant, with
    the time of the request and the ratings as [int()] read them. *)
Theorem added_feedback_shown (s : db) (e : env) (rid : Z) (body : json)
    (r : Restaurant.t) (d : dict) (un tx : option string) (fr sr : Z) :
  find (fun r => Restaurant.id r =? rid) (restaurants s) = Some r ->
  as_dict (py_or body (JObj [])) = inr d ->
  sql_text (get d "userName" (JStr "Anonymous")) = inr un ->
  py_int (get d "foodRating" (JInt 0)) = inr fr ->
  py_int (get d "serviceRating" (JInt 0)) = inr sr ->
  sql_text (get d "text" (JStr "")) = inr tx ->
  int64 fr = true -> int64 sr = true ->
  field "feedback" (to_full (fst (add_feedback s e rid body)) r)
  = Some (JArr (map Feedback.to_dict (feedback_of s r)
                ++ [ JObj [ ("id", JInt (next_id (map Feedback.id (feedback s))));
                            ("userName", opt_str un);
                            ("when", JStr (utcnow e));
                            ("foodRating", JInt fr);
                            ("serviceRating", JInt sr);
                            ("text", opt_str tx) ] ])).
Proof.
  intros Hr Hd Hun Hfr Hsr Htx Bfr Bsr.
  assert (Er : Restaurant.id r = rid)
    by (apply find_some in Hr as [_ E]; now apply Z.eqb_eq).
  unfold add_feedback, run, bind, py, leave, commit, get_or_404, sql_integer.
  rewrite Hr, Hd, Hun, Hfr, Hsr, Htx, Bfr, Bsr. simpl.
  unfold feedback_of. simpl. rewrite filter_snoc. simpl.
  rewrite Z.eqb_refl. now rewrite map_app.
Qed.

Lemma added_feedback_shown_witness :
  field "feedback"
    (to_full (fst (add_feedback small_store env1 1
                     (JObj [ ("foodRating", JStr "5"); ("text", JStr "Good") ])))
             registered_restaurant)
  = Some (JArr [ JObj [ ("id", JInt 1); ("userName", JStr "Anonymous");
                        ("when", JStr "2024-05-01T12:30:00");
                        ("foodRating", JInt 5); ("serviceRating", JInt 0);
                        ("text", JStr "Good") ] ]).
Proof.
  apply (@added_feedback_shown small_store env1 1
           (JObj [ ("foodRating", JStr "5"); ("text", JStr "Good") ])
           registered_restaurant
           [ ("foodRating", JStr "5"); ("text", JStr "Good") ]
           (Some "Anonymous") (Some "Good") 5 0); reflexivity.
Defined.

Lemma filter_update_found {A : Type} (p q : A -> bool) (l : list A) (x y : A) :
  find p l = Some x -> q y = q x ->
  List.length (filter q (update_first p (fun _ => y) l))
  = List.length (filter q l).
Proof.
  intros Hf Hq; induction l as [|z l IH]; simpl in *; [reflexivity|].
  destruct (p z); simpl.
  - injection Hf as ->. rewrite Hq. destruct (q x); reflexivity.
  - destruct (q z); simpl; auto.
Qed.

Lemma in_update_found {A : Type} (p : A -> bool) (l : list A) (x y : A) :
  find p l = Some x -> In y (update_first p (fun _ => y) l).
Proof.
  induction l as [|z l IH]; simpl; [discriminate|].
  destruct (p z); simpl; auto.
Qed.

(** X19.  The table of an answer of [add_table] is a table of the restaurant
    in the store as the request left it, with the number and the status of
    the request (Available for a new table whose status came as null); the
    restaurant has as many tables as before when one had that number, and
    one more when none had. *)
Theorem upserted_table_shown (s s1 : db) (rid : Z) (body b : json) :
  add_table s rid body = (s1, Json 201 b) ->
  exists r d n st tb,
    find (fun r => Restaurant.id r =? rid) (restaurants s1) = Some r
    /\ as_dict (py_or body (JObj [])) = inr d
    /\ sql_text (get d "num" JNull) = inr (Some n)
    /\ sql_text (get d "status" (JStr "Available")) = inr st
    /\ b = table_updated tb
    /\ Table.num tb = n
    /\ Table.status tb = match find (table_is rid n) (tables s), st with
                         | None, None => Some "Available"
                         | _, _ => st
                         end
    /\ In tb (tables_of s1 r)
    /\ List.length (tables_of s1 r)
       = (List.length (tables_of s r)
          + match find (table_is rid n) (tables s) with
            | Some _ => 0
            | None => 1
            end)%nat.
Proof.
  intro H.
  destruct (@add_table_accepted s s1 rid body b H)
    as (r & d & n & st & Hr & Hd & Hnum & Hn & Hst).
  assert (Er : Restaurant.id r = rid)
    by (apply find_some in Hr as [_ E]; now apply Z.eqb_eq).
  rewrite (@add_table_step s rid body r d n st Hr Hd Hnum Hn Hst) in H.
  exists r, d, n, st.
  destruct (find (table_is rid n) (tables s)) as [t|] eqn:Ef;
    cbv zeta in H; injection H as <- <-.
  - destruct (find_some _ _ Ef) as [_ Hp]. unfold table_is in Hp.
    apply andb_prop in Hp as [Hp1 Hp2].
    apply Z.eqb_eq in Hp1. apply String.eqb_eq in Hp2.
    eexists. repeat split; try eassumption; try reflexivity.
    + unfold tables_of. simpl. apply filter_In. split.
      * eapply in_update_found. exact Ef.
      * simpl. rewrite Hp1, Er. apply Z.eqb_refl.
    + unfold tables_of. simpl.
      rewrite (@filter_update_found _ _ _ _ t _ Ef) by reflexivity. lia.
  - eexists. repeat split; try eassumption; try reflexivity.
    + simpl. now destruct st.
    + unfold tables_of. simpl. apply filter_In. split.
      * apply in_or_app. right. now left.
      * simpl. rewrite Er. apply Z.eqb_refl.
    + unfold tables_of. simpl. rewrite filter_snoc. simpl.
      rewrite Er, Z.eqb_refl, length_app. reflexivity.
Qed.

Lemma upserted_table_shown_witness :
  exists r d n st tb,
    find (fun r => Restaurant.id r =? 1)
         (restaurants (fst (add_table small_store 1 null_status_body))) = Some r
    /\ as_dict (py_or null_status_body (JObj [])) = inr d
    /\ sql_text (get d "num" JNull) = inr (Some n)
    /\ sql_text (get d "status" (JStr "Available")) = inr st
    /\ Table.num tb = n
    /\ In tb (tables_of (fst (add_table small_store 1 null_status_body)) r)
    /\ List.length (tables_of (fst (add_table small_store 1 null_status_body)) r)
       = (List.length (tables_of small_store r)
          + match find (table_is 1 n) (tables small_store) with
            | Some _ => 0
            | None => 1
            end)%nat.
Proof.
  destruct (@upserted_table_shown small_store
              (fst (add_table small_store 1 null_status_body)) 1 null_status_body
              (table_updated (Table.mk 2 1 "8" (Some "Available"))) eq_refl)
    as (r & d & n & st & tb & H1 & H2 & H3 & H4 & _ & H6 & _ & H8 & H9).
  exists r, d, n, st, tb. auto 10.
Defined.

(** ** From the login to the restaurant *)

(** X20.  In every store the service reaches, a login that succeeds for a
    user of type restaurant carries the id of a restaurant the store holds,
    so that the GET of that id is answered with 200; for any other user the
    answer has no restaurantId. *)
Theorem login_leads_to_restaurant (s : db) (body b : json) :
  reachable s ->
  login s body = (s, Json 200 b) ->
  (exists rid r,
      field "type" b = Some (JStr "restaurant")
      /\ field "restaurantId" b = Some (JInt rid)
      /\ get_restaurant s rid = (s, Json 200 (to_full s r)))
  \/ (field "type" b <> Some (JStr "restaurant")
      /\ field "restaurantId" b = None).
Proof.
  intros Hs H.
  unfold login, run, bind, py, leave, user_by_email in H.
  repeat (simpl fst in H; simpl snd in H; split_match_in H); try discriminate.
  all: unfold leave in *; try congruence.
  all: injection H as <-.
  all: match goal with
       | Hf : find _ _ = Some ?u |- _ =>
           destruct (find_some _ _ Hf) as [Hin _]
       end.
  all: try match goal with
       | Ht : (User.type ?u =? _)%string = true,
         Hn : User.restaurant_id ?u = None |- _ =>
           apply String.eqb_eq in Ht; exfalso;
           exact (owners_linked (reachable_consistent Hs) u Hin Ht Hn)
       end.
  - match goal with
    | Ht : (User.type ?u =? _)%string = true,
      Hz : User.restaurant_id ?u = Some ?z |- _ =>
        apply String.eqb_eq in Ht;
        destruct (@known_has_restaurant _ z
                    (@user_refs _ (reachable_sound Hs) u z Hin Hz)) as [r Hr];
        left; exists z, r; rewrite Ht
    end.
    repeat split.
    unfold get_restaurant, run, bind, get_or_404, leave. now rewrite Hr.
  - right.
    match goal with
    | Ht : (User.type ?u =? "restaurant")%string = false |- _ =>
        apply String.eqb_neq in Ht
    end.
    split; [|reflexivity]. simpl. congruence.
Qed.

Lemma login_leads_to_restaurant_witness :
  (exists rid r,
      field "type" (JObj [ ("id", JInt 1); ("name", JStr "Spice & Flavor");
                           ("email", JStr "owner@example.com");
                           ("type", JStr "restaurant"); ("restaurantId", JInt 1) ])
      = Some (JStr "restaurant")
      /\ field "restaurantId"
           (JObj [ ("id", JInt 1); ("name", JStr "Spice & Flavor");
                   ("email", JStr "owner@example.com");
                   ("type", JStr "restaurant"); ("restaurantId", JInt 1) ])
         = Some (JInt rid)
      /\ get_restaurant small_store rid
         = (small_store, Json 200 (to_full small_store r)))
  \/ (field "type" (JObj [ ("id", JInt 1); ("name", JStr "Spice & Flavor");
                           ("email", JStr "owner@example.com");
                           ("type", JStr "restaurant"); ("restaurantId", JInt 1) ])
      <> Some (JStr "restaurant")
      /\ field "restaurantId"
           (JObj [ ("id", JInt 1); ("name", JStr "Spice & Flavor");
                   ("email", JStr "owner@example.com");
                   ("type", JStr "restaurant"); ("restaurantId", JInt 1) ])
         = None).
Proof.
  apply (@login_leads_to_restaurant small_store
           (login_body "owner@example.com" "s3cret")).
  - exact small_store_reachable.
  - reflexivity.
Defined.
